(** * Food Hunter: a shallow embedding of the recommendation pipeline

    The development follows the three Python sources:
    - [food_tool.py]  : [Tools.get_coordinates], [Tools.calculate_travel_times],
                        [Tools.get_place_details], [Tools.find_food];
    - [webui_tool.py] : the older variant of the same tool;
    - [bot.py]        : the saved list ([RestaurantView] callback, [delete_saved]),
                        the dedup set of [eat], and [load_data] / [save_data].

    Python values are the values [json.loads] produces; exceptions are an
    explicit result type; the upstream HTTP services and the random generator
    are a [world] that the code consumes call by call. *)

From Stdlib Require Import Ascii String ZArith QArith Qround List Bool Lia Permutation.
Import ListNotations.

Set Implicit Arguments.
Set Warnings "-register-all".

(** ** Text *)

(** A Python [str] is a sequence of code points. *)
Definition pystr := list N.

(** An ASCII literal of the source, as code points. *)
Definition lit (s : string) : pystr :=
  map N_of_ascii (list_ascii_of_string s).

Fixpoint pystr_eqb (a b : pystr) : bool :=
  match a, b with
  | [], [] => true
  | x :: a', y :: b' => N.eqb x y && pystr_eqb a' b'
  | _, _ => false
  end.

(** [s.startswith(p)]. *)
Fixpoint is_prefix (p s : pystr) : bool :=
  match p, s with
  | [], _ => true
  | _ :: _, [] => false
  | a :: p', b :: s' => N.eqb a b && is_prefix p' s'
  end.

(** [sub in s] on two strings. *)
Fixpoint str_contains (sub s : pystr) : bool :=
  is_prefix sub s ||
  match s with
  | [] => false
  | _ :: s' => str_contains sub s'
  end.

(** [sep.join(parts)] when every part is a string. *)
Fixpoint str_join (sep : pystr) (parts : list pystr) : pystr :=
  match parts with
  | [] => []
  | [p] => p
  | p :: rest => p ++ sep ++ str_join sep rest
  end.

(** Lexicographic order on code points, the order of [<=] on [str]. *)
Fixpoint str_leb (a b : pystr) : bool :=
  match a, b with
  | [], _ => true
  | _ :: _, [] => false
  | x :: a', y :: b' => if N.ltb x y then true else if N.eqb x y then str_leb a' b' else false
  end.

(** ** Floats *)

(** A binary64 value.  A finite float is given by the rational it denotes
    (every finite double is a rational); the sign of zero is not kept. *)
Inductive pyfloat :=
| FNaN
| FInf (negative : bool)
| FFin (q : Q).

(** [m * 2^e] as a rational. *)
Definition scale2 (m e : Z) : Q :=
  if (0 <=? e)%Z then inject_Z (m * 2 ^ e) else Qmake m (Z.to_pos (2 ^ (- e))).

(** The correctly rounded binary64 of the positive rational [n / d]
    ([0 < n], [0 < d]): round to nearest, ties to even, 53 significant bits,
    least exponent -1074 (subnormals), infinity from [2^1024] on. *)
Definition round64_pos (n d : Z) : pyfloat :=
  let E0 := (Z.log2 n - Z.log2 d)%Z in
  let above := if (0 <=? E0)%Z then (d * 2 ^ E0 <=? n)%Z else (d <=? n * 2 ^ (- E0))%Z in
  let L := if above then E0 else (E0 - 1)%Z in
  let e := Z.max (L - 52) (-1074) in
  let num := if (0 <=? e)%Z then n else (n * 2 ^ (- e))%Z in
  let den := if (0 <=? e)%Z then (d * 2 ^ e)%Z else d in
  let m0 := (num / den)%Z in
  let r := (num mod den)%Z in
  let m := if (2 * r <? den)%Z then m0
           else if (den <? 2 * r)%Z then (m0 + 1)%Z
           else if Z.even m0 then m0 else (m0 + 1)%Z in
  if ((0 <=? e) && (2 ^ 1024 <=? m * 2 ^ e))%Z then FInf false else FFin (scale2 m e).

Definition fneg (f : pyfloat) : pyfloat :=
  match f with
  | FNaN => FNaN
  | FInf s => FInf (negb s)
  | FFin q => FFin (- q)
  end.

(** The binary64 nearest to a rational. *)
Definition round64 (q : Q) : pyfloat :=
  match Qnum q with
  | Z0 => FFin 0
  | Zpos n => round64_pos (Zpos n) (Zpos (Qden q))
  | Zneg n => fneg (round64_pos (Zpos n) (Zpos (Qden q)))
  end.

Definition fis_zero (f : pyfloat) : bool :=
  match f with
  | FFin q => Qeq_bool q 0
  | _ => false
  end.

(** ** Values and exceptions *)

(** The values [json.loads] produces.  A [dict] keeps insertion order and its
    keys are strings. *)
Inductive pyval :=
| PNone
| PBool (b : bool)
| PInt (z : Z)
| PFloat (f : pyfloat)
| PStr (s : pystr)
| PList (l : list pyval)
| PDict (d : list (pystr * pyval)).

(** The exceptions the code can meet.  [RequestsError] stands for whatever
    [requests.get(...).json()] raises (connection failure, timeout, a body that
    is not JSON), with its message. *)
Inductive exn :=
| KeyError (key : pyval)
| IndexError
| TypeError
| AttributeError
| ValueError
| OverflowError
| ZeroDivisionError
| UnicodeEncodeError
| RequestsError (msg : pystr).

Inductive res (A : Type) :=
| Return (a : A)
| Raise (e : exn).

Arguments Return {A} a.
Arguments Raise {A} e.

Definition rbind {A B} (r : res A) (k : A -> res B) : res B :=
  match r with
  | Return a => k a
  | Raise e => Raise e
  end.

Declare Scope py_scope.
Delimit Scope py_scope with py.
Notation "x <- c ;; k" := (rbind c (fun x => k))
  (at level 61, c at next level, right associativity) : py_scope.

(** [mapM] for [res]: a comprehension whose element expression may raise. *)
Fixpoint rmap {A B} (f : A -> res B) (l : list A) : res (list B) :=
  match l with
  | [] => Return []
  | a :: l' =>
      (b <- f a ;; bs <- rmap f l' ;; Return (b :: bs))%py
  end.

(** A comprehension with a condition that may raise. *)
Fixpoint rfilter {A} (f : A -> res bool) (l : list A) : res (list A) :=
  match l with
  | [] => Return []
  | a :: l' =>
      (b <- f a ;; rest <- rfilter f l' ;; Return (if b then a :: rest else rest))%py
  end.

(** ** Numbers *)

(** [bool], [int] and [float] compare with one another by value. *)
Inductive num :=
| NumZ (z : Z)
| NumF (f : pyfloat).

Definition to_num (v : pyval) : option num :=
  match v with
  | PBool b => Some (NumZ (if b then 1 else 0))
  | PInt z => Some (NumZ z)
  | PFloat f => Some (NumF f)
  | _ => None
  end.

Definition float_eqb (f g : pyfloat) : bool :=
  match f, g with
  | FFin p, FFin q => Qeq_bool p q
  | FInf s, FInf t => Bool.eqb s t
  | _, _ => false
  end.

Definition float_leb (f g : pyfloat) : bool :=
  match f, g with
  | FNaN, _ | _, FNaN => false
  | FInf true, _ => true
  | _, FInf false => true
  | FInf false, _ => false
  | _, FInf true => false
  | FFin p, FFin q => Qle_bool p q
  end.

Definition num_float (n : num) : pyfloat :=
  match n with
  | NumZ z => FFin (inject_Z z)
  | NumF f => f
  end.

(** The comparison of an [int] with a [float] is exact in Python, so both
    sides are compared as the rationals they denote. *)
Definition num_eqb (a b : num) : bool := float_eqb (num_float a) (num_float b).
Definition num_leb (a b : num) : bool := float_leb (num_float a) (num_float b).

(** ** Operations on values *)

Fixpoint dict_find (k : pystr) (d : list (pystr * pyval)) : option pyval :=
  match d with
  | [] => None
  | (k', v) :: d' => if pystr_eqb k k' then Some v else dict_find k d'
  end.

(** [d[k] = v]: an existing key keeps its place, a new key goes last. *)
Fixpoint dict_set (k : pystr) (v : pyval) (d : list (pystr * pyval)) : list (pystr * pyval) :=
  match d with
  | [] => [(k, v)]
  | (k', v') :: d' => if pystr_eqb k k' then (k', v) :: d' else (k', v') :: dict_set k v d'
  end.

(** [bool(v)]. *)
Definition truthy (v : pyval) : bool :=
  match v with
  | PNone => false
  | PBool b => b
  | PInt z => negb (z =? 0)%Z
  | PFloat f => negb (fis_zero f)
  | PStr s => match s with [] => false | _ => true end
  | PList l => match l with [] => false | _ => true end
  | PDict d => match d with [] => false | _ => true end
  end.

(** [a == b]. *)
Fixpoint py_eqb (a b : pyval) {struct a} : bool :=
  match a, b with
  | PNone, PNone => true
  | PStr s, PStr t => pystr_eqb s t
  | PList l, PList m =>
      (fix all2 (l m : list pyval) : bool :=
         match l, m with
         | [], [] => true
         | x :: l', y :: m' => py_eqb x y && all2 l' m'
         | _, _ => false
         end) l m
  | PDict d, PDict d' =>
      Nat.eqb (length d) (length d') &&
      (fix each (d : list (pystr * pyval)) : bool :=
         match d with
         | [] => true
         | (k, v) :: rest =>
             match dict_find k d' with
             | Some v' => py_eqb v v'
             | None => false
             end && each rest
         end) d
  | PBool x, _ =>
      match to_num b with Some n => num_eqb (NumZ (if x then 1 else 0)) n | None => false end
  | PInt x, _ =>
      match to_num b with Some n => num_eqb (NumZ x) n | None => false end
  | PFloat x, _ =>
      match to_num b with Some n => num_eqb (NumF x) n | None => false end
  | _, _ => false
  end.

(** [a <= b]: numbers by value, strings and lists lexicographically;
    anything else is not ordered. *)
Fixpoint py_le (a b : pyval) {struct a} : res bool :=
  match a, b with
  | PStr s, PStr t => Return (str_leb s t)
  | PList l, PList m =>
      (fix lex (l m : list pyval) : res bool :=
         match l, m with
         | [], _ => Return true
         | _ :: _, [] => Return false
         | x :: l', y :: m' => if py_eqb x y then lex l' m' else py_le x y
         end) l m
  | _, _ =>
      match to_num a, to_num b with
      | Some x, Some y => Return (num_leb x y)
      | _, _ => Raise TypeError
      end
  end.

(** [a >= b]. *)
Definition py_ge (a b : pyval) : res bool := py_le b a.

(** [x in l] for a list [l]. *)
Definition py_in (x : pyval) (l : list pyval) : bool := existsb (py_eqb x) l.

(** [o.get(k, default)]: only a [dict] has the method. *)
Definition py_get (o : pyval) (k : pystr) (default : pyval) : res pyval :=
  match o with
  | PDict d => Return (match dict_find k d with Some v => v | None => default end)
  | _ => Raise AttributeError
  end.

(** [o[k]] for a string key. *)
Definition py_item (o : pyval) (k : pystr) : res pyval :=
  match o with
  | PDict d => match dict_find k d with Some v => Return v | None => Raise (KeyError (PStr k)) end
  | _ => Raise TypeError
  end.

(** [p[k] = v] for a string key. *)
Definition py_setitem (o : pyval) (k : pystr) (v : pyval) : res pyval :=
  match o with
  | PDict d => Return (PDict (dict_set k v d))
  | _ => Raise TypeError
  end.

(** [o[i]] for an index that is a non-negative literal. *)
Definition py_index (o : pyval) (i : nat) : res pyval :=
  match o with
  | PList l => match nth_error l i with Some v => Return v | None => Raise IndexError end
  | PStr s => match nth_error s i with Some c => Return (PStr [c]) | None => Raise IndexError end
  | PDict _ => Raise (KeyError (PInt (Z.of_nat i)))
  | _ => Raise TypeError
  end.

(** [k in o] for a string [k]. *)
Definition py_contains (k : pystr) (o : pyval) : res bool :=
  match o with
  | PDict d => Return (match dict_find k d with Some _ => true | None => false end)
  | PList l => Return (py_in (PStr k) l)
  | PStr s => Return (str_contains k s)
  | _ => Raise TypeError
  end.

(** The elements a [for] loop or a comprehension sees. *)
Definition py_iter (o : pyval) : res (list pyval) :=
  match o with
  | PList l => Return l
  | PStr s => Return (map (fun c => PStr [c]) s)
  | PDict d => Return (map (fun kv => PStr (fst kv)) d)
  | _ => Raise TypeError
  end.

(** [sep.join(items)]: every item must be a [str]. *)
Definition py_join (sep : pystr) (items : list pyval) : res pystr :=
  (parts <- rmap (fun v => match v with PStr s => Return s | _ => Raise TypeError end) items ;;
   Return (str_join sep parts))%py.

(** [float(z)] for an [int]: the nearest double, or [OverflowError]. *)
Definition float_of_int (z : Z) : res pyfloat :=
  match round64 (inject_Z z) with
  | FInf _ => Raise OverflowError
  | f => Return f
  end.

Definition float_div (x y : pyfloat) : res pyfloat :=
  if fis_zero y then Raise ZeroDivisionError
  else
    match x, y with
    | FNaN, _ | _, FNaN => Return FNaN
    | FInf _, FInf _ => Return FNaN
    | FInf s, FFin q => Return (FInf (xorb s (Qle_bool q 0)))
    | FFin _, FInf _ => Return (FFin 0)
    | FFin p, FFin q => Return (round64 (p / q))
    end.

(** [a / b]: true division.  Two integers give the correctly rounded quotient
    of the integers themselves; otherwise both sides become floats first. *)
Definition py_truediv (a b : pyval) : res pyval :=
  match to_num a, to_num b with
  | Some (NumZ x), Some (NumZ y) =>
      if (y =? 0)%Z then Raise ZeroDivisionError
      else match round64 (inject_Z x / inject_Z y) with
           | FInf _ => Raise OverflowError
           | f => Return (PFloat f)
           end
  | Some x, Some y =>
      (fx <- match x with NumZ z => float_of_int z | NumF f => Return f end ;;
       fy <- match y with NumZ z => float_of_int z | NumF f => Return f end ;;
       q <- float_div fx fy ;;
       Return (PFloat q))%py
  | _, _ => Raise TypeError
  end.

(** [math.ceil(x)]. *)
Definition math_ceil (x : pyval) : res pyval :=
  match x with
  | PFloat FNaN => Raise ValueError
  | PFloat (FInf _) => Raise OverflowError
  | PFloat (FFin q) => Return (PInt (Qceiling q))
  | PInt z => Return (PInt z)
  | PBool b => Return (PInt (if b then 1 else 0))
  | _ => Raise TypeError
  end.

(** ** The interpreter's formatting *)

(** What the model leaves to the Python runtime:
    - [format_value v]: the text of [str(v)] for a value that is not a string
      (what an f-string inserts);
    - [str_exn e]: the text of [str(e)] for an exception;
    - [json_number v]: the text [json.dump] writes for an [int] or a [float];
    - [number_of_literal t]: the number [json.load] reads from the literal [t]. *)
Record runtime := {
  format_value : pyval -> pystr;
  str_exn : exn -> pystr;
  json_number : pyval -> pystr;
  number_of_literal : pystr -> pyval
}.

(** [f"{v}"]: a string is inserted as it is. *)
Definition fmt (rt : runtime) (v : pyval) : pystr :=
  match v with
  | PStr s => s
  | _ => format_value rt v
  end.

(** ** The world: upstream services and randomness *)

Record request := {
  req_url : pystr;
  req_params : list (pystr * pyval)
}.

(** [upstream] lists the outcome of each HTTP call still to come, in the order
    the calls are made (a run of the code is sequential); once it is used up
    every further call fails.  [sent] records the requests made.  [entropy]
    feeds the random generator. *)
Record world := {
  upstream : list (res pyval);
  sent : list request;
  entropy : list nat
}.

(** Code that may raise and that reads and writes a state [S]: what was written
    before an exception stays written. *)
Definition SE (S A : Type) : Type := S -> res A * S.

(** Code that may raise and may use the world. *)
Definition M (A : Type) : Type := SE world A.

Definition ret {S A} (a : A) : SE S A := fun w => (Return a, w).

Definition bind {S A B} (c : SE S A) (k : A -> SE S B) : SE S B :=
  fun w =>
    match c w with
    | (Return a, w') => k a w'
    | (Raise e, w') => (Raise e, w')
    end.

Definition lift {S A} (r : res A) : SE S A := fun w => (r, w).

(** [try: body except ...: handler] for a handler that catches everything the
    body can raise. *)
Definition try_except {S A} (body : SE S A) (handler : exn -> SE S A) : SE S A :=
  fun w =>
    match body w with
    | (Return a, w') => (Return a, w')
    | (Raise e, w') => handler e w'
    end.

Declare Scope io_scope.
Delimit Scope io_scope with io.
Notation "x <- c ;; k" := (bind c (fun x => k))
  (at level 61, c at next level, right associativity) : io_scope.

Fixpoint mapM {A B} (f : A -> M B) (l : list A) : M (list B) :=
  match l with
  | [] => ret []
  | a :: l' => (b <- f a ;; bs <- mapM f l' ;; ret (b :: bs))%io
  end.

(** [requests.get(url, params=params, timeout=...).json()]. *)
Definition requests_get_json (url : pystr) (params : list (pystr * pyval)) : M pyval :=
  fun w =>
    let w' := {| upstream := tl (upstream w);
                 sent := sent w ++ [{| req_url := url; req_params := params |}];
                 entropy := entropy w |} in
    match upstream w with
    | [] => (Raise (RequestsError (lit "connection failed")), w')
    | r :: _ => (r, w')
    end.

(** [randbelow(n)]: any number below [n] can come out. *)
Definition randbelow (n : nat) : M nat :=
  fun w =>
    ((Return (hd 0%nat (entropy w) mod n)%nat),
     {| upstream := upstream w; sent := sent w; entropy := tl (entropy w) |}).

(** [pool[j] = x]. *)
Fixpoint list_set {A} (j : nat) (x : A) (l : list A) : list A :=
  match l, j with
  | [], _ => []
  | _ :: l', O => x :: l'
  | a :: l', S j' => a :: list_set j' x l'
  end.

(** The selection loop of [random.sample] (the pool branch, taken for every
    population of at most 21 elements):
    [j = randbelow(n - i); result[i] = pool[j]; pool[j] = pool[n - i - 1]]. *)
Fixpoint sample_loop {A} (k : nat) (pool : list A) : M (list A) :=
  match k with
  | O => ret []
  | S k' =>
      match pool with
      | [] => ret []
      | x0 :: _ =>
          let n := length pool in
          (j <- randbelow n ;;
           let picked := nth j pool x0 in
           let pool' := firstn (n - 1) (list_set j (nth (n - 1) pool x0) pool) in
           rest <- sample_loop k' pool' ;;
           ret (picked :: rest))%io
      end
  end.

(** [random.sample(population, k)]. *)
Definition random_sample {A} (population : list A) (k : nat) : M (list A) :=
  if (length population <? k)%nat then lift (Raise ValueError)
  else sample_loop k population.


(** ** json: [json.dump(obj, f, ensure_ascii=False, indent=2)] and [json.load(f)] *)

Module Json.

(** The escapes of [encode_basestring]: the quote, the backslash and the
    control characters below U+0020; every other character is written as it
    is. *)
Definition hex_digit (n : N) : N := (if n <? 10 then 48 + n else 87 + n)%N.

Definition escape_char (c : N) : pystr :=
  (if c =? 34 then [92; 34]
   else if c =? 92 then [92; 92]
   else if c =? 10 then [92; 110]
   else if c =? 13 then [92; 114]
   else if c =? 9 then [92; 116]
   else if c =? 8 then [92; 98]
   else if c =? 12 then [92; 102]
   else if c <? 32 then [92; 117; 48; 48; hex_digit (c / 16); hex_digit (c mod 16)]
   else [c])%N.

Definition encode_string (s : pystr) : pystr :=
  34%N :: flat_map escape_char s ++ [34%N].

(** A newline and the indentation of a nesting level. *)
Definition newline_indent (level : nat) : pystr := 10%N :: repeat 32%N (2 * level).

(** The text of a value at a nesting level: items of a non-empty list or dict
    go one per line, separated by [","]; a key and its value by [": "]. *)
Fixpoint encode (rt : runtime) (level : nat) (v : pyval) {struct v} : pystr :=
  match v with
  | PNone => lit "null"
  | PBool true => lit "true"
  | PBool false => lit "false"
  | PInt _ | PFloat _ => json_number rt v
  | PStr s => encode_string s
  | PList [] => lit "[]"
  | PList (x :: xs) =>
      lit "[" ++ newline_indent (S level) ++ encode rt (S level) x ++
      flat_map (fun y => lit "," ++ newline_indent (S level) ++ encode rt (S level) y) xs ++
      newline_indent level ++ lit "]"
  | PDict [] => lit "{}"
  | PDict ((k, x) :: kvs) =>
      lit "{" ++ newline_indent (S level) ++ encode_string k ++ lit ": " ++
      encode rt (S level) x ++
      flat_map (fun ky => lit "," ++ newline_indent (S level) ++ encode_string (fst ky) ++
                          lit ": " ++ encode rt (S level) (snd ky)) kvs ++
      newline_indent level ++ lit "}"
  end.

(** [json.dumps(v, ensure_ascii=False, indent=2)]. *)
Definition dumps (rt : runtime) (v : pyval) : pystr := encode rt 0 v.

(** *** Decoding *)

Definition is_ws (c : N) : bool := ((c =? 32) || (c =? 9) || (c =? 10) || (c =? 13))%N.

Fixpoint skip_ws (s : pystr) : pystr :=
  match s with
  | c :: s' => if is_ws c then skip_ws s' else s
  | [] => []
  end.

Definition is_digit (c : N) : bool := ((48 <=? c) && (c <=? 57))%N.

Definition hex_value (c : N) : option N :=
  (if (48 <=? c) && (c <=? 57) then Some (c - 48)
   else if (97 <=? c) && (c <=? 102) then Some (c - 87)
   else if (65 <=? c) && (c <=? 70) then Some (c - 55)
   else None)%N.

Definition hex4 (a b c d : N) : option N :=
  match hex_value a, hex_value b, hex_value c, hex_value d with
  | Some x, Some y, Some z, Some t => Some (((x * 16 + y) * 16 + z) * 16 + t)%N
  | _, _, _, _ => None
  end.

(** The character a one-letter escape stands for. *)
Definition unescape (e : N) : option N :=
  (if e =? 34 then Some 34
   else if e =? 92 then Some 92
   else if e =? 47 then Some 47
   else if e =? 98 then Some 8
   else if e =? 102 then Some 12
   else if e =? 110 then Some 10
   else if e =? 114 then Some 13
   else if e =? 116 then Some 9
   else None)%N.

Definition push (c : N) (r : option (pystr * pystr)) : option (pystr * pystr) :=
  match r with
  | Some (s, rest) => Some (c :: s, rest)
  | None => None
  end.

(** [scanstring]: the text that follows an opening quote, up to and including
    the closing quote; a raw control character is refused (strict mode), and a
    [\uXXXX] pair of surrogates gives one character. *)
Fixpoint scan_string (s : pystr) : option (pystr * pystr) :=
  match s with
  | [] => None
  | c :: s1 =>
      if (c =? 34)%N then Some ([], s1)
      else if (c =? 92)%N then
        match s1 with
        | [] => None
        | e :: s2 =>
            if (e =? 117)%N then
              match s2 with
              | h1 :: h2 :: h3 :: h4 :: s3 =>
                  match hex4 h1 h2 h3 h4 with
                  | None => None
                  | Some uni =>
                      if ((55296 <=? uni) && (uni <=? 56319))%N then
                        match s3 with
                        | b :: u :: g1 :: g2 :: g3 :: g4 :: s4 =>
                            if ((b =? 92) && (u =? 117))%N then
                              match hex4 g1 g2 g3 g4 with
                              | None => None
                              | Some uni2 =>
                                  if ((56320 <=? uni2) && (uni2 <=? 57343))%N
                                  then push (65536 + ((uni - 55296) * 1024 + (uni2 - 56320)))%N
                                            (scan_string s4)
                                  else push uni (scan_string s3)
                              end
                            else push uni (scan_string s3)
                        | _ => push uni (scan_string s3)
                        end
                      else push uni (scan_string s3)
                  end
              | _ => None
              end
            else
              match unescape e with
              | Some ch => push ch (scan_string s2)
              | None => None
              end
        end
      else if (c <? 32)%N then None
      else push c (scan_string s1)
  end.

(** [dict(pairs)]: a repeated key keeps its first place and its last value. *)
Definition dict_of_pairs (pairs : list (pystr * pyval)) : list (pystr * pyval) :=
  fold_left (fun d kv => dict_set (fst kv) (snd kv) d) pairs [].

Fixpoint take_digits (s : pystr) : pystr * pystr :=
  match s with
  | c :: s' => if is_digit c then let (ds, r) := take_digits s' in (c :: ds, r) else ([], s)
  | [] => ([], [])
  end.

(** The span of a number literal at the head of [s]:
    an optional sign, [0] or a run of digits that does not start with [0],
    an optional fraction, an optional exponent. *)
Definition scan_number (s : pystr) : option (pystr * pystr) :=
  let (sign, s0) :=
    match s with
    | c :: s' => if (c =? 45)%N then ([c], s') else ([], s)
    | [] => ([], [])
    end in
  match s0 with
  | [] => None
  | c :: s1 =>
      let int_part :=
        if (c =? 48)%N then Some ([c], s1)
        else if is_digit c then let (ds, r) := take_digits s1 in Some (c :: ds, r)
        else None in
      match int_part with
      | None => None
      | Some (ip, r1) =>
          let (frac, r2) :=
            match r1 with
            | dot :: d :: r =>
                if ((dot =? 46)%N && is_digit d)
                then let (ds, r') := take_digits r in (dot :: d :: ds, r')
                else ([], r1)
            | _ => ([], r1)
            end in
          let (expo, r3) :=
            match r2 with
            | e :: r =>
                if ((e =? 101) || (e =? 69))%N then
                  let (sg, r') :=
                    match r with
                    | c' :: r'' => if ((c' =? 45) || (c' =? 43))%N then ([c'], r'') else ([], r)
                    | [] => ([], [])
                    end in
                  match take_digits r' with
                  | ([], _) => ([], r2)
                  | (ds, r'') => (e :: sg ++ ds, r'')
                  end
                else ([], r2)
            | [] => ([], r2)
            end in
          Some (sign ++ ip ++ frac ++ expo, r3)
      end
  end.

(** [s] without the prefix [p], when it starts with it. *)
Fixpoint strip_prefix (p s : pystr) : option pystr :=
  match p, s with
  | [], _ => Some s
  | _ :: _, [] => None
  | a :: p', b :: s' => if (a =? b)%N then strip_prefix p' s' else None
  end.

(** A value that is neither a string, an object nor an array. *)
Definition scan_atom (rt : runtime) (s : pystr) : option (pyval * pystr) :=
  match strip_prefix (lit "null") s with
  | Some r => Some (PNone, r)
  | None =>
  match strip_prefix (lit "true") s with
  | Some r => Some (PBool true, r)
  | None =>
  match strip_prefix (lit "false") s with
  | Some r => Some (PBool false, r)
  | None =>
  match strip_prefix (lit "NaN") s with
  | Some r => Some (PFloat FNaN, r)
  | None =>
  match strip_prefix (lit "Infinity") s with
  | Some r => Some (PFloat (FInf false), r)
  | None =>
  match strip_prefix (lit "-Infinity") s with
  | Some r => Some (PFloat (FInf true), r)
  | None =>
  match scan_number s with
  | Some (text, r) => Some (number_of_literal rt text, r)
  | None => None
  end end end end end end end.

(** [scan_once], [JSONArray] and [JSONObject].  [fuel] bounds the depth of the
    calls; [loads] gives enough of it for any text. *)
Fixpoint parse_value (rt : runtime) (fuel : nat) (s : pystr) {struct fuel}
    : option (pyval * pystr) :=
  match fuel with
  | O => None
  | S fuel' =>
      match s with
      | [] => None
      | c :: s1 =>
          if (c =? 34)%N then
            match scan_string s1 with
            | Some (str, r) => Some (PStr str, r)
            | None => None
            end
          else if (c =? 123)%N then
            match skip_ws s1 with
            | c2 :: s3 =>
                if (c2 =? 125)%N then Some (PDict [], s3)
                else if (c2 =? 34)%N then
                  match parse_members rt fuel' s3 with
                  | Some (pairs, r) => Some (PDict (dict_of_pairs pairs), r)
                  | None => None
                  end
                else None
            | [] => None
            end
          else if (c =? 91)%N then
            match skip_ws s1 with
            | c2 :: s3 =>
                if (c2 =? 93)%N then Some (PList [], s3)
                else
                  match parse_elements rt fuel' (c2 :: s3) with
                  | Some (values, r) => Some (PList values, r)
                  | None => None
                  end
            | [] => None
            end
          else scan_atom rt s
      end
  end
with parse_elements (rt : runtime) (fuel : nat) (s : pystr) {struct fuel}
    : option (list pyval * pystr) :=
  match fuel with
  | O => None
  | S fuel' =>
      match parse_value rt fuel' s with
      | None => None
      | Some (v, r) =>
          match skip_ws r with
          | c :: r1 =>
              if (c =? 93)%N then Some ([v], r1)
              else if (c =? 44)%N then
                match parse_elements rt fuel' (skip_ws r1) with
                | Some (vs, r2) => Some (v :: vs, r2)
                | None => None
                end
              else None
          | [] => None
          end
      end
  end
with parse_members (rt : runtime) (fuel : nat) (s : pystr) {struct fuel}
    : option (list (pystr * pyval) * pystr) :=
  match fuel with
  | O => None
  | S fuel' =>
      match scan_string s with
      | None => None
      | Some (key, r) =>
          match skip_ws r with
          | c :: r1 =>
              if (c =? 58)%N then
                match parse_value rt fuel' (skip_ws r1) with
                | None => None
                | Some (v, r2) =>
                    match skip_ws r2 with
                    | c2 :: r3 =>
                        if (c2 =? 125)%N then Some ([(key, v)], r3)
                        else if (c2 =? 44)%N then
                          match skip_ws r3 with
                          | c3 :: r4 =>
                              if (c3 =? 34)%N then
                                match parse_members rt fuel' r4 with
                                | Some (kvs, r5) => Some ((key, v) :: kvs, r5)
                                | None => None
                                end
                              else None
                          | [] => None
                          end
                        else None
                    | [] => None
                    end
                end
              else None
          | [] => None
          end
      end
  end.

(** [json.loads(text)]: [None] stands for [JSONDecodeError].  A text that
    starts with a byte order mark is refused.  The reading goes as deep as
    the text is nested and takes a number literal of any length: the
    recursion limit of the interpreter ([RecursionError] past about a
    thousand levels) and its limit on the digits of an integer literal are
    not modelled, so what is stated of a text that is read is stated for
    texts within them. *)
Definition loads (rt : runtime) (text : pystr) : option pyval :=
  if is_prefix [65279%N] text then None
  else
    match parse_value rt (2 * length text + 2) (skip_ws text) with
    | Some (v, r) => match skip_ws r with [] => Some v | _ :: _ => None end
    | None => None
    end.

End Json.

(** ** food_tool.py *)

Definition OK : pyval := PStr (lit "OK").
Definition zh_TW : pyval := PStr (lit "zh-TW").

(** A [dict] whose keys are arbitrary hashable values ([travel_data]). *)
Definition hashable (v : pyval) : bool :=
  match v with
  | PList _ | PDict _ => false
  | _ => true
  end.

Fixpoint tdict_find (k : pyval) (d : list (pyval * pyval)) : option pyval :=
  match d with
  | [] => None
  | (k', v) :: d' => if py_eqb k k' then Some v else tdict_find k d'
  end.

Fixpoint tdict_put (k v : pyval) (d : list (pyval * pyval)) : list (pyval * pyval) :=
  match d with
  | [] => [(k, v)]
  | (k', v') :: d' => if py_eqb k k' then (k', v) :: d' else (k', v') :: tdict_put k v d'
  end.

(** [d[k] = v]. *)
Definition tdict_setitem (k v : pyval) (d : list (pyval * pyval)) : res (list (pyval * pyval)) :=
  if hashable k then Return (tdict_put k v d) else Raise TypeError.

(** [k in d]. *)
Definition tdict_contains (k : pyval) (d : list (pyval * pyval)) : res bool :=
  if hashable k
  then Return (match tdict_find k d with Some _ => true | None => false end)
  else Raise TypeError.

(** [d[k]]. *)
Definition tdict_getitem (k : pyval) (d : list (pyval * pyval)) : res pyval :=
  if hashable k
  then match tdict_find k d with Some v => Return v | None => Raise (KeyError k) end
  else Raise TypeError.

Module FoodTool.

Record Tools := { GOOGLE_API_KEY : pystr }.

Definition get_coordinates (self : Tools) (location_name : pyval) : M (pyval * pyval) :=
  if negb (truthy location_name) then ret (PNone, PNone)
  else
    let url := lit "https://maps.googleapis.com/maps/api/geocode/json" in
    let params := [(lit "address", location_name);
                   (lit "key", PStr (GOOGLE_API_KEY self));
                   (lit "language", zh_TW)] in
    try_except
      (res <- requests_get_json url params ;;
       status <- lift (py_item res (lit "status")) ;;
       if py_eqb status OK then
         results <- lift (py_item res (lit "results")) ;;
         first <- lift (py_index results 0) ;;
         geometry <- lift (py_item first (lit "geometry")) ;;
         loc <- lift (py_item geometry (lit "location")) ;;
         lat <- lift (py_item loc (lit "lat")) ;;
         lng <- lift (py_item loc (lit "lng")) ;;
         ret (lat, lng)
       else ret (PNone, PNone))%io
      (fun _ => ret (PNone, PNone)).

(** [math.ceil(element["duration"]["value"] / 60)]. *)
Definition minutes_of (element : pyval) : res pyval :=
  (duration <- py_item element (lit "duration") ;;
   value <- py_item duration (lit "value") ;;
   quotient <- py_truediv value (PInt 60) ;;
   math_ceil quotient)%py.

(** The body of [for i, element in enumerate(elements)], from index [i] on. *)
Fixpoint travel_loop (destinations : list pyval) (i : nat) (elements : list pyval)
    (travel_data : list (pyval * pyval)) : res (list (pyval * pyval)) :=
  match elements with
  | [] => Return travel_data
  | element :: rest =>
      (status <- py_item element (lit "status") ;;
       if py_eqb status OK then
         duration <- py_item element (lit "duration") ;;
         text <- py_item duration (lit "text") ;;
         minutes <- minutes_of element ;;
         dest <- match nth_error destinations i with
                 | Some d => Return d
                 | None => Raise IndexError
                 end ;;
         travel_data' <- tdict_setitem dest
                           (PDict [(lit "text", text); (lit "minutes", minutes)])
                           travel_data ;;
         travel_loop destinations (S i) rest travel_data'
       else travel_loop destinations (S i) rest travel_data)%py
  end.

Definition distance_matrix_params (rt : runtime) (self : Tools)
    (origin_lat origin_lng : pyval) (destinations : list pyval) : list (pystr * pyval) :=
  let dest_str :=
    str_join (lit "|") (map (fun pid => lit "place_id:" ++ fmt rt pid) destinations) in
  [(lit "origins", PStr (fmt rt origin_lat ++ lit "," ++ fmt rt origin_lng));
   (lit "destinations", PStr dest_str);
   (lit "mode", PStr (lit "driving"));
   (lit "language", zh_TW);
   (lit "key", PStr (GOOGLE_API_KEY self))].

Definition calculate_travel_times (rt : runtime) (self : Tools)
    (origin_lat origin_lng : pyval) (destinations : list pyval) : M (list (pyval * pyval)) :=
  match destinations with
  | [] => ret []
  | _ :: _ =>
      let url := lit "https://maps.googleapis.com/maps/api/distancematrix/json" in
      let params := distance_matrix_params rt self origin_lat origin_lng destinations in
      try_except
        (res <- requests_get_json url params ;;
         status <- lift (py_item res (lit "status")) ;;
         if negb (py_eqb status OK) then ret []
         else
           has_rows <- lift (py_contains (lit "rows") res) ;;
           rows <- (if has_rows then lift (py_item res (lit "rows")) else ret PNone) ;;
           if has_rows && truthy rows then
             row <- lift (py_index rows 0) ;;
             elements <- lift (py_item row (lit "elements")) ;;
             elements <- lift (py_iter elements) ;;
             lift (travel_loop destinations 0 elements [])
           else ret [])%io
        (fun _ => ret [])
  end.

(** The value [info] starts from. *)
Definition no_review_data : pystr := [28961; 35413; 35542; 36039; 26009]%N.

Definition empty_details : list (pystr * pyval) :=
  [(lit "opening_hours", PList []);
   (lit "reviews_summary", PStr no_review_data);
   (lit "editorial_summary", PStr [])].

(** [info[k] = v]. *)
Definition set_info (k : pystr) (v : pyval) : SE (list (pystr * pyval)) unit :=
  fun info => (Return tt, dict_set k v info).

(** The statements of [get_place_details] that follow the HTTP call, acting on
    [info]; [limit] is the character budget of the reviews. *)
Definition fill_details (limit : nat) (res : pyval) : SE (list (pystr * pyval)) unit :=
  (status <- lift (py_get res (lit "status") PNone) ;;
   if py_eqb status OK then
     result <- lift (py_get res (lit "result") (PDict [])) ;;
     opening_hours <- lift (py_get result (lit "opening_hours") (PDict [])) ;;
     weekday_text <- lift (py_get opening_hours (lit "weekday_text") (PList [])) ;;
     _ <- set_info (lit "opening_hours") weekday_text ;;
     editorial <- lift (py_get result (lit "editorial_summary") (PDict [])) ;;
     summary <- lift (py_get editorial (lit "overview") (PStr [])) ;;
     _ <- set_info (lit "editorial_summary") summary ;;
     reviews <- lift (py_get result (lit "reviews") (PList [])) ;;
     if truthy reviews then
       rs <- lift (py_iter reviews) ;;
       texts <- lift (rmap (fun r => py_get r (lit "text") (PStr [])) rs) ;;
       combined_reviews <- lift (py_join (lit " | ") texts) ;;
       set_info (lit "reviews_summary") (PStr (firstn limit combined_reviews))
     else ret tt
   else ret tt)%io.

Definition place_details_params (self : Tools) (place_id : pyval) : list (pystr * pyval) :=
  [(lit "place_id", place_id);
   (lit "fields", PStr (lit "opening_hours,reviews,editorial_summary"));
   (lit "language", zh_TW);
   (lit "key", PStr (GOOGLE_API_KEY self))].

(** Both [return info] statements give back [info] as it is at that moment:
    an exception in the middle of the [try] block keeps the assignments made
    before it. *)
Definition get_place_details (self : Tools) (place_id : pyval) : M pyval :=
  let url := lit "https://maps.googleapis.com/maps/api/place/details/json" in
  let info := empty_details in
  try_except
    (res <- requests_get_json url (place_details_params self place_id) ;;
     ret (PDict (snd (fill_details 1500 res info))))%io
    (fun _ => ret (PDict info)).

(** The condition of the comprehension that builds [candidates]. *)
Definition is_candidate (min_rating min_reviews : pyval) (exclude_ids : list pyval)
    (p : pyval) : res bool :=
  (rating <- py_get p (lit "rating") (PInt 0) ;;
   good_rating <- py_ge rating min_rating ;;
   if good_rating then
     total <- py_get p (lit "user_ratings_total") (PInt 0) ;;
     enough <- py_ge total min_reviews ;;
     if enough then
       pid <- py_get p (lit "place_id") PNone ;;
       Return (negb (py_in pid exclude_ids))
     else Return false
   else Return false)%py.

(** The loop that builds [final_list] from [top_candidates]. *)
Fixpoint within_budget (travel_info : list (pyval * pyval)) (max_travel_time : pyval)
    (top_candidates : list pyval) : res (list pyval) :=
  match top_candidates with
  | [] => Return []
  | p :: rest =>
      (pid <- py_item p (lit "place_id") ;;
       known <- tdict_contains pid travel_info ;;
       keep <- (if known then
                  info <- tdict_getitem pid travel_info ;;
                  minutes <- py_item info (lit "minutes") ;;
                  py_le minutes max_travel_time
                else Return false) ;;
       if keep then
         info <- tdict_getitem pid travel_info ;;
         text <- py_item info (lit "text") ;;
         p' <- py_setitem p (lit "travel_time_text") text ;;
         final_list <- within_budget travel_info max_travel_time rest ;;
         Return (p' :: final_list)
       else within_budget travel_info max_travel_time rest)%py
  end.

(** The dictionary appended to [output_data] for one selected place. *)
Definition restaurant_entry (rt : runtime) (p details : pyval) : res pyval :=
  (name <- py_get p (lit "name") PNone ;;
   rating <- py_get p (lit "rating") PNone ;;
   total <- py_get p (lit "user_ratings_total") PNone ;;
   travel_time <- py_get p (lit "travel_time_text") PNone ;;
   address <- py_get p (lit "formatted_address") PNone ;;
   pid <- py_get p (lit "place_id") PNone ;;
   Return (PDict
     [(lit "name", name);
      (lit "rating", PStr (fmt rt rating ++ lit " (" ++ fmt rt total ++ lit " reviews)"));
      (lit "travel_time", travel_time);
      (lit "address", address);
      (lit "map_link",
         PStr (lit "https://www.google.com/maps/place/?q=place_id:" ++ fmt rt pid));
      (lit "details_data", details)]))%py.

Definition text_search_params (rt : runtime) (self : Tools)
    (keyword origin_lat origin_lng : pyval) : list (pystr * pyval) :=
  [(lit "query", keyword);
   (lit "location", PStr (fmt rt origin_lat ++ lit "," ++ fmt rt origin_lng));
   (lit "radius", PInt 5000);
   (lit "language", zh_TW);
   (lit "opennow", PStr (lit "true"));
   (lit "type", PStr (lit "restaurant"));
   (lit "key", PStr (GOOGLE_API_KEY self))].

(** The messages of [find_food]. *)
Definition msg_key_missing : pystr := lit "Error: API Key missing.".

Definition msg_cannot_find (rt : runtime) (location : pyval) : pystr :=
  lit "Error: Cannot find location '" ++ fmt rt location ++ lit "'.".

Definition msg_no_results : pystr := lit "No results found.".

Definition msg_already_seen (rt : runtime) (keyword : pyval) : pystr :=
  [38468; 36817; 30340; 12300]%N ++ fmt rt keyword ++
  [12301; 37117; 24050; 32147; 25512; 34214; 36942; 22217; 65281; 35430; 35430;
   30475; 25563; 20491; 38364; 37749; 23383; 25110; 22320; 40670; 21543; 12290]%N.

Definition msg_no_match : pystr := lit "No places found matching criteria.".

Definition msg_none_within (rt : runtime) (max_travel_time : pyval) : pystr :=
  lit "Found places, but none are within " ++ fmt rt max_travel_time ++ lit " mins.".

Definition msg_error (rt : runtime) (e : exn) : pystr := lit "Error: " ++ str_exn rt e.

Definition prompt_instructions : pystr :=
  [10; 10]%N ++
  lit "Instruction for AI (Reply in Traditional Chinese):" ++
  [10]%N ++
  lit "1. **Contextual Response**: If the user mentioned a specific" ++
  lit " situation (e.g., " ++
  [34]%N ++
  lit "It's cold" ++
  [34]%N ++
  lit "), start or end by explaining why these restaurants fit that" ++
  lit " situation." ++
  [10]%N ++
  lit "2. **List the restaurants** using this EXACT format:" ++
  [10; 10]%N ++
  lit "[Emoji Number] **[Restaurant Name]**" ++
  [10; 35413; 20998; 65306]%N ++
  lit "[Rating]" ++
  [10; 36554; 31243; 65306]%N ++
  lit "[Travel Time]" ++
  [10; 22320; 22294; 65306]%N ++
  lit "[Link]" ++
  [10; 29151; 26989; 26178; 38291; 65306]%N ++
  lit "[Summarize opening hours]" ++
  [10; 25512; 34214; 33756; 21697; 10]%N ++
  lit "  " ++
  [8226]%N ++
  lit " [Dish 1] " ++
  [8211]%N ++
  lit " [Brief description based on reviews]" ++
  [10]%N ++
  lit "  " ++
  [8226]%N ++
  lit " [Dish 2] " ++
  [8211]%N ++
  lit " [Description based on reviews]" ++
  [10; 10]%N ++
  lit "3. **Analyze & Recommend Dishes**: Extract specific dishes f" ++
  lit "rom `reviews_summary`." ++
  [10]%N ++
  lit "4. Keep the tone friendly and helpful." ++
  [10]%N.

Definition prompt_of (rt : runtime) (keyword location max_travel_time : pyval)
    (output_data : list pyval) : pystr :=
  [10]%N ++ lit "The user is looking for " ++ [34]%N ++ fmt rt keyword ++
  [34]%N ++ lit " within " ++ fmt rt max_travel_time ++
  lit " mins from " ++ [34]%N ++ fmt rt location ++
  [34]%N ++ lit "." ++ [10]%N ++
  lit "Here are the selected restaurants with reviews data:" ++ [10; 10]%N ++
  Json.dumps rt (PList output_data) ++
  prompt_instructions.

(** What [find_food] returns: the prompt or a message, the identifiers of the
    selected places, and their data. *)
Definition outcome : Type := pystr * list pyval * list pyval.

Definition failed (msg : pystr) : outcome := (msg, [], []).

(** One round of the loop that fills [output_data]. *)
Definition describe (rt : runtime) (self : Tools) (p : pyval) : M pyval :=
  (pid <- lift (py_item p (lit "place_id")) ;;
   details <- get_place_details self pid ;;
   lift (restaurant_entry rt p details))%io.

(** From [candidates] to [final_list]: the first 15, their travel times in
    one call, and the ones within the time budget. *)
Definition shortlist (rt : runtime) (self : Tools)
    (max_travel_time origin_lat origin_lng : pyval) (candidates : list pyval)
    : M (list pyval) :=
  (let top_candidates := firstn 15 candidates in
   candidate_ids <- lift (rmap (fun p => py_item p (lit "place_id")) top_candidates) ;;
   travel_info <- calculate_travel_times rt self origin_lat origin_lng candidate_ids ;;
   lift (within_budget travel_info max_travel_time top_candidates))%io.

(** From a non-empty [final_list] to the result: the sample, its identifiers,
    the details of each selected place and the prompt. *)
Definition present (rt : runtime) (self : Tools)
    (keyword location max_travel_time : pyval) (final_list : list pyval) : M outcome :=
  (selected <- random_sample final_list (Nat.min 3 (length final_list)) ;;
   selected_ids <- lift (rmap (fun p => py_item p (lit "place_id")) selected) ;;
   output_data <- mapM (describe rt self) selected ;;
   ret (prompt_of rt keyword location max_travel_time output_data,
        selected_ids, output_data))%io.

(** The part of the [try] block that follows a non-empty [candidates]. *)
Definition recommend (rt : runtime) (self : Tools)
    (keyword location max_travel_time origin_lat origin_lng : pyval)
    (candidates : list pyval) : M outcome :=
  (final_list <- shortlist rt self max_travel_time origin_lat origin_lng candidates ;;
   match final_list with
   | [] => ret (failed (msg_none_within rt max_travel_time))
   | _ :: _ => present rt self keyword location max_travel_time final_list
   end)%io.

(** The [try] block of [find_food]. *)
Definition search_and_recommend (rt : runtime) (self : Tools)
    (keyword location max_travel_time min_rating min_reviews : pyval)
    (exclude_ids : list pyval) (origin_lat origin_lng : pyval) : M outcome :=
  (let url := lit "https://maps.googleapis.com/maps/api/place/textsearch/json" in
   res <- requests_get_json url (text_search_params rt self keyword origin_lat origin_lng) ;;
   status <- lift (py_get res (lit "status") PNone) ;;
   if negb (py_eqb status OK) then ret (failed msg_no_results)
   else
     results <- lift (py_get res (lit "results") (PList [])) ;;
     places <- lift (py_iter results) ;;
     candidates <- lift (rfilter (is_candidate min_rating min_reviews exclude_ids) places) ;;
     match candidates with
     | [] =>
         results <- lift (py_get res (lit "results") PNone) ;;
         if truthy results && (0 <? length exclude_ids)%nat
         then ret (failed (msg_already_seen rt keyword))
         else ret (failed msg_no_match)
     | _ :: _ =>
         recommend rt self keyword location max_travel_time origin_lat origin_lng candidates
     end)%io.

Definition find_food (rt : runtime) (self : Tools)
    (keyword location max_travel_time min_rating min_reviews : pyval)
    (exclude_ids : option (list pyval)) : M outcome :=
  match GOOGLE_API_KEY self with
  | [] => ret (failed msg_key_missing)
  | _ :: _ =>
      let exclude_ids := match exclude_ids with None => [] | Some ids => ids end in
      (origin <- get_coordinates self location ;;
       let origin_lat := fst origin in
       let origin_lng := snd origin in
       if negb (truthy origin_lat) then ret (failed (msg_cannot_find rt location))
       else
         try_except
           (search_and_recommend rt self keyword location max_travel_time
              min_rating min_reviews exclude_ids origin_lat origin_lng)
           (fun e => ret (failed (msg_error rt e))))%io
  end.

(** The defaults of the signature. *)
Definition default_location : pyval :=
  PStr [22283; 31435; 25104; 21151; 22823; 23416]%N.
Definition default_max_travel_time : pyval := PInt 20.
Definition default_min_rating : pyval := PFloat (FFin (7 # 2)).
Definition default_min_reviews : pyval := PInt 0.

End FoodTool.

(** ** webui_tool.py *)

Module WebuiTool.

Definition GOOGLE_API_KEY : pystr := lit "MY_API_KEY".

Definition self : FoodTool.Tools := {| FoodTool.GOOGLE_API_KEY := GOOGLE_API_KEY |}.

(** No test for ["rows"] before [res["rows"][0]["elements"]]. *)
Definition calculate_travel_times (rt : runtime)
    (origin_lat origin_lng : pyval) (destinations : list pyval) : M (list (pyval * pyval)) :=
  match destinations with
  | [] => ret []
  | _ :: _ =>
      let url := lit "https://maps.googleapis.com/maps/api/distancematrix/json" in
      let params :=
        FoodTool.distance_matrix_params rt self origin_lat origin_lng destinations in
      try_except
        (res <- requests_get_json url params ;;
         status <- lift (py_item res (lit "status")) ;;
         if negb (py_eqb status OK) then ret []
         else
           rows <- lift (py_item res (lit "rows")) ;;
           row <- lift (py_index rows 0) ;;
           elements <- lift (py_item row (lit "elements")) ;;
           elements <- lift (py_iter elements) ;;
           lift (FoodTool.travel_loop destinations 0 elements []))%io
        (fun _ => ret [])
  end.

(** The reviews are cut at 1000 characters here. *)
Definition get_place_details (place_id : pyval) : M pyval :=
  let url := lit "https://maps.googleapis.com/maps/api/place/details/json" in
  let info := FoodTool.empty_details in
  try_except
    (res <- requests_get_json url (FoodTool.place_details_params self place_id) ;;
     ret (PDict (snd (FoodTool.fill_details 1000 res info))))%io
    (fun _ => ret (PDict info)).

(** [get_coordinates] is that of [food_tool.py] without the timeout, which
    the outcome of a call already stands for. *)
Definition get_coordinates (location_name : pyval) : M (pyval * pyval) :=
  FoodTool.get_coordinates self location_name.

(** The condition of the comprehension that builds [candidates]: no exclude
    list here. *)
Definition is_candidate (min_rating min_reviews : pyval) (p : pyval) : res bool :=
  (rating <- py_get p (lit "rating") (PInt 0) ;;
   good_rating <- py_ge rating min_rating ;;
   if good_rating then
     total <- py_get p (lit "user_ratings_total") (PInt 0) ;;
     py_ge total min_reviews
   else Return false)%py.

Definition msg_no_criteria : pystr := lit "No places match the criteria.".

Definition prompt_instructions : pystr :=
  [10; 10]%N ++
  lit "Instruction for AI:" ++
  [10]%N ++
  lit "1. List the restaurants with Name, Rating, Travel Time, and " ++
  lit "Map Link." ++
  [10]%N ++
  lit "2. **Display Opening Hours**: Summarize the opening hours (e" ++
  lit ".g., " ++
  [34]%N ++
  lit "Today: 11:00-21:00" ++
  [34]%N ++
  lit ")." ++
  [10]%N ++
  lit "3. **Analyze & Recommend Dishes (IMPORTANT)**: " ++
  [10]%N ++
  lit "   - Read the `reviews_summary` and `editorial_summary` in t" ++
  lit "he data." ++
  [10]%N ++
  lit "   - Extract 2-3 specific dishes that users frequently menti" ++
  lit "on or praise (e.g., " ++
  [34]%N ++
  lit "Recommended: Beef Soup, Fried Rice" ++
  [34]%N ++
  lit ")." ++
  [10]%N ++
  lit "   - If no specific dishes are mentioned in the text, infer " ++
  lit "from the restaurant name or say " ++
  [34]%N ++
  lit "Check link for menu" ++
  [34]%N ++
  lit "." ++
  [10]%N ++
  lit "4. Keep the tone helpful and appetizing." ++
  [10]%N.

Definition prompt_of (rt : runtime) (keyword location max_travel_time : pyval)
    (output_data : list pyval) : pystr :=
  [10]%N ++ lit "The user is looking for " ++ [34]%N ++ fmt rt keyword ++
  [34]%N ++ lit " within " ++ fmt rt max_travel_time ++
  lit " mins from " ++ [34]%N ++ fmt rt location ++
  [34]%N ++ lit "." ++ [10]%N ++
  lit "Here are the selected restaurants with reviews data:" ++ [10; 10]%N ++
  Json.dumps rt (PList output_data) ++
  prompt_instructions.

(** One round of the loop that fills [output_data]; the dictionary has the
    keys and the values of the one in [food_tool.py]. *)
Definition describe (rt : runtime) (p : pyval) : M pyval :=
  (pid <- lift (py_item p (lit "place_id")) ;;
   details <- get_place_details pid ;;
   lift (FoodTool.restaurant_entry rt p details))%io.

(** The [try] block of [find_food]: the first 10 candidates go to the
    distance matrix; the loop over them is the one of [food_tool.py]. *)
Definition search_and_recommend (rt : runtime)
    (keyword location max_travel_time min_rating min_reviews : pyval)
    (origin_lat origin_lng : pyval) : M pystr :=
  (let url := lit "https://maps.googleapis.com/maps/api/place/textsearch/json" in
   res <- requests_get_json url
            (FoodTool.text_search_params rt self keyword origin_lat origin_lng) ;;
   status <- lift (py_get res (lit "status") PNone) ;;
   if negb (py_eqb status OK) then ret FoodTool.msg_no_results
   else
     results <- lift (py_get res (lit "results") (PList [])) ;;
     places <- lift (py_iter results) ;;
     candidates <- lift (rfilter (is_candidate min_rating min_reviews) places) ;;
     match candidates with
     | [] => ret msg_no_criteria
     | _ :: _ =>
         let top_candidates := firstn 10 candidates in
         candidate_ids <- lift (rmap (fun p => py_item p (lit "place_id")) top_candidates) ;;
         travel_info <- calculate_travel_times rt origin_lat origin_lng candidate_ids ;;
         final_list <- lift (FoodTool.within_budget travel_info max_travel_time
                               top_candidates) ;;
         match final_list with
         | [] => ret (FoodTool.msg_none_within rt max_travel_time)
         | _ :: _ =>
             selected <- random_sample final_list (Nat.min 3 (length final_list)) ;;
             output_data <- mapM (describe rt) selected ;;
             ret (prompt_of rt keyword location max_travel_time output_data)
         end
     end)%io.

Definition find_food (rt : runtime)
    (keyword location max_travel_time min_rating min_reviews : pyval) : M pystr :=
  if negb (truthy (PStr GOOGLE_API_KEY)) ||
     pystr_eqb GOOGLE_API_KEY (lit "YOUR_GOOGLE_API_KEY")
  then ret FoodTool.msg_key_missing
  else
    (origin <- get_coordinates location ;;
     let origin_lat := fst origin in
     let origin_lng := snd origin in
     if negb (truthy origin_lat) then ret (FoodTool.msg_cannot_find rt location)
     else
       try_except
         (search_and_recommend rt keyword location max_travel_time min_rating min_reviews
            origin_lat origin_lng)
         (fun e => ret (FoodTool.msg_error rt e)))%io.

End WebuiTool.

(** ** More text: [replace], [strip], [rstrip] *)

(** [s.replace(old, new)] for a non-empty [old]: the occurrences are found from
    the left and do not overlap.  [skip] counts the characters of the
    occurrence just replaced that are still to be passed over. *)
Fixpoint replace_from (old new : pystr) (skip : nat) (s : pystr) : pystr :=
  match s with
  | [] => []
  | c :: s' =>
      match skip with
      | S k => replace_from old new k s'
      | O =>
          if is_prefix old s then new ++ replace_from old new (length old - 1) s'
          else c :: replace_from old new 0 s'
      end
  end.

Definition str_replace (old new s : pystr) : pystr := replace_from old new 0 s.

(** The characters [str.isspace] holds for, which [strip()] removes. *)
Definition is_space (c : N) : bool :=
  (((9 <=? c) && (c <=? 13)) || ((28 <=? c) && (c <=? 32)) || (c =? 133) || (c =? 160) ||
   (c =? 5760) || ((8192 <=? c) && (c <=? 8202)) || (c =? 8232) || (c =? 8233) ||
   (c =? 8239) || (c =? 8287) || (c =? 12288))%N.

Fixpoint lstrip_by (f : N -> bool) (s : pystr) : pystr :=
  match s with
  | c :: s' => if f c then lstrip_by f s' else s
  | [] => []
  end.

Definition rstrip_by (f : N -> bool) (s : pystr) : pystr := rev (lstrip_by f (rev s)).

(** [s.strip()]. *)
Definition str_strip (s : pystr) : pystr := rstrip_by is_space (lstrip_by is_space s).

(** [s.rstrip(c)] for a one-character [c]. *)
Definition str_rstrip (c : N) (s : pystr) : pystr := rstrip_by (N.eqb c) s.

(** ** bot.py *)

Module Bot.

(** An entry of a saved list: [{"name": ..., "map_link": ..., "rating": ...}].
    The same three fields are what the button callback reads from a
    restaurant of [restaurants_data]. *)
Record SavedEntry := {
  name : pystr;
  map_link : pystr;
  rating : pystr
}.

(** [a == b] on two entries. *)
Definition entry_eqb (a b : SavedEntry) : bool :=
  pystr_eqb (name a) (name b) && pystr_eqb (map_link a) (map_link b) &&
  pystr_eqb (rating a) (rating b).

(** [user_saved_lists]: user identifier (as a string) to saved list, in
    insertion order. *)
Fixpoint lists_find (user_id : pystr) (lists : list (pystr * list SavedEntry))
    : option (list SavedEntry) :=
  match lists with
  | [] => None
  | (u, l) :: rest => if pystr_eqb user_id u then Some l else lists_find user_id rest
  end.

(** [user_saved_lists[user_id] = l]. *)
Fixpoint lists_set (user_id : pystr) (l : list SavedEntry)
    (lists : list (pystr * list SavedEntry)) : list (pystr * list SavedEntry) :=
  match lists with
  | [] => [(user_id, l)]
  | (u, l') :: rest =>
      if pystr_eqb user_id u then (u, l) :: rest else (u, l') :: lists_set user_id l rest
  end.

(** [user_saved_lists.get(user_id, [])]. *)
Definition lists_get (user_id : pystr) (lists : list (pystr * list SavedEntry))
    : list SavedEntry :=
  match lists_find user_id lists with
  | Some l => l
  | None => []
  end.

(** The Python value of an entry and of the whole mapping. *)
Definition entry_value (e : SavedEntry) : pyval :=
  PDict [(lit "name", PStr (name e));
         (lit "map_link", PStr (map_link e));
         (lit "rating", PStr (rating e))].

Definition lists_value (lists : list (pystr * list SavedEntry)) : pyval :=
  PDict (map (fun ul => (fst ul, PList (map entry_value (snd ul)))) lists).

(** [saved_lists.json]: missing, holding a text, or cut short by a write that
    failed half-way (what is left is the beginning of a JSON document, which
    no JSON reader accepts). *)
Inductive file :=
| Absent
| Text (t : pystr)
| Truncated.

Record state := {
  user_saved_lists : list (pystr * list SavedEntry);
  DATA_FILE : file
}.

(** The file is opened with [encoding="utf-8"]: a text can be written when it
    has no surrogate code point. *)
Definition utf8_encodable (t : pystr) : bool :=
  forallb (fun c => (c <? 55296) || ((57343 <? c) && (c <? 1114112)))%N t.

Definition load_data (rt : runtime) (f : file) : pyval :=
  match f with
  | Absent => PDict []
  | Text t =>
      match Json.loads rt t with
      | Some v => v
      | None => PDict []
      end
  | Truncated => PDict []
  end.

Definition save_data (rt : runtime) : SE state unit :=
  fun st =>
    let text := Json.dumps rt (lists_value (user_saved_lists st)) in
    if utf8_encodable text
    then (Return tt, {| user_saved_lists := user_saved_lists st; DATA_FILE := Text text |})
    else (Raise UnicodeEncodeError,
          {| user_saved_lists := user_saved_lists st; DATA_FILE := Truncated |}).

(** What the bot answers. *)
Inductive reply :=
| AlreadyInList (restaurant_name : pystr)
| AddedToList (restaurant_name : pystr)
| ListIsEmpty
| RemovedFromList (restaurant_name : pystr)
| NoSuchRestaurant (query : pystr).

Definition gets {A} (f : list (pystr * list SavedEntry) -> A) : SE state A :=
  fun st => (Return (f (user_saved_lists st)), st).

Definition modify (f : list (pystr * list SavedEntry) -> list (pystr * list SavedEntry))
    : SE state unit :=
  fun st => (Return tt, {| user_saved_lists := f (user_saved_lists st);
                           DATA_FILE := DATA_FILE st |}).

(** The callback of a button of [RestaurantView]. *)
Definition callback (rt : runtime) (user_id : pystr) (restaurant : SavedEntry)
    : SE state reply :=
  (_ <- modify (fun lists =>
                  match lists_find user_id lists with
                  | None => lists_set user_id [] lists
                  | Some _ => lists
                  end) ;;
   mine <- gets (lists_get user_id) ;;
   if existsb (fun saved => pystr_eqb (name saved) (name restaurant)) mine
   then ret (AlreadyInList (name restaurant))
   else
     _ <- modify (lists_set user_id
                    (mine ++ [{| name := name restaurant;
                                 map_link := map_link restaurant;
                                 rating := rating restaurant |}])) ;;
     _ <- save_data rt ;;
     ret (AddedToList (name restaurant)))%io.

(** [l.remove(x)]: the first element equal to [x] goes. *)
Fixpoint list_remove (x : SavedEntry) (l : list SavedEntry) : res (list SavedEntry) :=
  match l with
  | [] => Raise ValueError
  | y :: l' =>
      if entry_eqb y x then Return l'
      else (rest <- list_remove x l' ;; Return (y :: rest))%py
  end.

(** The [/delete] command. *)
Definition delete_saved (rt : runtime) (user_id query : pystr) : SE state reply :=
  (saved <- gets (lists_get user_id) ;;
   match saved with
   | [] => ret ListIsEmpty
   | _ :: _ =>
       match find (fun item => str_contains query (name item)) saved with
       | Some to_remove =>
           saved' <- lift (list_remove to_remove saved) ;;
           _ <- modify (lists_set user_id saved') ;;
           _ <- save_data rt ;;
           ret (RemovedFromList (name to_remove))
       | None => ret (NoSuchRestaurant query)
       end
   end)%io.

(** The [/list] command shows [user_saved_lists.get(user_id, [])]. *)
Definition list_saved (user_id : pystr) : SE state (list SavedEntry) :=
  gets (lists_get user_id).

(** A user's action on the saved lists, and the state after a sequence of
    them (an action that raises leaves the state as it was at the raise). *)
Inductive action :=
| Save (user_id : pystr) (restaurant : SavedEntry)
| Delete (user_id : pystr) (query : pystr).

Definition perform (rt : runtime) (st : state) (a : action) : state :=
  match a with
  | Save user_id restaurant => snd (callback rt user_id restaurant st)
  | Delete user_id query => snd (delete_saved rt user_id query st)
  end.

Definition perform_all (rt : runtime) (actions : list action) (st : state) : state :=
  fold_left (perform rt) actions st.

(** *** The dedup set of [eat] *)

(** Lines 179-183: [current_exclude_ids], from the analysis of the request and
    [last_context = user_contexts.get(user_id)] ([None] when there is none). *)
Definition current_exclude_ids (analysis last_context : pyval) : res pyval :=
  if truthy last_context then
    (location <- py_get analysis (lit "location") PNone ;;
     last_location <- py_get last_context (lit "location") PNone ;;
     if py_eqb location last_location then
       keyword <- py_get analysis (lit "keyword") PNone ;;
       last_keyword <- py_get last_context (lit "keyword") PNone ;;
       if py_eqb keyword last_keyword
       then py_get last_context (lit "seen_ids") (PList [])
       else Return (PList [])
     else Return (PList []))%py
  else Return (PList []).

(** Lines 187-189: the context stored for the user when the pipeline showed
    something; [None] when nothing is stored. *)
Definition remember (analysis : pyval) (exclude_ids new_ids : list pyval) : res (option pyval) :=
  match new_ids with
  | [] => Return None
  | _ :: _ =>
      (stored <- py_setitem analysis (lit "seen_ids") (PList (exclude_ids ++ new_ids)) ;;
       Return (Some stored))%py
  end.

(** *** The language model *)

(** What the bot reads from its environment, and the tool it holds. *)
Record Config := {
  LLM_BASE_URL : pystr;
  LLM_API_KEY : pystr;
  food : FoodTool.Tools
}.

(** [await http.post(url, json=payload, headers=headers)], then
    [resp.raise_for_status()] and [resp.json()]: the next outcome of the
    upstream services, the exception being that of whichever of the three
    fails.  The log keeps the URL and the payload. *)
Definition http_post_json (url : pystr) (payload : list (pystr * pyval)) : M pyval :=
  requests_get_json url payload.

Definition msg_llm_key_missing : pystr :=
  [10060]%N ++
  lit " LLM_API_KEY " ++
  [26410; 35373; 23450]%N.

Definition msg_connection_error (rt : runtime) (e : exn) : pystr :=
  [36899; 32218; 37679; 35492]%N ++
  lit ": " ++ str_exn rt e.

Definition llm_generate (rt : runtime) (cfg : Config) (prompt : pystr) : M pyval :=
  match LLM_API_KEY cfg with
  | [] => ret (PStr msg_llm_key_missing)
  | _ :: _ =>
      let url := str_rstrip 47 (LLM_BASE_URL cfg) ++ lit "/api/generate" in
      let payload := [(lit "model", PStr (lit "gpt-oss:120b"));
                      (lit "prompt", PStr prompt);
                      (lit "stream", PBool false)] in
      try_except
        (data <- http_post_json url payload ;;
         response <- lift (py_get data (lit "response") (PStr [])) ;;
         if truthy response then ret response
         else lift (py_get data (lit "text") (PStr [])))%io
        (fun e => ret (PStr (msg_connection_error rt e)))
  end.

(** *** The analysis of a request *)

Definition no_context : pystr :=
  [28961]%N ++
  lit " (" ++
  [36889; 26159; 26032; 30340; 23565; 35441]%N ++
  lit ")".

Definition context_line (rt : runtime) (location keyword : pyval) : pystr :=
  [22320; 40670]%N ++
  lit "=" ++ fmt rt location ++
  lit ", " ++
  [38364; 37749; 23383]%N ++
  lit "=" ++ fmt rt keyword.

Definition analysis_prompt (context_str user_text : pystr) : pystr :=
  [20320; 26159; 19968; 20491; 24847; 22294; 20998; 26512; 21161; 25163; 12290; 35531; 26681; 25818; 20351; 29992; 32773; 30340; 36664; 20837; 20197; 21450; 12300; 30446; 21069; 30340; 23565; 35441; 24773; 22659; 12301; 65292; 22238; 20659]%N ++
  lit " JSON " ++
  [26684; 24335; 30340; 20998; 26512; 32080; 26524; 12290; 10]%N ++
  lit "--------------------------------------------------" ++
  [10; 12304; 30446; 21069; 30340; 23565; 35441; 24773; 22659; 12305]%N ++
  lit ": " ++
  context_str ++
  [10]%N ++
  lit "--------------------------------------------------" ++
  [10; 35531; 36981; 24490; 20197; 19979; 37007; 36655; 25552; 21462; 21443; 25976; 65306; 10]%N ++
  lit "1. **location**: " ++
  [20778; 20808; 20351; 29992; 26032; 22320; 40670; 65307; 33509; 28961; 19988; 26377; 24773; 22659; 65292; 21063; 27839; 29992; 33290; 22320; 40670; 65307; 21542; 21063; 38928; 35373]%N ++
  lit " '" ++
  [22283; 31435; 25104; 21151; 22823; 23416]%N ++
  lit "'" ++
  [12290; 10]%N ++
  lit "2. **keyword**: " ++
  [10]%N ++
  lit "   - " ++
  [20778; 20808; 20351; 29992; 26032; 38656; 27714; 12290; 10]%N ++
  lit "   - " ++
  [33509; 35498]%N ++
  lit " '" ++
  [25512; 34214; 26356; 22810]%N ++
  lit "'" ++
  [12289]%N ++
  lit "'" ++
  [36996; 26377; 21966]%N ++
  lit "' -> " ++
  [27839; 29992; 33290; 38364; 37749; 23383; 12290; 10]%N ++
  lit "   - " ++
  [33509; 25551; 36848; 24773; 22659]%N ++
  lit " (" ++
  [22914]%N ++
  lit " '" ++
  [22825; 27683; 20919]%N ++
  lit "') -> " ++
  [25512; 35542; 38364; 37749; 23383]%N ++
  lit " (" ++
  [22914]%N ++
  lit " '" ++
  [28779; 37707]%N ++
  lit "')" ++
  [12290; 10]%N ++
  lit "   - " ++
  [38928; 35373]%N ++
  lit " '" ++
  [32654; 39135]%N ++
  lit "'" ++
  [12290; 10]%N ++
  lit "3. **time_limit**: " ++
  [38928; 35373]%N ++
  lit " 20" ++
  [12290; 10; 10; 20351; 29992; 32773; 36664; 20837]%N ++
  lit ": " ++
  user_text ++
  [10; 35531; 21482; 22238; 20659]%N ++
  lit " JSON " ++
  [23383; 20018; 12290]%N.

Definition default_keyword : pyval := PStr [32654; 39135]%N.

(** The analysis when nothing else is known. *)
Definition default_analysis : pyval :=
  PDict [(lit "location", PStr [21488; 21335]%N); (lit "keyword", default_keyword)].

(** [v.replace(old, new)] and [v.strip()]: methods of [str] only. *)
Definition py_replace (v : pyval) (old new : pystr) : res pyval :=
  match v with
  | PStr s => Return (PStr (str_replace old new s))
  | _ => Raise AttributeError
  end.

Definition py_strip (v : pyval) : res pyval :=
  match v with
  | PStr s => Return (PStr (str_strip s))
  | _ => Raise AttributeError
  end.

(** [json.loads(v)]: [JSONDecodeError] is a [ValueError]. *)
Definition json_loads (rt : runtime) (v : pyval) : res pyval :=
  match v with
  | PStr s =>
      match Json.loads rt s with
      | Some x => Return x
      | None => Raise ValueError
      end
  | _ => Raise TypeError
  end.

Definition analyze_request (rt : runtime) (cfg : Config) (user_text : pystr)
    (current_context : pyval) : M pyval :=
  (context_str <-
     (if truthy current_context then
        location <- lift (py_get current_context (lit "location") PNone) ;;
        keyword <- lift (py_get current_context (lit "keyword") PNone) ;;
        ret (context_line rt location keyword)
      else ret no_context) ;;
   let system_prompt := analysis_prompt context_str user_text in
   try_except
     (response <- llm_generate rt cfg system_prompt ;;
      response <- lift (py_replace response (lit "```json") []) ;;
      response <- lift (py_replace response (lit "```") []) ;;
      response <- lift (py_strip response) ;;
      lift (json_loads rt response))
     (fun _ => if truthy current_context then ret current_context
               else ret default_analysis))%io.

(** *** From the analysis to the answer *)

Definition already_recommended : pystr := [24050; 32147; 25512; 34214; 36942; 22217]%N.

Definition guide_prompt (rt : runtime) (original_text : pystr) (keyword : pyval)
    (tool_output : pystr) : pystr :=
  [20320; 26159; 19968; 20491; 23560; 26989; 30340; 21488; 21335; 32654; 39135; 22190; 23566; 12290; 35531; 26681; 25818; 20197; 19979; 30340; 39184; 24307; 25976; 25818; 22238; 35206; 20351; 29992; 32773; 12290; 10]%N ++
  lit "----------------" ++
  [10; 12304; 20351; 29992; 32773; 21407; 22987; 38656; 27714; 12305]%N ++
  lit ": " ++
  [34]%N ++
  original_text ++
  [34; 10; 12304; 25628; 23563; 38364; 37749; 23383; 12305]%N ++
  lit ": " ++
  fmt rt keyword ++
  [10]%N ++
  lit "----------------" ++
  [10; 20197; 19979; 26159; 25628; 23563; 32080; 26524; 25976; 25818; 65306; 10]%N ++
  tool_output ++
  [10]%N.

(** [exclude_ids] is a [list], as the signature declares. *)
Definition run_food_chain (rt : runtime) (cfg : Config) (params : pyval)
    (original_text : pystr) (exclude_ids : list pyval) : M (pyval * list pyval * list pyval) :=
  (location <- lift (py_get params (lit "location") FoodTool.default_location) ;;
   keyword <- lift (py_get params (lit "keyword") default_keyword) ;;
   time_limit <- lift (py_get params (lit "time_limit") (PInt 20)) ;;
   found <- FoodTool.find_food rt (food cfg) keyword location time_limit
              FoodTool.default_min_rating FoodTool.default_min_reviews (Some exclude_ids) ;;
   let tool_output := fst (fst found) in
   let new_ids := snd (fst found) in
   let restaurants_data := snd found in
   if str_contains (lit "Error") tool_output ||
      str_contains (lit "Found places, but none") tool_output ||
      str_contains already_recommended tool_output
   then ret (PStr tool_output, [], [])
   else
     llm_response <- llm_generate rt cfg (guide_prompt rt original_text keyword tool_output) ;;
     ret (llm_response, new_ids, restaurants_data))%io.

(** *** The [/eat] command *)

(** [user_contexts]: user identifier (an [int]) to the analysis stored for
    the user, the identifiers shown so far under ["seen_ids"]. *)
Fixpoint contexts_find (user_id : Z) (contexts : list (Z * pyval)) : option pyval :=
  match contexts with
  | [] => None
  | (u, c) :: rest => if (user_id =? u)%Z then Some c else contexts_find user_id rest
  end.

Fixpoint contexts_set (user_id : Z) (c : pyval) (contexts : list (Z * pyval))
    : list (Z * pyval) :=
  match contexts with
  | [] => [(user_id, c)]
  | (u, c') :: rest =>
      if (user_id =? u)%Z then (u, c) :: rest else (u, c') :: contexts_set user_id c rest
  end.

(** Lines 174-189 of [eat]: from the request to the answer, the restaurants
    for the buttons and the contexts as they are afterwards.  What is handed
    to [run_food_chain] as [exclude_ids] is a list, as its signature declares:
    [[]], or the ["seen_ids"] of a stored context, which these very lines
    wrote as a list. *)
Definition eat (rt : runtime) (cfg : Config) (user_id : Z) (text : pystr)
    (user_contexts : list (Z * pyval)) : M (pyval * list pyval * list (Z * pyval)) :=
  (let last_context :=
     match contexts_find user_id user_contexts with
     | Some c => c
     | None => PNone
     end in
   analysis <- analyze_request rt cfg text last_context ;;
   exclude <- lift (current_exclude_ids analysis last_context) ;;
   exclude_ids <- lift (match exclude with
                        | PList l => Return l
                        | _ => Raise TypeError
                        end) ;;
   answer <- run_food_chain rt cfg analysis text exclude_ids ;;
   let ans := fst (fst answer) in
   let new_ids := snd (fst answer) in
   let restaurants_data := snd answer in
   stored <- lift (remember analysis exclude_ids new_ids) ;;
   ret (ans, restaurants_data,
        match stored with
        | Some c => contexts_set user_id c user_contexts
        | None => user_contexts
        end))%io.

(** Lines 195-203 of [eat], for an answer that is a string: the messages sent,
    each with the view it carries, if any.  [range(0, stop, step)] first. *)
Definition range_step (stop step : nat) : list nat :=
  map (fun k => (k * step)%nat) (seq 0 ((stop + step - 1) / step)).

Definition chunks (ans : pystr) : list pystr :=
  map (fun i => firstn 1900 (skipn i ans)) (range_step (length ans) 1900).

Fixpoint send_chunks {V} (chunks : list pystr) (view : option V) : list (pystr * option V) :=
  match chunks with
  | [] => []
  | [chunk] => [(chunk, view)]
  | chunk :: rest => (chunk, None) :: send_chunks rest view
  end.

Definition followups {V} (ans : pystr) (view : option V) : list (pystr * option V) :=
  if (1900 <? length ans)%nat then send_chunks (chunks ans) view
  else [(ans, view)].

End Bot.

(** ** Sample data *)

Module Sample.

(** Decimal digits of a natural number. *)
Fixpoint decimal (fuel : nat) (n : N) : pystr :=
  match fuel with
  | O => []
  | S fuel' =>
      let d := (48 + n mod 10)%N in
      if (n <? 10)%N then [d] else decimal fuel' (n / 10) ++ [d]
  end.

Definition format_int (z : Z) : pystr :=
  match z with
  | Z0 => lit "0"
  | Zpos p => decimal (S (N.to_nat (N.log2 (Npos p)))) (Npos p)
  | Zneg p => lit "-" ++ decimal (S (N.to_nat (N.log2 (Npos p)))) (Npos p)
  end.

Definition read_int (t : pystr) : Z :=
  let digits := fun ds => fold_left (fun acc c => acc * 10 + Z.of_N (c - 48))%Z ds 0%Z in
  match t with
  | 45%N :: ds => (- digits ds)%Z
  | _ => digits t
  end.

Definition exn_name (e : exn) : pystr :=
  match e with
  | KeyError _ => lit "KeyError"
  | IndexError => lit "list index out of range"
  | TypeError => lit "TypeError"
  | AttributeError => lit "AttributeError"
  | ValueError => lit "ValueError"
  | OverflowError => lit "OverflowError"
  | ZeroDivisionError => lit "division by zero"
  | UnicodeEncodeError => lit "UnicodeEncodeError"
  | RequestsError msg => msg
  end.

(** A runtime for the examples.  It formats and reads integers, [None] and
    the booleans as Python does; the examples hold no other number and format
    no list or dict. *)
Definition rt : runtime := {|
  format_value := fun v =>
    match v with
    | PNone => lit "None"
    | PBool true => lit "True"
    | PBool false => lit "False"
    | PInt z => format_int z
    | _ => lit "..."
    end;
  str_exn := exn_name;
  json_number := fun v =>
    match v with
    | PInt z => format_int z
    | _ => lit "0.0"
    end;
  number_of_literal := fun t => PInt (read_int t)
|}.

Definition tools : FoodTool.Tools := {| FoodTool.GOOGLE_API_KEY := lit "key" |}.

(** A geocoding answer. *)
Definition geocoded (lat lng : pyval) : pyval :=
  PDict [(lit "status", OK);
         (lit "results",
          PList [PDict [(lit "geometry",
                         PDict [(lit "location",
                                 PDict [(lit "lat", lat); (lit "lng", lng)])])]])].

(** A place of a text-search answer. *)
Definition place (id title : string) (stars : pyval) (reviews : Z) : pyval :=
  PDict [(lit "place_id", PStr (lit id));
         (lit "name", PStr (lit title));
         (lit "rating", stars);
         (lit "user_ratings_total", PInt reviews);
         (lit "formatted_address", PStr (lit "Tainan"))].

Definition found (places : list pyval) : pyval :=
  PDict [(lit "status", OK); (lit "results", PList places)].

(** An element of a distance-matrix answer. *)
Definition element (status : string) (text : string) (seconds : Z) : pyval :=
  PDict [(lit "status", PStr (lit status));
         (lit "duration", PDict [(lit "text", PStr (lit text)); (lit "value", PInt seconds)])].

Definition matrix (elements : list pyval) : pyval :=
  PDict [(lit "status", OK); (lit "rows", PList [PDict [(lit "elements", PList elements)]])].

(** A place-details answer. *)
Definition details (hours : list pyval) (reviews : list pyval) : pyval :=
  PDict [(lit "status", OK);
         (lit "result",
          PDict [(lit "opening_hours", PDict [(lit "weekday_text", PList hours)]);
                 (lit "reviews", PList reviews)])].

Definition review (text : string) : pyval := PDict [(lit "text", PStr (lit text))].

Definition world_of (answers : list (res pyval)) (numbers : list nat) : world :=
  {| upstream := answers; sent := []; entropy := numbers |}.

Definition tainan : pyval := PStr (lit "Tainan").
Definition noodles : pyval := PStr (lit "noodles").

(** Two places, both good enough and both close: one with a review, one
    without. *)
Definition two_nearby : world :=
  world_of
    [Return (geocoded (PInt 23) (PInt 120));
     Return (found [place "A" "Noodle A" (PInt 4) 10; place "B" "Noodle B" (PInt 5) 3]);
     Return (matrix [element "OK" "2 mins" 119; element "OK" "3 mins" 121]);
     Return (details [PStr (lit "Mon: 9-5")] [review "good"]);
     Return (details [] [])]
    [1%nat; 0%nat].

(** One place whose rating is too low. *)
Definition one_poor : world :=
  world_of
    [Return (geocoded (PInt 23) (PInt 120));
     Return (found [place "A" "Noodle A" (PInt 2) 10])]
    [].

(** A saved list: a beef soup shop, then a noodle shop. *)
Definition beef : pystr := [29275; 32905]%N.

Definition beef_soup_shop : Bot.SavedEntry :=
  {| Bot.name := [29275; 32905; 28271; 32769; 24215]%N;
     Bot.map_link := lit "https://www.google.com/maps/place/?q=place_id:A";
     Bot.rating := lit "4.5 (120 reviews)" |}.

Definition du_hsiao_yueh : Bot.SavedEntry :=
  {| Bot.name := [24230; 23567; 26376]%N;
     Bot.map_link := lit "https://www.google.com/maps/place/?q=place_id:B";
     Bot.rating := lit "4.2 (300 reviews)" |}.

Definition two_saved : Bot.state :=
  {| Bot.user_saved_lists := [(lit "42", [beef_soup_shop; du_hsiao_yueh])];
     Bot.DATA_FILE := Bot.Absent |}.

(** A third restaurant. *)
Definition noodle_house : Bot.SavedEntry :=
  {| Bot.name := lit "Noodle House";
     Bot.map_link := lit "https://www.google.com/maps/place/?q=place_id:C";
     Bot.rating := lit "4.0 (12 reviews)" |}.

(** The bot at its first start: no list, no file. *)
Definition nothing_saved : Bot.state :=
  {| Bot.user_saved_lists := []; Bot.DATA_FILE := Bot.Absent |}.

(** A name that holds half of a surrogate pair (U+D83D alone), as a JSON
    answer with the escape [\ud83d] decodes to. *)
Definition half_a_pair : Bot.SavedEntry :=
  {| Bot.name := [55357; 40629]%N;
     Bot.map_link := lit "https://www.google.com/maps/place/?q=place_id:C";
     Bot.rating := lit "4.0 (12 reviews)" |}.

Definition one_unpaired : Bot.state :=
  {| Bot.user_saved_lists := [(lit "42", [half_a_pair])];
     Bot.DATA_FILE := Bot.Absent |}.

(** A second round on the same request: place A was shown before, the travel
    time is asked for B alone. *)
Definition second_round : world :=
  world_of
    [Return (geocoded (PInt 23) (PInt 120));
     Return (found [place "A" "Noodle A" (PInt 4) 10; place "B" "Noodle B" (PInt 5) 3]);
     Return (matrix [element "OK" "3 mins" 121]);
     Return (details [] [review "good"])]
    [0%nat].

(** The travel times of two places: two minutes and half an hour. *)
Definition near_and_far : world :=
  world_of [Return (matrix [element "OK" "2 mins" 119; element "OK" "30 mins" 1800])] [].

(** The bot without a key for the language model, and with one. *)
Definition no_llm : Bot.Config :=
  {| Bot.LLM_BASE_URL := lit "https://llm.example/";
     Bot.LLM_API_KEY := [];
     Bot.food := tools |}.

Definition with_llm : Bot.Config :=
  {| Bot.LLM_BASE_URL := lit "https://llm.example/";
     Bot.LLM_API_KEY := lit "secret";
     Bot.food := tools |}.

(** A request for noodles in Tainan, and the context stored after place A was
    shown for it. *)
Definition noodles_in_tainan : list (pystr * pyval) :=
  [(lit "location", tainan); (lit "keyword", noodles)].

Definition seen_a : list (pystr * pyval) :=
  [(lit "location", tainan); (lit "keyword", noodles);
   (lit "seen_ids", PList [PStr (lit "A")])].

(** The language model answers with the request between fences. *)
Definition fenced_answer : world :=
  world_of
    [Return (PDict [(lit "response",
                     PStr (lit "```json" ++ [10%N] ++
                           Json.dumps rt (PDict noodles_in_tainan) ++ [10%N] ++
                           lit "```"))])]
    [].

(** One place, good enough and close, whose details cannot be fetched: the
    fourth call times out. *)
Definition details_unreachable : world :=
  world_of
    [Return (geocoded (PInt 23) (PInt 120));
     Return (found [place "A" "Noodle A" (PInt 4) 10]);
     Return (matrix [element "OK" "2 mins" 119]);
     Raise (RequestsError (lit "timed out"))]
    [0%nat].

(** A place on the equator. *)
Definition on_the_equator : world :=
  world_of
    [Return (geocoded (PInt 0) (PInt 120));
     Return (found [place "A" "Noodle A" (PInt 4) 10])]
    [].

End Sample.

(** ** Vocabulary of the statements *)

Import FoodTool.



(** A distance-matrix answer with status OK whose first row holds [elements]. *)
Definition matrix_answer (res : pyval) (elements : list pyval) : Prop :=
  exists d status row more,
    res = PDict d /\
    dict_find (lit "status") d = Some status /\ py_eqb status OK = true /\
    dict_find (lit "rows") d = Some (PList (PDict row :: more)) /\
    dict_find (lit "elements") row = Some (PList elements).

(** The text [r.get("text", "")] of a review that is an object whose text,
    when it has one, is a string. *)
Definition review_text (r : pyval) (t : pystr) : Prop :=
  exists d,
    r = PDict d /\
    (dict_find (lit "text") d = Some (PStr t) \/
     (dict_find (lit "text") d = None /\ t = [])).

(** A place-details answer with status OK, and what the code reads from it:
    the opening hours, the editorial summary and the reviews. *)
Definition details_answer (answer hours summary reviews : pyval) : Prop :=
  exists d status result opening_hours editorial,
    answer = PDict d /\
    dict_find (lit "status") d = Some status /\ py_eqb status OK = true /\
    py_get answer (lit "result") (PDict []) = Return result /\
    py_get result (lit "opening_hours") (PDict []) = Return opening_hours /\
    py_get opening_hours (lit "weekday_text") (PList []) = Return hours /\
    py_get result (lit "editorial_summary") (PDict []) = Return editorial /\
    py_get editorial (lit "overview") (PStr []) = Return summary /\
    py_get result (lit "reviews") (PList []) = Return reviews.

(** The [info] that [get_place_details] returns. *)
Definition details_of (hours : pyval) (reviews_summary : pystr) (summary : pyval) : pyval :=
  PDict [(lit "opening_hours", hours);
         (lit "reviews_summary", PStr reviews_summary);
         (lit "editorial_summary", summary)].

(** The call failed: no answer came back, or one whose status is not OK. *)
Definition call_failed (w : world) : Prop :=
  upstream w = [] \/
  (exists e rest, upstream w = Raise e :: rest) \/
  (exists answer rest,
      upstream w = Return answer :: rest /\
      forall status, py_get answer (lit "status") PNone = Return status ->
                     py_eqb status OK = false).

(** The two shapes of what [find_food] returns: a message with empty lists, or
    a prompt with as many identifiers as restaurants, at least one and at
    most three. *)
Definition is_failure (rt : runtime) (keyword location max_travel_time : pyval)
    (out : outcome) : Prop :=
  exists msg,
    out = failed msg /\
    (msg = msg_key_missing \/
     msg = msg_cannot_find rt location \/
     msg = msg_no_results \/
     msg = msg_already_seen rt keyword \/
     msg = msg_no_match \/
     msg = msg_none_within rt max_travel_time \/
     exists e, msg = msg_error rt e).

Definition is_success (rt : runtime) (keyword location max_travel_time : pyval)
    (out : outcome) : Prop :=
  exists ids data,
    out = (prompt_of rt keyword location max_travel_time data, ids, data) /\
    ids <> [] /\ length ids = length data /\ (length ids <= 3)%nat.

(** A place of [final_list]: a dict with a ["place_id"]. *)
Definition has_place_id (p : pyval) : Prop :=
  exists d pid, p = PDict d /\ dict_find (lit "place_id") d = Some pid.

(** Geocoding answered with status OK and the coordinates [lat], [lng]. *)
Definition geocode_answer (answer lat lng : pyval) : Prop :=
  exists d status first more geometry location,
    answer = PDict d /\
    dict_find (lit "status") d = Some status /\ py_eqb status OK = true /\
    dict_find (lit "results") d = Some (PList (PDict first :: more)) /\
    dict_find (lit "geometry") first = Some (PDict geometry) /\
    dict_find (lit "location") geometry = Some (PDict location) /\
    dict_find (lit "lat") location = Some lat /\
    dict_find (lit "lng") location = Some lng.

(** The origin was found: [get_coordinates] gave a latitude that counts as
    true. *)
Definition located (self : Tools) (location : pyval) (w : world)
    (lat lng : pyval) (w1 : world) : Prop :=
  get_coordinates self location w = (Return (lat, lng), w1) /\ truthy lat = true.

(** The text search answered with status OK and the raw results [raw]
    (["results"] is a list, or is missing and [raw] is empty). *)
Definition search_answer (answer : pyval) (raw : list pyval) : Prop :=
  exists d status,
    answer = PDict d /\
    dict_find (lit "status") d = Some status /\ py_eqb status OK = true /\
    (dict_find (lit "results") d = Some (PList raw) \/
     (dict_find (lit "results") d = None /\ raw = [])).

Definition text_search_url : pystr :=
  lit "https://maps.googleapis.com/maps/api/place/textsearch/json".

Definition searched (rt : runtime) (self : Tools) (keyword lat lng : pyval) (w1 : world)
    (raw : list pyval) (w2 : world) : Prop :=
  exists answer,
    requests_get_json text_search_url (text_search_params rt self keyword lat lng) w1
      = (Return answer, w2) /\
    search_answer answer raw.

(** A raw result whose identifier is in the exclude list. *)
Definition excluded (exclude_ids : list pyval) (p : pyval) : Prop :=
  exists d,
    p = PDict d /\
    py_in (match dict_find (lit "place_id") d with Some pid => pid | None => PNone end)
          exclude_ids = true.

(** [d.get(k)]. *)
Definition field (k : pystr) (d : list (pystr * pyval)) : pyval :=
  match dict_find k d with
  | Some v => v
  | None => PNone
  end.

(** The location and the keyword of the analysis are those of the stored
    context (compared with [==]). *)
Definition same_request (analysis context : list (pystr * pyval)) : bool :=
  py_eqb (field (lit "location") analysis) (field (lit "location") context) &&
  py_eqb (field (lit "keyword") analysis) (field (lit "keyword") context).

(** No two entries of a user's list share their name. *)
Definition names_unique (lists : list (pystr * list Bot.SavedEntry)) : Prop :=
  Forall (fun ul => NoDup (map Bot.name (snd ul))) lists.

(** The restaurant is already in the user's list, by name. *)
Definition name_saved (user_id : pystr) (restaurant : Bot.SavedEntry)
    (lists : list (pystr * list Bot.SavedEntry)) : Prop :=
  exists saved, In saved (Bot.lists_get user_id lists) /\ Bot.name saved = Bot.name restaurant.

(** The two answers of [/delete] that stand for "not found": the list is
    empty, or no name in it contains the query. *)
Definition not_found (query : pystr) (saved : list Bot.SavedEntry) : Bot.reply :=
  match saved with
  | [] => Bot.ListIsEmpty
  | _ :: _ => Bot.NoSuchRestaurant query
  end.

(** A value that holds no number, and whose dicts do not repeat a key. *)
Fixpoint json_plain (v : pyval) : Prop :=
  match v with
  | PInt _ | PFloat _ => False
  | PList l =>
      (fix all (l : list pyval) : Prop :=
         match l with
         | [] => True
         | x :: l' => json_plain x /\ all l'
         end) l
  | PDict d =>
      NoDup (map fst d) /\
      (fix all (d : list (pystr * pyval)) : Prop :=
         match d with
         | [] => True
         | kx :: d' => json_plain (snd kx) /\ all d'
         end) d
  | _ => True
  end.

(** The depth of calls [Json.parse_value] needs to read the text of a value. *)
Fixpoint parse_depth (v : pyval) : nat :=
  match v with
  | PList l =>
      S ((fix elements (l : list pyval) : nat :=
            match l with
            | [] => O
            | x :: l' => S (Nat.max (parse_depth x) (elements l'))
            end) l)
  | PDict d =>
      S ((fix members (d : list (pystr * pyval)) : nat :=
            match d with
            | [] => O
            | kx :: d' => S (Nat.max (parse_depth (snd kx)) (members d'))
            end) d)
  | _ => 1
  end.

(** Every string of the saved lists can be encoded in UTF-8. *)
Definition lists_encodable (lists : list (pystr * list Bot.SavedEntry)) : Prop :=
  Forall (fun ul =>
            Bot.utf8_encodable (fst ul) = true /\
            Forall (fun e => Bot.utf8_encodable (Bot.name e) = true /\
                             Bot.utf8_encodable (Bot.map_link e) = true /\
                             Bot.utf8_encodable (Bot.rating e) = true) (snd ul)) lists.

(** The text of the items after the first one of a list, and of the members
    after the first one of a dict, as [Json.encode] writes them. *)
Definition encode_items (rt : runtime) (level : nat) (xs : list pyval) : pystr :=
  flat_map (fun y => lit "," ++ Json.newline_indent level ++ Json.encode rt level y) xs.

Definition encode_members (rt : runtime) (level : nat) (kvs : list (pystr * pyval)) : pystr :=
  flat_map (fun ky => lit "," ++ Json.newline_indent level ++ Json.encode_string (fst ky) ++
                      lit ": " ++ Json.encode rt level (snd ky)) kvs.

Definition depth_elements (l : list pyval) : nat :=
  fold_right (fun x n => S (Nat.max (parse_depth x) n)) O l.

Definition depth_members (d : list (pystr * pyval)) : nat :=
  fold_right (fun kx n => S (Nat.max (parse_depth (snd kx)) n)) O d.

(** [Json.parse_value] reads the value back from its text at any nesting
    level, whatever follows the text. *)
Definition reads_back (rt : runtime) (v : pyval) : Prop :=
  forall (level : nat) (rest : pystr) (fuel : nat),
    (parse_depth v <= fuel)%nat ->
    Json.parse_value rt fuel (Json.encode rt level v ++ rest) = Some (v, rest).

(** Every string of a value can be encoded in UTF-8. *)
Fixpoint encodable_value (v : pyval) : Prop :=
  match v with
  | PStr s => Bot.utf8_encodable s = true
  | PList l =>
      (fix all (l : list pyval) : Prop :=
         match l with
         | [] => True
         | x :: l' => encodable_value x /\ all l'
         end) l
  | PDict d =>
      (fix all (d : list (pystr * pyval)) : Prop :=
         match d with
         | [] => True
         | kx :: d' =>
             (Bot.utf8_encodable (fst kx) = true /\ encodable_value (snd kx)) /\ all d'
         end) d
  | _ => True
  end.

(** An answer, or an element of one, that is an object whose status is OK. *)
Definition status_ok (answer : pyval) : Prop :=
  exists d status,
    answer = PDict d /\ dict_find (lit "status") d = Some status /\ py_eqb status OK = true.




(** The outcome of a call that fails: no answer at all, an exception, or an
    answer that is not an object whose status is OK. *)
Definition call_fails (outcome : option (res pyval)) : Prop :=
  match outcome with
  | Some (Return answer) => ~ status_ok answer
  | Some (Raise _) | None => True
  end.

(** One of the first three calls of [find_food] fails (geocoding, the text
    search, the distance matrix): the outcomes come in the order of the
    calls. *)
Definition early_failure (w : world) : Prop :=
  exists k, (k < 3)%nat /\ call_fails (nth_error (upstream w) k).

Definition place_details_url : pystr :=
  lit "https://maps.googleapis.com/maps/api/place/details/json".

(** From [w] to [w'] no request went to the place-details service. *)
Definition no_details_request (w w' : world) : Prop :=
  exists more,
    sent w' = sent w ++ more /\
    Forall (fun r => req_url r <> place_details_url) more.

(** Run from [w], the computation [c] sends nothing to the place-details
    service, whether it returns or raises. *)
Definition sends_no_details {A} (c : M A) (w : world) : Prop :=
  no_details_request w (snd (c w)).


(** ** Vocabulary of the further properties *)

(** The next call brings no answer with status OK: it fails, or what comes
    back is something else. *)
Definition no_ok_answer (w : world) : Prop :=
  forall answer rest, upstream w = Return answer :: rest -> ~ status_ok answer.

(** An entry of [travel_data]: the key is one of the destinations, the value
    holds a text and a whole number of minutes. *)
Definition travel_entry_of (destinations : list pyval) (kv : pyval * pyval) : Prop :=
  In (fst kv) destinations /\
  exists text minutes, snd kv = PDict [(lit "text", text); (lit "minutes", PInt minutes)].

(** What a computation adds to the log of requests when it runs from [w]: at
    most [n] requests, whether it returns or raises. *)
Definition calls_at_most {A} (n : nat) (c : M A) (w : world) : Prop :=
  exists more, sent (snd (c w)) = sent w ++ more /\ (length more <= n)%nat.

(** [d.get(k, default)]. *)
Definition field_or (k : pystr) (default : pyval) (d : list (pystr * pyval)) : pyval :=
  match dict_find k d with
  | Some v => v
  | None => default
  end.

(** A place that the filter of [find_food] lets through: its rating and its
    number of reviews (0 when missing) reach the thresholds, and its
    identifier is not in the exclude list. *)
Definition eligible (min_rating min_reviews : pyval) (exclude_ids : list pyval)
    (p : pyval) : Prop :=
  exists d,
    p = PDict d /\
    py_ge (field_or (lit "rating") (PInt 0) d) min_rating = Return true /\
    py_ge (field_or (lit "user_ratings_total") (PInt 0) d) min_reviews = Return true /\
    py_in (field (lit "place_id") d) exclude_ids = false.

(** [p'] is the place [p] with its travel time text. *)
Definition labelled (p p' : pyval) : Prop :=
  exists d text, p = PDict d /\ p' = PDict (dict_set (lit "travel_time_text") text d).

(** A place of [final_list]: [travel_info] has an entry for its identifier,
    whose minutes are within the budget and whose text the place carries. *)
Definition within_time (travel_info : list (pyval * pyval)) (max_travel_time : pyval)
    (p : pyval) : Prop :=
  exists d pid info minutes text,
    p = PDict d /\ dict_find (lit "place_id") d = Some pid /\
    tdict_find pid travel_info = Some info /\
    py_item info (lit "minutes") = Return minutes /\
    py_le minutes max_travel_time = Return true /\
    py_item info (lit "text") = Return text /\
    dict_find (lit "travel_time_text") d = Some text.

(** The identifier of a place. *)
Definition place_id_of (p : pyval) : pyval :=
  match p with
  | PDict d => field (lit "place_id") d
  | _ => PNone
  end.

(** The restaurant that [find_food] returns for the identifier [id]: six
    fields, the map link made of the identifier, and well-formed details. *)
Definition restaurant_of (rt : runtime) (id entry : pyval) : Prop :=
  exists name rating travel_time address hours reviews_summary summary,
    entry = PDict
      [(lit "name", name);
       (lit "rating", PStr rating);
       (lit "travel_time", travel_time);
       (lit "address", address);
       (lit "map_link",
          PStr (lit "https://www.google.com/maps/place/?q=place_id:" ++ fmt rt id));
       (lit "details_data", details_of hours reviews_summary summary)] /\
    (length reviews_summary <= 1500)%nat.

(** The file holds the lists that are in memory: what [load_data] would read
    at the next start is what the bot has now. *)
Definition in_sync (rt : runtime) (st : Bot.state) : Prop :=
  Bot.load_data rt (Bot.DATA_FILE st) = Bot.lists_value (Bot.user_saved_lists st).

(** The strings of an entry can be encoded in UTF-8. *)
Definition entry_encodable (e : Bot.SavedEntry) : Prop :=
  Bot.utf8_encodable (Bot.name e) = true /\
  Bot.utf8_encodable (Bot.map_link e) = true /\
  Bot.utf8_encodable (Bot.rating e) = true.

(** What an action brings into the lists can be encoded in UTF-8. *)
Definition action_encodable (a : Bot.action) : Prop :=
  match a with
  | Bot.Save user_id restaurant =>
      Bot.utf8_encodable user_id = true /\ entry_encodable restaurant
  | Bot.Delete _ _ => True
  end.

(** The saved lists as a Python dict has them (no user twice), with strings
    that can be written, and the file in step with them. *)
Definition store_ok (rt : runtime) (st : Bot.state) : Prop :=
  NoDup (map fst (Bot.user_saved_lists st)) /\
  lists_encodable (Bot.user_saved_lists st) /\
  in_sync rt st.

(** The language model cannot be reached: no key, or the call fails. *)
Definition llm_unavailable (cfg : Bot.Config) (w : world) : Prop :=
  Bot.LLM_API_KEY cfg = [] \/
  upstream w = [] \/
  exists e rest, upstream w = Raise e :: rest.

(** What [user_contexts.get(user_id)] can give: [None], or a stored dict. *)
Definition context_or_none (c : pyval) : Prop :=
  c = PNone \/ exists d, c = PDict d.

(** The characters a JSON document can start with: white space, the opening
    of a string, an object or an array, of [null], [true], [false], [NaN],
    [Infinity], a sign or a digit (and the byte order mark, which is refused
    by its own test). *)
Definition opens_json (c : N) : bool :=
  (Json.is_ws c || (c =? 34) || (c =? 123) || (c =? 91) || (c =? 110) || (c =? 116) ||
   (c =? 102) || (c =? 78) || (c =? 73) || (c =? 45) || Json.is_digit c || (c =? 65279))%N.

(** How deep the lists and the objects of a value are nested. *)
Fixpoint nesting (v : pyval) : nat :=
  match v with
  | PList l =>
      S ((fix deepest (l : list pyval) : nat :=
            match l with
            | [] => O
            | x :: l' => Nat.max (nesting x) (deepest l')
            end) l)
  | PDict d =>
      S ((fix deepest (d : list (pystr * pyval)) : nat :=
            match d with
            | [] => O
            | kx :: d' => Nat.max (nesting (snd kx)) (deepest d')
            end) d)
  | _ => O
  end.

(** What [run_food_chain] reads from the analysis. *)
Definition chain_location (params : list (pystr * pyval)) : pyval :=
  field_or (lit "location") FoodTool.default_location params.

Definition chain_keyword (params : list (pystr * pyval)) : pyval :=
  field_or (lit "keyword") Bot.default_keyword params.

Definition chain_time_limit (params : list (pystr * pyval)) : pyval :=
  field_or (lit "time_limit") (PInt 20) params.

(** The failures of [find_food] that [run_food_chain] answers with as they
    are, and those it hands to the language model. *)
Definition plain_failure (rt : runtime) (params : list (pystr * pyval)) (msg : pystr) : Prop :=
  msg = FoodTool.msg_key_missing \/
  msg = FoodTool.msg_cannot_find rt (chain_location params) \/
  (exists e, msg = FoodTool.msg_error rt e) \/
  msg = FoodTool.msg_none_within rt (chain_time_limit params) \/
  msg = FoodTool.msg_already_seen rt (chain_keyword params).

Definition guided_failure (msg : pystr) : Prop :=
  msg = FoodTool.msg_no_results \/ msg = FoodTool.msg_no_match.

(** A stored context: a dict whose ["seen_ids"] is a list. *)
Definition context_ok (c : pyval) : Prop :=
  exists d ids, c = PDict d /\ dict_find (lit "seen_ids") d = Some (PList ids).

Definition contexts_ok (contexts : list (Z * pyval)) : Prop :=
  Forall (fun uc => context_ok (snd uc)) contexts.

(** The identifiers a stored context holds. *)
Definition seen_ids_of (d : list (pystr * pyval)) : list pyval :=
  match dict_find (lit "seen_ids") d with
  | Some (PList ids) => ids
  | _ => []
  end.

(** [user_contexts.get(user_id)]. *)
Definition last_context_of (user_id : Z) (contexts : list (Z * pyval)) : pyval :=
  match Bot.contexts_find user_id contexts with
  | Some c => c
  | None => PNone
  end.

(** What [find_food] of [webui_tool.py] answers with: one of its messages, or
    the prompt over one to three restaurants. *)
Definition webui_message (rt : runtime) (location max_travel_time : pyval)
    (out : pystr) : Prop :=
  out = msg_key_missing \/
  out = msg_cannot_find rt location \/
  out = msg_no_results \/
  out = WebuiTool.msg_no_criteria \/
  out = msg_none_within rt max_travel_time \/
  exists e, out = msg_error rt e.

Definition webui_prompt (rt : runtime) (keyword location max_travel_time : pyval)
    (out : pystr) : Prop :=
  exists data,
    out = WebuiTool.prompt_of rt keyword location max_travel_time data /\
    (1 <= length data <= 3)%nat.

(** * Proofs *)

(** ** Travel times: [math.ceil(seconds / 60)] *)

Section TravelTimes.

Local Open Scope Z_scope.





Lemma pystr_eqb_eq (s t : pystr) : pystr_eqb s t = true <-> s = t.
Proof.
  revert t. induction s as [|x s IH]; intros [|y t]; cbn; split; try congruence.
  - intros H. apply andb_true_iff in H as [Hx Hs].
    apply N.eqb_eq in Hx. apply IH in Hs. congruence.
  - intros [= -> ->]. rewrite N.eqb_refl. now apply IH.
Qed.

Lemma pystr_eqb_refl (s : pystr) : pystr_eqb s s = true.
Proof. now apply pystr_eqb_eq. Qed.

Lemma pystr_eqb_neq (s t : pystr) : pystr_eqb s t = false <-> s <> t.
Proof.
  destruct (pystr_eqb s t) eqn:E; split; try congruence.
  - apply pystr_eqb_eq in E. congruence.
  - intros _ H. apply pystr_eqb_eq in H. congruence.
Qed.




End TravelTimes.
Section TravelLoop.

Local Open Scope Z_scope.







End TravelLoop.

Section TravelTimesOfAnswer.

Variable rt : runtime.
Variable self : Tools.
Variables lat lng : pyval.

(** The two [calculate_travel_times] on at least one destination: both give
    the empty mapping, or the answer holds a list of elements and both give
    what the loop makes of it. *)
Lemma travel_times_run (d0 : pyval) (ds : list pyval) (w : world) :
  (fst (calculate_travel_times rt self lat lng (d0 :: ds) w) = Return [] /\
   fst (WebuiTool.calculate_travel_times rt lat lng (d0 :: ds) w) = Return []) \/
  (exists answer rest elements td,
      upstream w = Return answer :: rest /\
      matrix_answer answer elements /\
      travel_loop (d0 :: ds) 0 elements [] = Return td /\
      fst (calculate_travel_times rt self lat lng (d0 :: ds) w) = Return td /\
      fst (WebuiTool.calculate_travel_times rt lat lng (d0 :: ds) w) = Return td).
Proof.
  unfold calculate_travel_times, WebuiTool.calculate_travel_times.
  unfold try_except, bind, requests_get_json, lift, ret.
  destruct (upstream w) as [|[answer|e] rest] eqn:Hup; try (left; split; reflexivity).
  destruct answer as [| | | | | |d]; cbn [py_item]; try (left; split; reflexivity).
  destruct (dict_find (lit "status") d) as [status|] eqn:Hst; [|left; split; reflexivity].
  destruct (py_eqb status OK) eqn:Hok; cbn [negb]; [|left; split; reflexivity].
  cbn [py_contains].
  destruct (dict_find (lit "rows") d) as [rows|] eqn:Hrows; [|left; split; reflexivity].
  cbn [andb].
  destruct rows as [|[|]|z|f|s|l|d']; cbn [truthy py_index];
    try (left; split; reflexivity).
  - destruct (z =? 0)%Z; left; split; reflexivity.
  - destruct (fis_zero f); left; split; reflexivity.
  - destruct s; cbn [nth_error]; left; split; reflexivity.
  - destruct l as [|first more]; cbn [nth_error]; [left; split; reflexivity|].
    destruct first as [| | | | | |row]; cbn [py_item]; try (left; split; reflexivity).
    destruct (dict_find (lit "elements") row) as [els|] eqn:Hels;
      [|left; split; reflexivity].
    destruct els as [| | | |s|elements|d']; cbn [py_iter]; try (left; split; reflexivity).
    + destruct s; left; split; reflexivity.
    + destruct (travel_loop (d0 :: ds) 0 elements []) as [td|e] eqn:Hloop;
        [|left; split; reflexivity].
      right. exists (PDict d), rest, elements, td.
      split; [reflexivity|]. split; [|split; [exact Hloop | split; reflexivity]].
      exists d, status, row, more. repeat split; assumption.
    + destruct d'; left; split; reflexivity.
  - destruct d'; left; split; reflexivity.
Qed.


End TravelTimesOfAnswer.

(** The examples of the specification: 119 s and 120 s are 2 minutes, 121 s
    is 3. *)
Example minutes_of_119_120_121 :
  minutes_of (Sample.element "OK" "2 mins" 119) = Return (PInt 2) /\
  minutes_of (Sample.element "OK" "2 mins" 120) = Return (PInt 2) /\
  minutes_of (Sample.element "OK" "3 mins" 121) = Return (PInt 3).
Proof. repeat split; vm_compute; reflexivity. Qed.



(** ** Place details *)

Section PlaceDetails.

Lemma rmap_review_texts (rs : list pyval) (texts : list pystr) :
  Forall2 review_text rs texts ->
  rmap (fun r => py_get r (lit "text") (PStr [])) rs = Return (map PStr texts).
Proof.
  induction 1 as [|r t rs texts (d & -> & Ht) _ IH]; [reflexivity|].
  cbn [rmap py_get map]. rewrite IH.
  destruct Ht as [-> | [-> ->]]; reflexivity.
Qed.

Lemma py_join_strings (sep : pystr) (parts : list pystr) :
  py_join sep (map PStr parts) = Return (str_join sep parts).
Proof.
  unfold py_join.
  assert (H : rmap (fun v => match v with PStr s => Return s | _ => Raise TypeError end)
                   (map PStr parts) = Return parts).
  { induction parts as [|p parts IH]; [reflexivity|]. cbn [map rmap rbind]. now rewrite IH. }
  now rewrite H.
Qed.

(** [info] after the three assignments. *)
Lemma details_assigned (hours summary : pyval) (text : pystr) :
  dict_set (lit "reviews_summary") (PStr text)
    (dict_set (lit "editorial_summary") summary
       (dict_set (lit "opening_hours") hours empty_details))
  = [(lit "opening_hours", hours);
     (lit "reviews_summary", PStr text);
     (lit "editorial_summary", summary)].
Proof. reflexivity. Qed.

Lemma details_assigned_twice (hours summary : pyval) :
  dict_set (lit "editorial_summary") summary
    (dict_set (lit "opening_hours") hours empty_details)
  = [(lit "opening_hours", hours);
     (lit "reviews_summary", PStr no_review_data);
     (lit "editorial_summary", summary)].
Proof. reflexivity. Qed.

(** The statements after the HTTP call, for an answer with reviews. *)
Lemma fill_details_reviews (limit : nat) (answer hours summary : pyval)
    (rs : list pyval) (texts : list pystr) :
  details_answer answer hours summary (PList rs) -> rs <> [] ->
  Forall2 review_text rs texts ->
  snd (fill_details limit answer empty_details)
  = [(lit "opening_hours", hours);
     (lit "reviews_summary", PStr (firstn limit (str_join (lit " | ") texts)));
     (lit "editorial_summary", summary)].
Proof.
  intros (d & st & result & oh & ed & -> & Hst & Hok & Hres & Hoh & Hh & Hed & Hs & Hrev)
         Hne Htexts.
  unfold fill_details, bind, lift, set_info, ret.
  cbn [py_get] in Hres |- *. rewrite Hst, Hok. injection Hres as Hres. rewrite Hres.
  rewrite Hoh, Hh, Hed, Hs, Hrev.
  destruct rs as [|r rs]; [congruence|]. cbn [truthy py_iter].
  erewrite rmap_review_texts by eassumption. rewrite py_join_strings.
  cbn [snd]. apply details_assigned.
Qed.

(** The same for an answer without reviews. *)
Lemma fill_details_no_reviews (limit : nat) (answer hours summary reviews : pyval) :
  details_answer answer hours summary reviews -> truthy reviews = false ->
  snd (fill_details limit answer empty_details)
  = [(lit "opening_hours", hours);
     (lit "reviews_summary", PStr no_review_data);
     (lit "editorial_summary", summary)].
Proof.
  intros (d & st & result & oh & ed & -> & Hst & Hok & Hres & Hoh & Hh & Hed & Hs & Hrev)
         Hfalsy.
  unfold fill_details, bind, lift, set_info, ret.
  cbn [py_get] in Hres |- *. rewrite Hst, Hok. injection Hres as Hres. rewrite Hres.
  rewrite Hoh, Hh, Hed, Hs, Hrev, Hfalsy.
  cbn [snd]. apply details_assigned_twice.
Qed.

(** An answer whose status is not OK leaves [info] as it was. *)
Lemma fill_details_not_ok (limit : nat) (answer : pyval) (info : list (pystr * pyval)) :
  (forall status, py_get answer (lit "status") PNone = Return status ->
                  py_eqb status OK = false) ->
  snd (fill_details limit answer info) = info.
Proof.
  intros Hno. unfold fill_details, bind, lift, ret.
  destruct (py_get answer (lit "status") PNone) as [status|e] eqn:E; [|reflexivity].
  now rewrite (Hno status eq_refl).
Qed.

Lemma get_place_details_answered (self : Tools) (place_id answer : pyval)
    (rest : list (res pyval)) (w : world) :
  upstream w = Return answer :: rest ->
  fst (get_place_details self place_id w)
  = Return (PDict (snd (fill_details 1500 answer empty_details))).
Proof.
  intros Hup. unfold get_place_details, try_except, bind, requests_get_json, ret.
  now rewrite Hup.
Qed.

(** C9: for a place-details answer with status OK whose result is an object
    in which [opening_hours] and [editorial_summary] are objects where they
    are present (what [details_answer] says), and whose reviews are objects
    with string texts, [reviews_summary] is the reviews' texts joined by
    [" | "] and cut to 1500 characters; with no reviews it is the "no review
    data" sentinel; in both cases the opening hours and the editorial summary
    are those of the answer.  When the call fails or its status is not OK,
    the sentinel comes with empty opening hours and an empty summary. *)
Theorem reviews_summary_of_details (self : Tools) (place_id : pyval) (w : world) :
  (forall answer rest hours summary reviews,
      upstream w = Return answer :: rest ->
      details_answer answer hours summary reviews ->
      (forall rs texts,
          reviews = PList rs -> rs <> [] -> Forall2 review_text rs texts ->
          fst (get_place_details self place_id w)
          = Return (details_of hours (firstn 1500 (str_join (lit " | ") texts)) summary)) /\
      (truthy reviews = false ->
       fst (get_place_details self place_id w)
       = Return (details_of hours no_review_data summary))) /\
  (call_failed w ->
   fst (get_place_details self place_id w) = Return (details_of (PList []) no_review_data (PStr []))).
Proof.
  split.
  - intros answer rest hours summary reviews Hup Hans. split.
    + intros rs texts -> Hne Htexts.
      erewrite get_place_details_answered by eassumption.
      erewrite fill_details_reviews by eassumption. reflexivity.
    + intros Hfalsy.
      erewrite get_place_details_answered by eassumption.
      erewrite fill_details_no_reviews by eassumption. reflexivity.
  - intros [Hnone | [(e & rest & Hup) | (answer & rest & Hup & Hno)]].
    + unfold get_place_details, try_except, bind, requests_get_json, ret.
      now rewrite Hnone.
    + unfold get_place_details, try_except, bind, requests_get_json, ret.
      now rewrite Hup.
    + erewrite get_place_details_answered by eassumption.
      now rewrite fill_details_not_ok.
Qed.

(** C9 as stated fails twice.  An answer without reviews does not come back
    with empty opening hours: the opening hours of the answer are kept, only
    the reviews summary is the sentinel.  And an answer with status OK and
    two reviews does not always get their texts joined: when its
    [opening_hours] is [null], reading the opening hours raises before the
    reviews are looked at, and the sentinel comes back instead of
    ["good | nice"]. *)
Lemma hours_kept_and_reviews_lost :
  (fst (get_place_details Sample.tools (PStr (lit "A"))
          (Sample.world_of [Return (Sample.details [PStr (lit "Mon: 9-5")] [])] []))
   = Return (details_of (PList [PStr (lit "Mon: 9-5")]) no_review_data (PStr [])) /\
   PList [PStr (lit "Mon: 9-5")] <> PList []) /\
  (fst (get_place_details Sample.tools (PStr (lit "A"))
          (Sample.world_of
             [Return (PDict [(lit "status", OK);
                             (lit "result",
                              PDict [(lit "opening_hours", PNone);
                                     (lit "reviews",
                                      PList [Sample.review "good";
                                             Sample.review "nice"])])])] []))
   = Return (details_of (PList []) no_review_data (PStr [])) /\
   no_review_data <> firstn 1500 (str_join (lit " | ") [lit "good"; lit "nice"])).
Proof.
  split; split; try reflexivity; [discriminate|].
  intros H. vm_compute in H. discriminate H.
Qed.

(** Two reviews, joined by [" | "]. *)
Lemma reviews_summary_of_details_witness :
  fst (get_place_details Sample.tools (PStr (lit "A"))
         (Sample.world_of
            [Return (Sample.details [PStr (lit "Mon: 9-5")]
                       [Sample.review "good"; Sample.review "nice"])] []))
  = Return (details_of (PList [PStr (lit "Mon: 9-5")])
              (firstn 1500 (str_join (lit " | ") [lit "good"; lit "nice"]))
              (PStr [])).
Proof.
  refine (proj1 (proj1 (reviews_summary_of_details Sample.tools (PStr (lit "A"))
                  (Sample.world_of
                     [Return (Sample.details [PStr (lit "Mon: 9-5")]
                                [Sample.review "good"; Sample.review "nice"])] []))
           (Sample.details [PStr (lit "Mon: 9-5")]
              [Sample.review "good"; Sample.review "nice"])
           [] (PList [PStr (lit "Mon: 9-5")]) (PStr [])
           (PList [Sample.review "good"; Sample.review "nice"]) _ _)
           [Sample.review "good"; Sample.review "nice"] [lit "good"; lit "nice"] _ _ _).
  - reflexivity.
  - do 5 eexists. repeat split; reflexivity.
  - reflexivity.
  - discriminate.
  - repeat constructor; eexists; (split; [reflexivity | left; reflexivity]).
Defined.

(** webui_tool.py does the same with a budget of 1000 characters. *)
Remark webui_reviews_cut_at_1000 (place_id answer hours summary : pyval)
    (rs : list pyval) (texts : list pystr) (rest : list (res pyval)) (w : world) :
  upstream w = Return answer :: rest ->
  details_answer answer hours summary (PList rs) -> rs <> [] ->
  Forall2 review_text rs texts ->
  fst (WebuiTool.get_place_details place_id w)
  = Return (details_of hours (firstn 1000 (str_join (lit " | ") texts)) summary).
Proof.
  intros Hup Hans Hne Htexts.
  unfold WebuiTool.get_place_details, try_except, bind, requests_get_json, ret.
  rewrite Hup. cbn [fst].
  erewrite fill_details_reviews by eassumption. reflexivity.
Qed.

End PlaceDetails.

(** ** The monad *)

Section Monad.

Context {S A B : Type}.

Lemma bind_Return (c : SE S A) (k : A -> SE S B) (w w' : S) (b : B) :
  bind c k w = (Return b, w') ->
  exists a w1, c w = (Return a, w1) /\ k a w1 = (Return b, w').
Proof.
  unfold bind. destruct (c w) as [[a|e] w1]; [eauto | discriminate].
Qed.

Lemma bind_step (c : SE S A) (k : A -> SE S B) (w w1 : S) (a : A) :
  c w = (Return a, w1) -> bind c k w = k a w1.
Proof. intros H. unfold bind. now rewrite H. Qed.

Lemma lift_Return (r : res A) (w w' : S) (a : A) :
  lift r w = (Return a, w') -> r = Return a /\ w' = w.
Proof. unfold lift. now intros [= -> ->]. Qed.

Lemma bind_inv (c : SE S A) (k : A -> SE S B) (w w' : S) (r : res B) :
  bind c k w = (r, w') ->
  (exists e, c w = (Raise e, w') /\ r = Raise e) \/
  (exists a w1, c w = (Return a, w1) /\ k a w1 = (r, w')).
Proof.
  unfold bind. destruct (c w) as [[a|e] w1]; [right; eauto|].
  intros [= <- <-]. left. eauto.
Qed.

Lemma lift_inv (x r : res A) (w w' : S) : lift x w = (r, w') -> r = x /\ w' = w.
Proof. unfold lift. now intros [= <- <-]. Qed.

Lemma lift_step (r : res A) (k : A -> SE S B) (w : S) (a : A) :
  r = Return a -> bind (lift r) k w = k a w.
Proof. intros ->. reflexivity. Qed.

Lemma rmap_length (f : A -> res B) (l : list A) (l' : list B) :
  rmap f l = Return l' -> length l' = length l.
Proof.
  revert l'. induction l as [|a l IH]; intros l'; cbn [rmap].
  - now intros [= <-].
  - destruct (f a) as [b|e]; cbn [rbind]; [|discriminate].
    destruct (rmap f l) as [bs|e]; cbn [rbind]; [|discriminate].
    intros [= <-]. cbn. now rewrite (IH bs).
Qed.

End Monad.

Lemma mapM_length {A B} (f : A -> M B) (l : list A) (l' : list B) (w w' : world) :
  mapM f l w = (Return l', w') -> length l' = length l.
Proof.
  revert l' w w'. induction l as [|a l IH]; intros l' w w'; cbn [mapM].
  - now intros [= <- _].
  - intros H. apply bind_Return in H as (b & w1 & _ & H).
    unfold bind in H. destruct (mapM f l w1) as [[bs|e] w2] eqn:E; [|discriminate].
    injection H as <- _. cbn. now rewrite (IH bs w1 w2).
Qed.

(** ** [random.sample] *)

Section Sample.

Context {A : Type}.

Lemma list_set_length (j : nat) (x : A) (l : list A) : length (list_set j x l) = length l.
Proof.
  revert j. induction l as [|a l IH]; intros [|j]; cbn; auto.
Qed.

Lemma list_set_Forall (P : A -> Prop) (j : nat) (x : A) (l : list A) :
  P x -> Forall P l -> Forall P (list_set j x l).
Proof.
  intros Hx Hl. revert j. induction Hl as [|a l Ha Hl IH]; intros [|j]; cbn; auto.
Qed.

Lemma Forall_firstn (P : A -> Prop) (n : nat) (l : list A) :
  Forall P l -> Forall P (firstn n l).
Proof.
  intros Hl. revert n. induction Hl as [|a l Ha Hl IH]; intros [|n]; cbn; auto.
Qed.

Lemma Forall_nth (P : A -> Prop) (j : nat) (l : list A) (x0 : A) :
  Forall P l -> P x0 -> P (nth j l x0).
Proof.
  intros Hl Hx. revert j. induction Hl as [|a l Ha Hl IH]; intros [|j]; cbn; auto.
Qed.

(** The loop draws exactly [k] elements of the pool, whatever the random
    numbers are. *)
Lemma sample_loop_spec (P : A -> Prop) (k : nat) :
  forall (pool : list A) (w : world),
    (k <= length pool)%nat -> Forall P pool ->
    exists l w',
      sample_loop k pool w = (Return l, w') /\ length l = k /\ Forall P l.
Proof.
  induction k as [|k IH]; intros pool w Hk HP.
  - exists [], w. cbn. auto.
  - destruct pool as [|x0 pool']; [cbn in Hk; lia|].
    assert (Hx0 : P x0) by now inversion HP.
    cbn [sample_loop]. unfold bind at 1. unfold randbelow. cbv beta iota zeta.
    match goal with
    | |- context [bind (sample_loop k ?p) _ ?w1] =>
        destruct (IH p w1) as (l & w' & Hrun & Hlen & HPl)
    end.
    + rewrite length_firstn, list_set_length. cbn [length] in *. lia.
    + apply Forall_firstn. apply list_set_Forall; [apply Forall_nth; assumption | assumption].
    + unfold bind. rewrite Hrun. unfold ret. do 2 eexists.
      split; [reflexivity|]. split; [cbn; lia|].
      constructor; [apply Forall_nth; assumption | assumption].
Qed.

Lemma random_sample_spec (P : A -> Prop) (k : nat) (population : list A) (w : world) :
  (k <= length population)%nat -> Forall P population ->
  exists l w',
    random_sample population k w = (Return l, w') /\ length l = k /\ Forall P l.
Proof.
  intros Hk HP. unfold random_sample.
  destruct (length population <? k)%nat eqn:E; [apply Nat.ltb_lt in E; lia|].
  now apply sample_loop_spec.
Qed.

End Sample.

(** ** The helpers of [find_food] never raise *)

Section Helpers.

Variable rt : runtime.
Variable self : Tools.

Lemma rbind_Return {A B} (r : res A) (k : A -> res B) (b : B) :
  rbind r k = Return b -> exists a, r = Return a /\ k a = Return b.
Proof. destruct r as [a|e]; cbn; [eauto | discriminate]. Qed.

Lemma try_except_total {S A} (body : SE S A) (handler : exn -> A) (w : S) :
  exists a w', try_except body (fun e => ret (handler e)) w = (Return a, w').
Proof.
  unfold try_except, ret. destruct (body w) as [[a|e] w']; eauto.
Qed.

Lemma get_coordinates_total (location : pyval) (w : world) :
  exists lat lng w', get_coordinates self location w = (Return (lat, lng), w').
Proof.
  unfold get_coordinates. destruct (negb (truthy location)).
  - unfold ret. eauto.
  - match goal with
    | |- context [try_except ?body _ w] =>
        destruct (try_except_total body (fun _ => (PNone, PNone)) w) as ([lat lng] & w' & H)
    end.
    eauto.
Qed.

Lemma calculate_travel_times_total (lat lng : pyval) (destinations : list pyval) (w : world) :
  exists td w', calculate_travel_times rt self lat lng destinations w = (Return td, w').
Proof.
  unfold calculate_travel_times. destruct destinations as [|d ds].
  - unfold ret. eauto.
  - match goal with
    | |- context [try_except ?body _ w] =>
        destruct (try_except_total body (fun _ => []) w) as (td & w' & H)
    end.
    eauto.
Qed.

Lemma get_place_details_total (place_id : pyval) (w : world) :
  exists info w', get_place_details self place_id w = (Return (PDict info), w').
Proof.
  unfold get_place_details, try_except, bind, requests_get_json, ret.
  destruct (upstream w) as [|[answer|e] rest]; eauto.
Qed.

Lemma dict_find_set_other (k k' : pystr) (v : pyval) (d : list (pystr * pyval)) :
  k <> k' -> dict_find k (dict_set k' v d) = dict_find k d.
Proof.
  intros Hne. induction d as [|[k0 v0] d IH]; cbn [dict_set dict_find].
  - apply pystr_eqb_neq in Hne. now rewrite Hne.
  - destruct (pystr_eqb k' k0) eqn:E; cbn [dict_find].
    + apply pystr_eqb_eq in E. subst k0. apply pystr_eqb_neq in Hne. now rewrite Hne.
    + now rewrite IH.
Qed.

(** Every place that enters [final_list] is a dict with its ["place_id"]. *)
Lemma within_budget_has_ids (travel_info : list (pyval * pyval)) (max_travel_time : pyval)
    (top_candidates final_list : list pyval) :
  within_budget travel_info max_travel_time top_candidates = Return final_list ->
  Forall has_place_id final_list.
Proof.
  revert final_list. induction top_candidates as [|p rest IH]; intros fl; cbn [within_budget].
  - intros [= <-]. constructor.
  - intros H.
    apply rbind_Return in H as (pid & Hpid & H).
    apply rbind_Return in H as (known & _ & H).
    apply rbind_Return in H as (keep & _ & H).
    destruct keep; [|now apply IH].
    apply rbind_Return in H as (info & _ & H).
    apply rbind_Return in H as (text & _ & H).
    apply rbind_Return in H as (p' & Hp' & H).
    apply rbind_Return in H as (fl' & Hfl' & H).
    injection H as <-. constructor; [|now apply IH].
    destruct p as [| | | | |l|d]; try discriminate.
    cbn [py_item py_setitem] in Hpid, Hp'. injection Hp' as <-.
    destruct (dict_find (lit "place_id") d) as [pid'|] eqn:E; [|discriminate].
    exists (dict_set (lit "travel_time_text") text d), pid'. split; [reflexivity|].
    rewrite dict_find_set_other; [exact E | discriminate].
Qed.

Lemma place_ids_of (places : list pyval) :
  Forall has_place_id places ->
  exists ids, rmap (fun p => py_item p (lit "place_id")) places = Return ids.
Proof.
  induction 1 as [|p places (d & pid & -> & Hpid) _ (ids & IH)]; cbn [rmap].
  - eauto.
  - cbn [py_item]. rewrite Hpid. cbn [rbind]. rewrite IH. cbn. eauto.
Qed.

Lemma describe_total (p : pyval) (w : world) :
  has_place_id p -> exists entry w', describe rt self p w = (Return entry, w').
Proof.
  intros (d & pid & -> & Hpid). unfold describe.
  erewrite lift_step by (cbn [py_item]; rewrite Hpid; reflexivity).
  destruct (get_place_details_total pid w) as (info & w' & Hd).
  erewrite bind_step by exact Hd. unfold lift. cbn. eauto.
Qed.

Lemma describe_all (places : list pyval) :
  Forall has_place_id places ->
  forall w, exists data w', mapM (describe rt self) places w = (Return data, w').
Proof.
  induction 1 as [|p places Hp _ IH]; intros w; cbn [mapM].
  - unfold ret. eauto.
  - destruct (describe_total w Hp) as (entry & w1 & He).
    erewrite bind_step by exact He.
    destruct (IH w1) as (data & w2 & Hd).
    erewrite bind_step by exact Hd. unfold ret. eauto.
Qed.

(** From a non-empty [final_list] on nothing can fail: the result has as many
    identifiers and restaurants as the sample, [min(3, len(final_list))]. *)
Lemma present_spec (keyword location max_travel_time : pyval)
    (final_list : list pyval) (w : world) :
  Forall has_place_id final_list ->
  exists ids data w',
    present rt self keyword location max_travel_time final_list w
      = (Return (prompt_of rt keyword location max_travel_time data, ids, data), w') /\
    length ids = Nat.min 3 (length final_list) /\
    length data = Nat.min 3 (length final_list).
Proof.
  intros Hfl. unfold present.
  destruct (random_sample_spec w (Nat.le_min_r 3 (length final_list)) Hfl)
    as (selected & w1 & Hsel & Hlen & Hids).
  erewrite bind_step by exact Hsel.
  destruct (place_ids_of Hids) as (ids & Hrmap).
  erewrite lift_step by exact Hrmap.
  destruct (describe_all Hids w1) as (data & w2 & Hdata).
  erewrite bind_step by exact Hdata.
  exists ids, data, w2. unfold ret. split; [reflexivity|].
  rewrite (rmap_length _ _ Hrmap), (mapM_length _ _ _ Hdata). auto.
Qed.

End Helpers.

(** ** [find_food] *)

Section FindFood.

Variable rt : runtime.
Variable self : Tools.
Variables keyword location max_travel_time min_rating min_reviews : pyval.

(** [shortlist] ends with [within_budget]. *)
Lemma shortlist_has_ids (lat lng : pyval) (candidates final_list : list pyval) (w w' : world) :
  shortlist rt self max_travel_time lat lng candidates w = (Return final_list, w') ->
  Forall has_place_id final_list.
Proof.
  unfold shortlist. intros H.
  apply bind_Return in H as (ids & w1 & _ & H).
  apply bind_Return in H as (ti & w2 & _ & H).
  apply lift_Return in H as (H & _).
  eapply within_budget_has_ids; eassumption.
Qed.

Lemma shortlist_nil (lat lng : pyval) (w : world) :
  shortlist rt self max_travel_time lat lng [] w = (Return [], w).
Proof. reflexivity. Qed.

Lemma min3_bounds (n : nat) : n <> 0%nat -> (1 <= Nat.min 3 n <= 3)%nat.
Proof. lia. Qed.

Lemma recommend_shape (lat lng : pyval) (candidates : list pyval) (w w' : world)
    (out : outcome) :
  recommend rt self keyword location max_travel_time lat lng candidates w = (Return out, w') ->
  is_failure rt keyword location max_travel_time out \/
  is_success rt keyword location max_travel_time out.
Proof.
  unfold recommend. intros H.
  apply bind_Return in H as (fl & w1 & Hshort & H).
  destruct fl as [|p fl'].
  - injection H as <- _. left. eexists. split; [reflexivity|]. tauto.
  - remember (p :: fl') as fl eqn:Hfl.
    destruct (@present_spec rt self keyword location max_travel_time fl w1
                (shortlist_has_ids _ _ _ _ Hshort)) as (ids & data & w2 & Hp & Hi & Hd).
    rewrite Hp in H. injection H as <- _. right.
    exists ids, data. split; [reflexivity|].
    assert (Hn : length fl <> 0%nat) by (subst fl; discriminate).
    pose proof (min3_bounds Hn) as Hb.
    split; [|split; lia]. intros ->. cbn [length] in Hi. lia.
Qed.

Lemma search_and_recommend_shape (exclude_ids : list pyval) (lat lng : pyval)
    (w w' : world) (out : outcome) :
  search_and_recommend rt self keyword location max_travel_time min_rating min_reviews
    exclude_ids lat lng w = (Return out, w') ->
  is_failure rt keyword location max_travel_time out \/
  is_success rt keyword location max_travel_time out.
Proof.
  unfold search_and_recommend. intros H.
  apply bind_Return in H as (answer & w1 & _ & H).
  apply bind_Return in H as (status & w2 & _ & H).
  destruct (negb (py_eqb status OK)).
  { injection H as <- _. left. eexists. split; [reflexivity|]. tauto. }
  apply bind_Return in H as (results & w3 & _ & H).
  apply bind_Return in H as (places & w4 & _ & H).
  apply bind_Return in H as (candidates & w5 & _ & H).
  destruct candidates as [|c cs].
  - apply bind_Return in H as (results' & w6 & _ & H).
    left. destruct (truthy results' && (0 <? length exclude_ids)%nat);
      injection H as <- _; eexists; (split; [reflexivity|]); tauto.
  - eapply recommend_shape; eassumption.
Qed.

(** [find_food] after the origin was found: the [try] block, and its
    exception as an error message. *)
Lemma find_food_located (exclude_ids : option (list pyval)) (w w1 : world) (lat lng : pyval) :
  GOOGLE_API_KEY self <> [] ->
  located self location w lat lng w1 ->
  find_food rt self keyword location max_travel_time min_rating min_reviews exclude_ids w
  = try_except
      (search_and_recommend rt self keyword location max_travel_time min_rating min_reviews
         (match exclude_ids with None => [] | Some ids => ids end) lat lng)
      (fun e => ret (failed (msg_error rt e))) w1.
Proof.
  intros Hkey [Hloc Hlat]. unfold find_food.
  destruct (GOOGLE_API_KEY self) as [|c key]; [congruence|].
  erewrite bind_step by exact Hloc. cbn [fst snd]. now rewrite Hlat.
Qed.

(** *** What fails, and what is asked of the place-details service *)

Lemma no_details_refl (w : world) : no_details_request w w.
Proof. exists []. split; [now rewrite app_nil_r | constructor]. Qed.

Lemma no_details_trans (w1 w2 w3 : world) :
  no_details_request w1 w2 -> no_details_request w2 w3 -> no_details_request w1 w3.
Proof.
  intros (m1 & H1 & F1) (m2 & H2 & F2). exists (m1 ++ m2). split.
  - now rewrite H2, H1, app_assoc.
  - apply Forall_app. now split.
Qed.

Lemma quiet_ret {A} (a : A) (w : world) : sends_no_details (ret a) w.
Proof. apply no_details_refl. Qed.

Lemma quiet_lift {A} (r : res A) (w : world) : sends_no_details (lift r) w.
Proof. apply no_details_refl. Qed.

Lemma quiet_bind {A B} (c : M A) (k : A -> M B) (w : world) :
  sends_no_details c w ->
  (forall a w1, c w = (Return a, w1) -> sends_no_details (k a) w1) ->
  sends_no_details (bind c k) w.
Proof.
  unfold sends_no_details, bind. intros Hc Hk.
  destruct (c w) as [[a|e] w1] eqn:E; cbn [snd] in Hc; [|exact Hc].
  eapply no_details_trans; [exact Hc | now apply Hk].
Qed.

Lemma quiet_try {A} (body : M A) (handler : exn -> M A) (w : world) :
  sends_no_details body w ->
  (forall e w1, body w = (Raise e, w1) -> sends_no_details (handler e) w1) ->
  sends_no_details (try_except body handler) w.
Proof.
  unfold sends_no_details, try_except. intros Hb Hh.
  destruct (body w) as [[a|e] w1] eqn:E; cbn [snd] in Hb; [exact Hb|].
  eapply no_details_trans; [exact Hb | now apply Hh].
Qed.

Lemma quiet_request (url : pystr) (params : list (pystr * pyval)) (w : world) :
  url <> place_details_url -> sends_no_details (requests_get_json url params) w.
Proof.
  intros Hurl. unfold sends_no_details, requests_get_json.
  exists [{| req_url := url; req_params := params |}].
  split; [destruct (upstream w); reflexivity|].
  constructor; [exact Hurl | constructor].
Qed.

(** What a call that returns took from the outcomes to come. *)
Lemma request_Return (url : pystr) (params : list (pystr * pyval)) (w w1 : world)
    (answer : pyval) :
  requests_get_json url params w = (Return answer, w1) ->
  upstream w = Return answer :: upstream w1.
Proof.
  unfold requests_get_json.
  destruct (upstream w) as [|[a|e] rest]; intros [= <- <-]; reflexivity.
Qed.

Lemma quiet_get_coordinates (w : world) : sends_no_details (get_coordinates self location) w.
Proof.
  unfold get_coordinates. destruct (negb (truthy location)); [apply quiet_ret|].
  apply quiet_try; [|intros; apply quiet_ret].
  apply quiet_bind; [apply quiet_request; intros H; vm_compute in H; discriminate H|].
  intros answer w1 _.
  apply quiet_bind; [apply quiet_lift|]. intros status w2 _.
  destruct (py_eqb status OK); [|apply quiet_ret].
  repeat (apply quiet_bind; [apply quiet_lift|]; intros ? ? _).
  apply quiet_ret.
Qed.

Lemma quiet_travel_times (lat lng : pyval) (destinations : list pyval) (w : world) :
  sends_no_details (calculate_travel_times rt self lat lng destinations) w.
Proof.
  unfold calculate_travel_times. destruct destinations as [|d0 ds]; [apply quiet_ret|].
  apply quiet_try; [|intros; apply quiet_ret].
  apply quiet_bind; [apply quiet_request; intros H; vm_compute in H; discriminate H|].
  intros answer w1 _.
  apply quiet_bind; [apply quiet_lift|]. intros status w2 _.
  destruct (negb (py_eqb status OK)); [apply quiet_ret|].
  apply quiet_bind; [apply quiet_lift|]. intros has_rows w3 _.
  apply quiet_bind; [destruct has_rows; [apply quiet_lift | apply quiet_ret]|].
  intros rows w4 _.
  destruct (has_rows && truthy rows); [|apply quiet_ret].
  repeat (apply quiet_bind; [apply quiet_lift|]; intros ? ? _).
  apply quiet_lift.
Qed.

Lemma quiet_shortlist (lat lng : pyval) (candidates : list pyval) (w : world) :
  sends_no_details (shortlist rt self max_travel_time lat lng candidates) w.
Proof.
  unfold shortlist.
  apply quiet_bind; [apply quiet_lift|]. intros ids w1 _.
  apply quiet_bind; [apply quiet_travel_times|]. intros. apply quiet_lift.
Qed.

Lemma success_is_no_message (msg : pystr) :
  is_success rt keyword location max_travel_time (failed msg) -> False.
Proof.
  intros (ids & data & E & Hne & _). unfold failed in E.
  injection E as _ E _. now destruct Hne.
Qed.

Lemma success_is_no_failure (out : outcome) :
  is_success rt keyword location max_travel_time out ->
  is_failure rt keyword location max_travel_time out -> False.
Proof.
  intros (ids & data & -> & Hne & _) (msg & [= _ -> _] & _). now destruct Hne.
Qed.

(** The [try] block ends with the prompt, or it has asked nothing of the
    place-details service. *)
Lemma search_is_quiet_or_succeeds (exclude_ids : list pyval) (lat lng : pyval)
    (w w' : world) (r : res outcome) :
  search_and_recommend rt self keyword location max_travel_time min_rating min_reviews
    exclude_ids lat lng w = (r, w') ->
  (exists out, r = Return out /\ is_success rt keyword location max_travel_time out) \/
  no_details_request w w'.
Proof.
  unfold search_and_recommend. intros H.
  assert (Hurl : lit "https://maps.googleapis.com/maps/api/place/textsearch/json"
                 <> place_details_url)
    by (intros E; vm_compute in E; discriminate E).
  apply bind_inv in H as [(e & Hreq & ->) | (answer & w1 & Hreq & H)].
  { right. pose proof (quiet_request (text_search_params rt self keyword lat lng) w Hurl) as Hq.
    unfold sends_no_details in Hq. now rewrite Hreq in Hq. }
  assert (Hq : no_details_request w w1).
  { pose proof (quiet_request (text_search_params rt self keyword lat lng) w Hurl) as Hq.
    unfold sends_no_details in Hq. now rewrite Hreq in Hq. }
  apply bind_inv in H as [(e & Hl & ->) | (status & w2 & Hl & H)];
    apply lift_inv in Hl as [_ ->]; [now right|].
  destruct (negb (py_eqb status OK)); [injection H as <- <-; now right|].
  apply bind_inv in H as [(e & Hl & ->) | (results & w2 & Hl & H)];
    apply lift_inv in Hl as [_ ->]; [now right|].
  apply bind_inv in H as [(e & Hl & ->) | (places & w2 & Hl & H)];
    apply lift_inv in Hl as [_ ->]; [now right|].
  apply bind_inv in H as [(e & Hl & ->) | (candidates & w2 & Hl & H)];
    apply lift_inv in Hl as [_ ->]; [now right|].
  destruct candidates as [|c cs].
  { apply bind_inv in H as [(e & Hl & ->) | (results' & w2 & Hl & H)];
      apply lift_inv in Hl as [_ ->]; [now right|].
    destruct (truthy results' && (0 <? length exclude_ids)%nat);
      injection H as <- <-; now right. }
  unfold recommend in H.
  pose proof (quiet_shortlist lat lng (c :: cs) w1) as Hshort.
  unfold sends_no_details in Hshort.
  apply bind_inv in H as [(e & Hs & ->) | (fl & w2 & Hs & H)]; rewrite Hs in Hshort;
    cbn [snd] in Hshort.
  { right. eapply no_details_trans; eassumption. }
  destruct fl as [|p fl'].
  { injection H as <- <-. right. eapply no_details_trans; eassumption. }
  left. remember (p :: fl') as fl eqn:Hfl.
  destruct (@present_spec rt self keyword location max_travel_time fl w2
              (shortlist_has_ids _ _ _ _ Hs)) as (ids & data & w3 & Hp & Hi & Hd).
  rewrite Hp in H. injection H as <- _. eexists. split; [reflexivity|].
  exists ids, data. split; [reflexivity|].
  assert (Hn : length fl <> 0%nat) by (subst fl; discriminate).
  pose proof (min3_bounds Hn) as Hb.
  split; [|split; lia]. intros ->. cbn [length] in Hi. lia.
Qed.

(** A message comes from a run that asked nothing of the place-details
    service. *)
Lemma message_without_details (exclude_ids : option (list pyval)) (w w' : world)
    (out : outcome) :
  find_food rt self keyword location max_travel_time min_rating min_reviews exclude_ids w
  = (Return out, w') ->
  is_failure rt keyword location max_travel_time out ->
  no_details_request w w'.
Proof.
  unfold find_food. intros H Hfail.
  destruct (GOOGLE_API_KEY self) as [|c key].
  { injection H as _ <-. apply no_details_refl. }
  pose proof (quiet_get_coordinates w) as Hgeo. unfold sends_no_details in Hgeo.
  apply bind_Return in H as (origin & w1 & Hloc & H). rewrite Hloc in Hgeo. cbn [snd] in Hgeo.
  destruct (negb (truthy (fst origin))).
  { injection H as _ <-. exact Hgeo. }
  unfold try_except in H.
  match type of H with
  | context [search_and_recommend ?a1 ?a2 ?a3 ?a4 ?a5 ?a6 ?a7 ?a8 ?a9 ?a10 w1] =>
      destruct (search_and_recommend a1 a2 a3 a4 a5 a6 a7 a8 a9 a10 w1)
        as [r w2] eqn:Hrun
  end.
  apply search_is_quiet_or_succeeds in Hrun as [(out' & -> & Hok) | Hq].
  - injection H as <- _. destruct (success_is_no_failure Hok Hfail).
  - eapply no_details_trans; [exact Hgeo|].
    destruct r as [out'|e]; injection H as _ <-; exact Hq.
Qed.

(** Geocoding gives a latitude that counts as true only from an answer with
    status OK. *)
Lemma located_by_an_answer (w w1 : world) (lat lng : pyval) :
  get_coordinates self location w = (Return (lat, lng), w1) ->
  truthy lat = true ->
  exists answer, upstream w = Return answer :: upstream w1 /\ status_ok answer.
Proof.
  unfold get_coordinates. destruct (negb (truthy location)).
  { intros [= <- _ _]. discriminate. }
  unfold try_except. intros H Hlat.
  match type of H with
  | context [match ?body w with _ => _ end] => destruct (body w) as [[[lat' lng']|e] w2] eqn:Hbody
  end.
  2:{ injection H as <- _ _. discriminate Hlat. }
  injection H as -> -> ->.
  apply bind_Return in Hbody as (answer & w2 & Hreq & Hbody).
  apply bind_Return in Hbody as (status & w3 & Hst & Hbody).
  apply lift_Return in Hst as [Hst ->].
  assert (Hw : w1 = w2).
  { destruct (py_eqb status OK).
    - do 6 (apply bind_Return in Hbody as (? & ? & Hl & Hbody);
            apply lift_Return in Hl as [_ ->]).
      now injection Hbody as _ _ <-.
    - now injection Hbody as _ _ <-. }
  subst w2. exists answer. split; [eapply request_Return; exact Hreq|].
  destruct answer as [| | | | | |d]; try discriminate. cbn [py_item] in Hst.
  destruct (dict_find (lit "status") d) as [status'|] eqn:E; [|discriminate].
  injection Hst as ->. exists d, status. repeat split; [exact E|].
  destruct (py_eqb status OK); [reflexivity|].
  injection Hbody as <- _. discriminate Hlat.
Qed.

(** No place is within the time when there are no travel times. *)
Lemma within_budget_of_nothing (top final_list : list pyval) :
  within_budget [] max_travel_time top = Return final_list -> final_list = [].
Proof.
  revert final_list. induction top as [|p top IH]; intros fl; cbn [within_budget].
  - now intros [= <-].
  - intros H. apply rbind_Return in H as (pid & _ & H).
    apply rbind_Return in H as (known & Hknown & H).
    unfold tdict_contains in Hknown. cbn [tdict_find] in Hknown.
    destruct (hashable pid); [|discriminate]. injection Hknown as <-.
    cbn [rbind] in H. now apply IH.
Qed.

Lemma recommended_by_an_answer (lat lng : pyval) (candidates : list pyval) (w w' : world)
    (out : outcome) :
  recommend rt self keyword location max_travel_time lat lng candidates w = (Return out, w') ->
  is_success rt keyword location max_travel_time out ->
  exists answer rest, upstream w = Return answer :: rest /\ status_ok answer.
Proof.
  unfold recommend. intros H Hok.
  apply bind_Return in H as (fl & w1 & Hshort & H).
  destruct fl as [|p fl'].
  { injection H as <- _. destruct (success_is_no_message Hok). }
  unfold shortlist in Hshort.
  apply bind_Return in Hshort as (ids & w2 & Hids & Hshort).
  apply lift_Return in Hids as [_ ->].
  apply bind_Return in Hshort as (travel_info & w3 & Htimes & Hshort).
  apply lift_Return in Hshort as [Hwithin _].
  destruct travel_info as [|entry more].
  { apply within_budget_of_nothing in Hwithin. discriminate. }
  destruct ids as [|d0 ds]; [discriminate Htimes|].
  destruct (travel_times_run rt self lat lng d0 ds w)
    as [[H1 _] | (answer & rest & elements & td & Hup & Hans & _)].
  - rewrite Htimes in H1. discriminate H1.
  - exists answer, rest. split; [exact Hup|].
    destruct Hans as (d & st & row & rows & -> & Hst & Hst_ok & _). now exists d, st.
Qed.

Lemma searched_by_an_answer (exclude_ids : list pyval) (lat lng : pyval) (w w' : world)
    (out : outcome) :
  search_and_recommend rt self keyword location max_travel_time min_rating min_reviews
    exclude_ids lat lng w = (Return out, w') ->
  is_success rt keyword location max_travel_time out ->
  exists a1 a2 rest,
    upstream w = Return a1 :: Return a2 :: rest /\ status_ok a1 /\ status_ok a2.
Proof.
  unfold search_and_recommend. intros H Hok.
  assert (Hno : forall msg, out = failed msg -> False).
  { intros msg ->. destruct (success_is_no_message Hok). }
  apply bind_Return in H as (answer & w1 & Hreq & H).
  apply request_Return in Hreq.
  apply bind_Return in H as (status & w2 & Hst & H). apply lift_Return in Hst as [Hst ->].
  destruct (py_eqb status OK) eqn:Hstatus; cbn [negb] in H;
    [|injection H as <- _; destruct (Hno _ eq_refl)].
  apply bind_Return in H as (results & w2 & Hl & H). apply lift_Return in Hl as [_ ->].
  apply bind_Return in H as (places & w2 & Hl & H). apply lift_Return in Hl as [_ ->].
  apply bind_Return in H as (candidates & w2 & Hl & H). apply lift_Return in Hl as [_ ->].
  destruct candidates as [|c cs].
  { apply bind_Return in H as (results' & w2 & Hl & H). apply lift_Return in Hl as [_ ->].
    destruct (truthy results' && (0 <? length exclude_ids)%nat);
      injection H as <- _; destruct (Hno _ eq_refl). }
  destruct (@recommended_by_an_answer lat lng (c :: cs) w1 w' out H Hok) as (a2 & rest & Hup2 & Hok2).
  exists answer, a2, rest. rewrite Hreq, Hup2. split; [reflexivity|]. split; [|exact Hok2].
  destruct answer as [| | | | | |d]; try discriminate. cbn [py_get] in Hst.
  injection Hst as Hst.
  destruct (dict_find (lit "status") d) as [status'|] eqn:E.
  - subst status'. now exists d, status.
  - subst status. discriminate Hstatus.
Qed.

(** The prompt comes from three answers with status OK: that of geocoding,
    that of the text search and that of the distance matrix. *)
Lemma prompt_from_three_answers (exclude_ids : option (list pyval)) (w w' : world)
    (out : outcome) :
  find_food rt self keyword location max_travel_time min_rating min_reviews exclude_ids w
  = (Return out, w') ->
  is_success rt keyword location max_travel_time out ->
  GOOGLE_API_KEY self <> [] /\
  exists a0 a1 a2 rest,
    upstream w = Return a0 :: Return a1 :: Return a2 :: rest /\
    status_ok a0 /\ status_ok a1 /\ status_ok a2.
Proof.
  unfold find_food. intros H Hok.
  assert (Hno : forall msg, out = failed msg -> False).
  { intros msg ->. destruct (success_is_no_message Hok). }
  destruct (GOOGLE_API_KEY self) as [|c key]; [injection H as <- _; destruct (Hno _ eq_refl)|].
  split; [discriminate|].
  apply bind_Return in H as ([lat lng] & w1 & Hloc & H). cbn [fst snd] in H.
  destruct (truthy lat) eqn:Hlat; cbn [negb] in H;
    [|injection H as <- _; destruct (Hno _ eq_refl)].
  destruct (@located_by_an_answer w w1 lat lng Hloc Hlat) as (a0 & Hup0 & Hok0).
  unfold try_except in H.
  match type of H with
  | context [search_and_recommend ?a1 ?a2 ?a3 ?a4 ?a5 ?a6 ?a7 ?a8 ?a9 ?a10 w1] =>
      destruct (search_and_recommend a1 a2 a3 a4 a5 a6 a7 a8 a9 a10 w1)
        as [[out'|e] w2] eqn:Hrun
  end; [|injection H as <- _; destruct (Hno _ eq_refl)].
  injection H as -> ->.
  destruct (@searched_by_an_answer _ lat lng w1 w' out Hrun Hok) as (a1 & a2 & rest & Hup1 & Hok1 & Hok2).
  exists a0, a1, a2, rest. rewrite Hup0, Hup1. auto.
Qed.

(** C1: whatever the arguments and whatever the upstream calls do (answers of
    any shape, transport failures, non-OK statuses, no answer at all),
    [find_food] returns a triple and raises nothing: either a message with an
    empty id list and an empty restaurant list, or a prompt with the ids and
    the restaurants it presents.  A missing key, and a failure of any of the
    first three calls (geocoding, the text search, the distance matrix),
    gives a message with empty lists.  A message comes only from a run that
    asked nothing of the place-details service: a failure of a place-details
    call is never turned into a message. *)
Theorem find_food_never_raises (exclude_ids : option (list pyval)) (w : world) :
  exists out w',
    find_food rt self keyword location max_travel_time min_rating min_reviews exclude_ids w
      = (Return out, w') /\
    (is_failure rt keyword location max_travel_time out \/
     is_success rt keyword location max_travel_time out) /\
    (GOOGLE_API_KEY self = [] \/ early_failure w ->
     is_failure rt keyword location max_travel_time out) /\
    (is_failure rt keyword location max_travel_time out -> no_details_request w w').
Proof.
  assert (Hrun : exists out w',
    find_food rt self keyword location max_travel_time min_rating min_reviews exclude_ids w
      = (Return out, w') /\
    (is_failure rt keyword location max_travel_time out \/
     is_success rt keyword location max_travel_time out)).
  { unfold find_food.
    destruct (GOOGLE_API_KEY self) as [|c key].
    { do 2 eexists. split; [reflexivity|]. left. eexists. split; [reflexivity|]. tauto. }
    destruct (get_coordinates_total self location w) as (lat & lng & w1 & Hloc).
    erewrite bind_step by exact Hloc. cbn [fst snd].
    destruct (negb (truthy lat)).
    { do 2 eexists. split; [reflexivity|]. left. eexists. split; [reflexivity|]. tauto. }
    unfold try_except.
    match goal with
    | |- context [search_and_recommend ?a1 ?a2 ?a3 ?a4 ?a5 ?a6 ?a7 ?a8 ?a9 ?a10 w1] =>
        destruct (search_and_recommend a1 a2 a3 a4 a5 a6 a7 a8 a9 a10 w1)
          as [[out|e] w2] eqn:Hrun
    end.
    - do 2 eexists. split; [reflexivity|]. eapply search_and_recommend_shape; eassumption.
    - do 2 eexists. split; [reflexivity|]. left. eexists. split; [reflexivity|].
      do 6 right. eauto. }
  destruct Hrun as (out & w' & Hrun & Hshape).
  exists out, w'. split; [exact Hrun|]. split; [exact Hshape|]. split.
  - intros Hearly. destruct Hshape as [Hfail | Hok]; [exact Hfail|]. exfalso.
    destruct (@prompt_from_three_answers exclude_ids w w' out Hrun Hok)
      as (Hkey & a0 & a1 & a2 & rest & Hup & Hok0 & Hok1 & Hok2).
    destruct Hearly as [Hnone | (k & Hk & Hfails)]; [now destruct Hkey|].
    rewrite Hup in Hfails.
    destruct k as [|[|[|k]]]; cbn [nth_error call_fails] in Hfails; [| | |lia];
      now destruct Hfails.
  - intros Hfail. eapply message_without_details; eassumption.
Qed.

(** The [try] block once the text search has answered. *)
Lemma search_and_recommend_searched (exclude_ids : list pyval) (lat lng : pyval)
    (w1 w2 : world) (raw candidates : list pyval) :
  searched rt self keyword lat lng w1 raw w2 ->
  rfilter (is_candidate min_rating min_reviews exclude_ids) raw = Return candidates ->
  search_and_recommend rt self keyword location max_travel_time min_rating min_reviews
    exclude_ids lat lng w1
  = match candidates with
    | [] =>
        (Return (failed (if match raw with [] => false | _ :: _ => true end
                            && (0 <? length exclude_ids)%nat
                         then msg_already_seen rt keyword
                         else msg_no_match)), w2)
    | _ :: _ =>
        recommend rt self keyword location max_travel_time lat lng candidates w2
    end.
Proof.
  intros (answer & Hreq & d & status & -> & Hst & Hok & Hres) Hfilter.
  unfold search_and_recommend. unfold text_search_url in Hreq.
  erewrite bind_step by exact Hreq.
  unfold bind, lift, ret. cbn [py_get]. rewrite Hst, Hok. cbn [negb].
  destruct Hres as [Hres | [Hres ->]]; rewrite Hres; cbn [py_iter]; rewrite Hfilter;
    destruct candidates; try reflexivity.
  destruct raw; cbn [truthy andb]; [reflexivity|].
  destruct (0 <? length exclude_ids)%nat; reflexivity.
Qed.

(** Nothing passes a filter that answers [True] for no element. *)
Lemma rfilter_none {A} (f : A -> res bool) (l l' : list A) :
  rfilter f l = Return l' -> Forall (fun a => f a <> Return true) l -> l' = [].
Proof.
  intros H Hall. revert l' H.
  induction Hall as [|a l Ha _ IH]; intros l'; cbn [rfilter].
  - now intros [= <-].
  - intros H. apply rbind_Return in H as (b & Hb & H).
    apply rbind_Return in H as (rest & Hrest & H).
    injection H as <-. destruct b; [congruence|]. now apply IH.
Qed.

Lemma excluded_is_no_candidate (exclude_ids : list pyval) (p : pyval) :
  excluded exclude_ids p ->
  is_candidate min_rating min_reviews exclude_ids p <> Return true.
Proof.
  intros (d & -> & Hin) H. unfold is_candidate in H.
  apply rbind_Return in H as (rating & _ & H).
  apply rbind_Return in H as (good & _ & H).
  destruct good; [|discriminate].
  apply rbind_Return in H as (total & _ & H).
  apply rbind_Return in H as (enough & _ & H).
  destruct enough; [|discriminate].
  apply rbind_Return in H as (pid & Hpid & H).
  cbn [py_get] in Hpid. injection Hpid as <-. rewrite Hin in H. discriminate.
Qed.

(** C2: when the filter on rating, reviews and exclusion leaves no candidate,
    [find_food] answers "already seen" exactly when the raw search had results
    and the exclude list is not empty, whatever it was that filtered the
    results out, and "no match" otherwise; in particular it answers "already
    seen" when the exclude list covers every raw result. *)
Theorem already_seen_or_no_match (exclude_ids : list pyval) (lat lng : pyval)
    (w w1 w2 : world) (raw candidates : list pyval) :
  GOOGLE_API_KEY self <> [] ->
  located self location w lat lng w1 ->
  searched rt self keyword lat lng w1 raw w2 ->
  rfilter (is_candidate min_rating min_reviews exclude_ids) raw = Return candidates ->
  (candidates = [] ->
   find_food rt self keyword location max_travel_time min_rating min_reviews
     (Some exclude_ids) w
   = (Return (failed (if match raw with [] => false | _ :: _ => true end
                         && (0 <? length exclude_ids)%nat
                      then msg_already_seen rt keyword
                      else msg_no_match)), w2)) /\
  (raw <> [] -> Forall (excluded exclude_ids) raw ->
   find_food rt self keyword location max_travel_time min_rating min_reviews
     (Some exclude_ids) w
   = (Return (failed (msg_already_seen rt keyword)), w2)).
Proof.
  intros Hkey Hloc Hsearch Hfilter.
  assert (Hrun : candidates = [] ->
    find_food rt self keyword location max_travel_time min_rating min_reviews
      (Some exclude_ids) w
    = (Return (failed (if match raw with [] => false | _ :: _ => true end
                          && (0 <? length exclude_ids)%nat
                       then msg_already_seen rt keyword
                       else msg_no_match)), w2)).
  { intros ->. erewrite find_food_located by eassumption.
    unfold try_except. erewrite search_and_recommend_searched by eassumption.
    reflexivity. }
  split; [exact Hrun|].
  intros Hraw Hall.
  assert (Hnone : candidates = []).
  { eapply rfilter_none; [exact Hfilter|].
    eapply Forall_impl; [|exact Hall]. intros p. apply excluded_is_no_candidate. }
  rewrite (Hrun Hnone).
  destruct raw as [|p raw']; [congruence|].
  inversion Hall as [|? ? (d & _ & Hin) _]; subst.
  destruct exclude_ids; [discriminate|]. reflexivity.
Qed.

(** Geocoding that answers gives the coordinates of the answer. *)
Lemma get_coordinates_answered (answer lat lng : pyval) (rest : list (res pyval)) (w : world) :
  truthy location = true ->
  upstream w = Return answer :: rest ->
  geocode_answer answer lat lng ->
  fst (get_coordinates self location w) = Return (lat, lng).
Proof.
  intros Htruthy Hup (d & st & first & more & geo & loc & -> & Hst & Hok & Hres & Hgeo & Hloc
                      & Hlat & Hlng).
  unfold get_coordinates. rewrite Htruthy. cbn [negb].
  unfold try_except, bind, requests_get_json, lift, ret. rewrite Hup.
  cbn [py_item]. rewrite Hst, Hok, Hres. cbn [py_index nth_error py_item].
  rewrite Hgeo. cbn [py_item]. rewrite Hloc. cbn [py_item]. rewrite Hlat, Hlng.
  reflexivity.
Qed.

(** Geocoding that fails gives [(None, None)]. *)
Lemma get_coordinates_failed (w : world) :
  (upstream w = [] \/ exists e rest, upstream w = Raise e :: rest) ->
  fst (get_coordinates self location w) = Return (PNone, PNone).
Proof.
  intros H. unfold get_coordinates. destruct (negb (truthy location)); [reflexivity|].
  unfold try_except, bind, requests_get_json, lift, ret.
  destruct H as [-> | (e & rest & ->)]; reflexivity.
Qed.

Lemma find_food_not_located (exclude_ids : option (list pyval)) (w : world) (lat lng : pyval) :
  GOOGLE_API_KEY self <> [] ->
  fst (get_coordinates self location w) = Return (lat, lng) ->
  truthy lat = false ->
  fst (find_food rt self keyword location max_travel_time min_rating min_reviews
         exclude_ids w)
  = Return (failed (msg_cannot_find rt location)).
Proof.
  intros Hkey Hloc Hlat. unfold find_food.
  destruct (GOOGLE_API_KEY self) as [|c key]; [congruence|].
  unfold bind. destruct (get_coordinates self location w) as [[[lat' lng']|e] w1];
    cbn [fst] in Hloc; [|discriminate].
  injection Hloc as -> ->. cbn [fst snd]. now rewrite Hlat.
Qed.

(** C10: when geocoding succeeds with a latitude of exactly zero (the integer
    or the float), [find_food] returns the "cannot find location" message with
    empty id and restaurant lists, the very result of a failed geocoding call:
    the test is on the falsiness of the latitude. *)
Theorem zero_latitude_is_not_found (exclude_ids : option (list pyval))
    (answer lat lng : pyval) (rest : list (res pyval)) (w : world) :
  GOOGLE_API_KEY self <> [] ->
  truthy location = true ->
  upstream w = Return answer :: rest ->
  geocode_answer answer lat lng ->
  lat = PInt 0 \/ lat = PFloat (FFin 0) ->
  fst (find_food rt self keyword location max_travel_time min_rating min_reviews
         exclude_ids w)
  = Return (failed (msg_cannot_find rt location)) /\
  forall w',
    (upstream w' = [] \/ exists e rest', upstream w' = Raise e :: rest') ->
    fst (find_food rt self keyword location max_travel_time min_rating min_reviews
           exclude_ids w')
    = fst (find_food rt self keyword location max_travel_time min_rating min_reviews
             exclude_ids w).
Proof.
  intros Hkey Htruthy Hup Hans Hzero.
  assert (Hfound :
    fst (find_food rt self keyword location max_travel_time min_rating min_reviews
           exclude_ids w)
    = Return (failed (msg_cannot_find rt location))).
  { eapply find_food_not_located; [exact Hkey | |].
    - eapply get_coordinates_answered; eassumption.
    - destruct Hzero as [-> | ->]; reflexivity. }
  split; [exact Hfound|].
  intros w' Hfail. rewrite Hfound.
  apply (@find_food_not_located exclude_ids w' PNone PNone Hkey);
    [now apply get_coordinates_failed | reflexivity].
Qed.

(** C5: when the travel-time filter leaves a non-empty [final_list],
    [find_food] returns exactly [min 3 (length final_list)] ids and as many
    restaurants. *)
Theorem sample_size (exclude_ids : list pyval) (lat lng : pyval)
    (w w1 w2 w3 : world) (raw candidates final_list : list pyval) :
  GOOGLE_API_KEY self <> [] ->
  located self location w lat lng w1 ->
  searched rt self keyword lat lng w1 raw w2 ->
  rfilter (is_candidate min_rating min_reviews exclude_ids) raw = Return candidates ->
  shortlist rt self max_travel_time lat lng candidates w2 = (Return final_list, w3) ->
  final_list <> [] ->
  exists ids data w',
    find_food rt self keyword location max_travel_time min_rating min_reviews
      (Some exclude_ids) w
    = (Return (prompt_of rt keyword location max_travel_time data, ids, data), w') /\
    length ids = Nat.min 3 (length final_list) /\
    length data = Nat.min 3 (length final_list).
Proof.
  intros Hkey Hloc Hsearch Hfilter Hshort Hne.
  erewrite find_food_located by eassumption. unfold try_except.
  erewrite search_and_recommend_searched by eassumption.
  destruct candidates as [|c cs].
  { rewrite shortlist_nil in Hshort. injection Hshort as <- _. congruence. }
  unfold recommend. erewrite bind_step by exact Hshort.
  destruct (@present_spec rt self keyword location max_travel_time final_list w3
              (shortlist_has_ids _ _ _ _ Hshort)) as (ids & data & w' & Hp & Hi & Hd).
  destruct final_list as [|p fl]; [congruence|].
  rewrite Hp. exists ids, data, w'. auto.
Qed.

End FindFood.

(** ** Runs of [find_food] on the sample worlds *)

Section Runs.

Import Sample.

(** C1 as stated fails where it says that every failure becomes a message
    with empty lists: the fourth call, for the details of place A, times out,
    and [find_food] still returns its prompt, with the identifier of A and
    the restaurant, whose details are the default ones. *)
Lemma failed_details_give_no_message :
  exists prompt entry w',
    find_food rt tools noodles tainan default_max_travel_time default_min_rating
      default_min_reviews None details_unreachable
    = (Return (prompt, [PStr (lit "A")], [entry]), w') /\
    nth_error (upstream details_unreachable) 3
    = Some (Raise (RequestsError (lit "timed out"))) /\
    py_get entry (lit "details_data") PNone = Return (PDict empty_details).
Proof.
  remember (find_food rt tools noodles tainan default_max_travel_time default_min_rating
              default_min_reviews None details_unreachable) as run eqn:E.
  vm_compute in E. subst run.
  do 3 eexists. split; [reflexivity|]. split; reflexivity.
Qed.

(** C2 as stated fails: the only raw result is filtered out by its rating,
    it is not in the exclude list, and the answer is still "already seen"
    because the exclude list is not empty. *)
Lemma already_seen_without_exclusion :
  fst (find_food rt tools noodles tainan default_max_travel_time default_min_rating
         default_min_reviews (Some [PStr (lit "B")]) one_poor)
  = Return (failed (msg_already_seen rt noodles)) /\
  py_in (PStr (lit "A")) [PStr (lit "B")] = false.
Proof. split; vm_compute; reflexivity. Qed.

(** Both raw results are in the exclude list. *)
Lemma already_seen_or_no_match_witness :
  exists w2,
    find_food rt tools noodles tainan default_max_travel_time default_min_rating
      default_min_reviews (Some [PStr (lit "A"); PStr (lit "B")]) two_nearby
    = (Return (failed (msg_already_seen rt noodles)), w2).
Proof.
  eexists.
  refine (proj2 (@already_seen_or_no_match rt tools noodles tainan default_max_travel_time
                   default_min_rating default_min_reviews
                   [PStr (lit "A"); PStr (lit "B")] (PInt 23) (PInt 120)
                   two_nearby _ _
                   [place "A" "Noodle A" (PInt 4) 10; place "B" "Noodle B" (PInt 5) 3]
                   [] _ _ _ _) _ _).
  - discriminate.
  - split; [lazy; reflexivity | reflexivity].
  - eexists. split; [lazy; reflexivity|]. do 2 eexists. split; [reflexivity|].
    split; [reflexivity|]. split; [reflexivity|]. left. reflexivity.
  - lazy; reflexivity.
  - discriminate.
  - repeat constructor; eexists; split; reflexivity.
Defined.

(** The latitude of the answer is 0. *)
Lemma zero_latitude_is_not_found_witness :
  fst (find_food rt tools noodles tainan default_max_travel_time default_min_rating
         default_min_reviews None on_the_equator)
  = Return (failed (msg_cannot_find rt tainan)).
Proof.
  refine (proj1 (@zero_latitude_is_not_found rt tools noodles tainan default_max_travel_time
                   default_min_rating default_min_reviews None
                   (geocoded (PInt 0) (PInt 120)) (PInt 0) (PInt 120)
                   [Return (found [place "A" "Noodle A" (PInt 4) 10])]
                   on_the_equator _ _ _ _ _)).
  - discriminate.
  - reflexivity.
  - reflexivity.
  - do 6 eexists. repeat split; reflexivity.
  - left. reflexivity.
Defined.

(** Two eligible places: exactly two are returned. *)
Lemma sample_size_witness :
  exists ids data w',
    find_food rt tools noodles tainan default_max_travel_time default_min_rating
      default_min_reviews (Some []) two_nearby
    = (Return (prompt_of rt noodles tainan default_max_travel_time data, ids, data), w') /\
    length ids = 2%nat /\ length data = 2%nat.
Proof.
  edestruct (@sample_size rt tools noodles tainan default_max_travel_time
               default_min_rating default_min_reviews [] (PInt 23) (PInt 120)
               two_nearby)
    as (ids & data & w' & Hrun & Hids & Hdata).
  - discriminate.
  - split; [lazy; reflexivity | reflexivity].
  - eexists. split; [lazy; reflexivity|]. do 2 eexists. split; [reflexivity|].
    split; [reflexivity|]. split; [reflexivity|]. left. reflexivity.
  - lazy; reflexivity.
  - lazy; reflexivity.
  - discriminate.
  - exists ids, data, w'. split; [exact Hrun|]. split; [exact Hids | exact Hdata].
Defined.

End Runs.


(** ** The dedup set of [eat] *)

Section Dedup.

Lemma dict_find_set_same (k : pystr) (v : pyval) (d : list (pystr * pyval)) :
  dict_find k (dict_set k v d) = Some v.
Proof.
  induction d as [|[k0 v0] d IH]; cbn [dict_set dict_find].
  - now rewrite pystr_eqb_refl.
  - destruct (pystr_eqb k k0) eqn:E; cbn [dict_find]; now rewrite E.
Qed.


Lemma field_set_other (k k' : pystr) (v : pyval) (d : list (pystr * pyval)) :
  k <> k' -> field k (dict_set k' v d) = field k d.
Proof. intros H. unfold field. now rewrite dict_find_set_other. Qed.

(** [current_exclude_ids] for a context that is a non-empty dict. *)
Lemma current_exclude_ids_eq (analysis context : list (pystr * pyval)) :
  truthy (PDict context) = true ->
  Bot.current_exclude_ids (PDict analysis) (PDict context)
  = Return (if same_request analysis context
            then match dict_find (lit "seen_ids") context with
                 | Some ids => ids
                 | None => PList []
                 end
            else PList []).
Proof.
  intros Ht. unfold Bot.current_exclude_ids, same_request, field. rewrite Ht.
  cbn [py_get rbind].
  destruct (py_eqb _ _); [|reflexivity]. cbn [andb].
  destruct (py_eqb _ _); reflexivity.
Qed.



End Dedup.

(** ** The saved lists *)

Section SavedLists.

Import Bot.

Variable rt : runtime.

Lemma lists_find_set_same (user_id : pystr) (l : list SavedEntry)
    (lists : list (pystr * list SavedEntry)) :
  lists_find user_id (lists_set user_id l lists) = Some l.
Proof.
  induction lists as [|[u l0] lists IH]; cbn [lists_set lists_find].
  - now rewrite pystr_eqb_refl.
  - destruct (pystr_eqb user_id u) eqn:E; cbn [lists_find]; now rewrite E.
Qed.

Lemma lists_find_set_other (user_id other : pystr) (l : list SavedEntry)
    (lists : list (pystr * list SavedEntry)) :
  other <> user_id ->
  lists_find other (lists_set user_id l lists) = lists_find other lists.
Proof.
  intros Hne. induction lists as [|[u l0] lists IH]; cbn [lists_set lists_find].
  - apply pystr_eqb_neq in Hne. now rewrite Hne.
  - destruct (pystr_eqb user_id u) eqn:E; cbn [lists_find].
    + apply pystr_eqb_eq in E. subst u. apply pystr_eqb_neq in Hne. now rewrite Hne.
    + now rewrite IH.
Qed.

Lemma lists_set_Forall (P : list SavedEntry -> Prop) (user_id : pystr) (l : list SavedEntry)
    (lists : list (pystr * list SavedEntry)) :
  P l -> Forall (fun ul => P (snd ul)) lists ->
  Forall (fun ul => P (snd ul)) (lists_set user_id l lists).
Proof.
  intros Hl Hall. induction Hall as [|[u l0] lists H0 Htail IH]; cbn [lists_set].
  - constructor; [exact Hl | constructor].
  - destruct (pystr_eqb user_id u); constructor; cbn in *; auto.
Qed.

Lemma lists_get_Forall (P : list SavedEntry -> Prop) (user_id : pystr)
    (lists : list (pystr * list SavedEntry)) :
  P [] -> Forall (fun ul => P (snd ul)) lists -> P (lists_get user_id lists).
Proof.
  intros Hnil Hall. unfold lists_get.
  induction Hall as [|[u l0] lists H0 _ IH]; cbn [lists_find]; [exact Hnil|].
  destruct (pystr_eqb user_id u); auto.
Qed.

(** [l.remove(x)] takes one element out and keeps the others in order. *)
Lemma list_remove_split (x : SavedEntry) (l l' : list SavedEntry) :
  list_remove x l = Return l' ->
  exists pre y post,
    l = pre ++ y :: post /\ l' = pre ++ post /\ entry_eqb y x = true /\
    Forall (fun z => entry_eqb z x = false) pre.
Proof.
  revert l'. induction l as [|y l IH]; intros l'; cbn [list_remove]; [discriminate|].
  destruct (entry_eqb y x) eqn:E.
  - intros [= <-]. exists [], y, l. auto.
  - intros H. apply rbind_Return in H as (rest & Hrest & [= <-]).
    destruct (IH rest Hrest) as (pre & y' & post & -> & -> & Hy & Hpre).
    exists (y :: pre), y', post. auto.
Qed.

Lemma NoDup_map_remove {A B} (f : A -> B) (pre post : list A) (y : A) :
  NoDup (map f (pre ++ y :: post)) -> NoDup (map f (pre ++ post)).
Proof.
  rewrite !map_app. cbn [map]. apply NoDup_remove_1.
Qed.

Lemma existsb_name_false (restaurant : SavedEntry) (mine : list SavedEntry) :
  existsb (fun saved => pystr_eqb (name saved) (name restaurant)) mine = false ->
  ~ In (name restaurant) (map name mine).
Proof.
  intros H Hin. apply in_map_iff in Hin as (saved & Hname & Hin).
  assert (Ht : existsb (fun saved => pystr_eqb (name saved) (name restaurant)) mine = true).
  { apply existsb_exists. exists saved. split; [exact Hin|]. now apply pystr_eqb_eq. }
  congruence.
Qed.

Lemma NoDup_map_snoc (mine : list SavedEntry) (e : SavedEntry) :
  NoDup (map name mine) -> ~ In (name e) (map name mine) ->
  NoDup (map name (mine ++ [e])).
Proof.
  intros Hnd Hnotin. rewrite map_app. cbn [map].
  apply NoDup_app; [exact Hnd | repeat constructor; auto |].
  intros x Hx [<- | []]. contradiction.
Qed.

(** [save_data] leaves the lists as they are. *)
Lemma save_data_lists (st : state) :
  user_saved_lists (snd (save_data rt st)) = user_saved_lists st.
Proof. unfold save_data. now destruct (utf8_encodable _). Qed.

Lemma callback_keeps_names_unique (user_id : pystr) (restaurant : SavedEntry) (st : state) :
  names_unique (user_saved_lists st) ->
  names_unique (user_saved_lists (snd (callback rt user_id restaurant st))).
Proof.
  intros Hu. unfold callback, bind, modify, gets, ret. cbn [user_saved_lists DATA_FILE].
  set (lists1 := match lists_find user_id (user_saved_lists st) with
                 | None => lists_set user_id [] (user_saved_lists st)
                 | Some _ => user_saved_lists st
                 end).
  assert (Hu1 : names_unique lists1).
  { subst lists1. destruct (lists_find user_id (user_saved_lists st)); [exact Hu|].
    apply (lists_set_Forall (fun l => NoDup (map name l))); [constructor | exact Hu]. }
  destruct (existsb _ (lists_get user_id lists1)) eqn:E; [exact Hu1|].
  match goal with
  | |- context [save_data rt ?s] =>
      pose proof (save_data_lists s) as Hs; destruct (save_data rt s) as [[[]|e] st']
  end; cbn [snd user_saved_lists] in Hs |- *; rewrite Hs;
    (apply (lists_set_Forall (fun l => NoDup (map name l))); [|exact Hu1]);
    (apply NoDup_map_snoc;
     [apply (lists_get_Forall (fun l => NoDup (map name l))); [constructor | exact Hu1]
     | now apply (existsb_name_false restaurant)]).
Qed.

Lemma delete_keeps_names_unique (user_id query : pystr) (st : state) :
  names_unique (user_saved_lists st) ->
  names_unique (user_saved_lists (snd (delete_saved rt user_id query st))).
Proof.
  intros Hu. unfold delete_saved, bind, modify, gets, ret, lift.
  pose proof (lists_get_Forall (fun l => NoDup (map name l)) user_id
                (NoDup_nil _) Hu) as Hmine.
  destruct (lists_get user_id (user_saved_lists st)) as [|e0 saved0] eqn:Eget; [exact Hu|].
  destruct (find _ (e0 :: saved0)) as [to_remove|]; [|exact Hu].
  destruct (list_remove to_remove (e0 :: saved0)) as [saved'|e] eqn:Erem; [|exact Hu].
  apply list_remove_split in Erem as (pre & y & post & Hsplit & -> & _ & _).
  rewrite Hsplit in Hmine.
  match goal with
  | |- context [save_data rt ?s] =>
      pose proof (save_data_lists s) as Hs; destruct (save_data rt s) as [[[]|e] st']
  end; cbn [snd user_saved_lists] in Hs |- *; rewrite Hs;
    (apply (lists_set_Forall (fun l => NoDup (map name l))); [|exact Hu]);
    eapply NoDup_map_remove; exact Hmine.
Qed.

Lemma perform_all_keeps_names_unique (actions : list action) (st : state) :
  names_unique (user_saved_lists st) ->
  names_unique (user_saved_lists (perform_all rt actions st)).
Proof.
  unfold perform_all. revert st.
  induction actions as [|a actions IH]; intros st Hu; cbn [fold_left]; [exact Hu|].
  apply IH. destruct a as [user_id restaurant | user_id query]; cbn [perform].
  - now apply callback_keeps_names_unique.
  - now apply delete_keeps_names_unique.
Qed.

(** C6: adding a restaurant whose name is already in the user's list answers
    "already in list" and changes neither the lists nor the file; and after
    any sequence of additions and removals no two entries of a user share a
    name. *)
Theorem add_is_idempotent_on_name (actions : list action) (st : state)
    (user_id : pystr) (restaurant : SavedEntry) :
  names_unique (user_saved_lists st) ->
  names_unique (user_saved_lists (perform_all rt actions st)) /\
  (name_saved user_id restaurant (user_saved_lists st) ->
   callback rt user_id restaurant st = (Return (AlreadyInList (name restaurant)), st)).
Proof.
  intros Hu. split; [now apply perform_all_keeps_names_unique|].
  intros (saved & Hin & Hname).
  unfold callback, bind, modify, gets, ret. cbn [user_saved_lists DATA_FILE].
  unfold lists_get in Hin.
  destruct (lists_find user_id (user_saved_lists st)) as [mine|] eqn:Efind; [|destruct Hin].
  unfold lists_get. rewrite Efind.
  assert (Ht : existsb (fun saved => pystr_eqb (name saved) (name restaurant)) mine = true).
  { apply existsb_exists. exists saved. split; [exact Hin|]. now apply pystr_eqb_eq. }
  rewrite Ht. now destruct st.
Qed.

Lemma entry_eqb_refl (e : SavedEntry) : entry_eqb e e = true.
Proof. unfold entry_eqb. now rewrite !pystr_eqb_refl. Qed.

Lemma entry_eqb_name (x e : SavedEntry) : entry_eqb x e = true -> name x = name e.
Proof.
  unfold entry_eqb. intros H.
  apply andb_true_iff in H as [H _]. apply andb_true_iff in H as [H _].
  now apply pystr_eqb_eq.
Qed.

Lemma find_first {A} (f : A -> bool) (pre post : list A) (e : A) :
  Forall (fun x => f x = false) pre -> f e = true ->
  find f (pre ++ e :: post) = Some e.
Proof.
  intros Hpre He. induction Hpre as [|x pre Hx _ IH]; cbn [app find].
  - now rewrite He.
  - now rewrite Hx.
Qed.

Lemma find_none {A} (f : A -> bool) (l : list A) :
  Forall (fun x => f x = false) l -> find f l = None.
Proof.
  induction 1 as [|x l Hx _ IH]; cbn [find]; [reflexivity|]. now rewrite Hx.
Qed.

Lemma list_remove_first (query : pystr) (pre post : list SavedEntry) (e : SavedEntry) :
  Forall (fun x => str_contains query (name x) = false) pre ->
  str_contains query (name e) = true ->
  list_remove e (pre ++ e :: post) = Return (pre ++ post).
Proof.
  intros Hpre He. induction Hpre as [|x pre Hx _ IH]; cbn [app list_remove].
  - now rewrite entry_eqb_refl.
  - destruct (entry_eqb x e) eqn:E.
    + apply entry_eqb_name in E. congruence.
    + now rewrite IH.
Qed.

Lemma lists_get_set_same (user_id : pystr) (l : list SavedEntry)
    (lists : list (pystr * list SavedEntry)) :
  lists_get user_id (lists_set user_id l lists) = l.
Proof. unfold lists_get. now rewrite lists_find_set_same. Qed.

(** C7: [delete_saved] removes the first entry, in insertion order, whose
    name contains the query, leaves the other entries and the other users'
    lists as they were, and reports "no such restaurant" (or "list is empty")
    without touching anything when no name contains it. *)
Theorem delete_removes_first_match (st : state) (user_id query : pystr) :
  (forall pre e post,
      lists_get user_id (user_saved_lists st) = pre ++ e :: post ->
      Forall (fun x => str_contains query (name x) = false) pre ->
      str_contains query (name e) = true ->
      lists_get user_id (user_saved_lists (snd (delete_saved rt user_id query st)))
        = pre ++ post /\
      (forall other, other <> user_id ->
         lists_find other (user_saved_lists (snd (delete_saved rt user_id query st)))
         = lists_find other (user_saved_lists st)) /\
      (fst (delete_saved rt user_id query st) = Return (RemovedFromList (name e)) \/
       fst (delete_saved rt user_id query st) = Raise UnicodeEncodeError)) /\
  (Forall (fun x => str_contains query (name x) = false)
          (lists_get user_id (user_saved_lists st)) ->
   delete_saved rt user_id query st
   = (Return (not_found query (lists_get user_id (user_saved_lists st))), st)).
Proof.
  split.
  - intros pre e post Hget Hpre He.
    unfold delete_saved, bind, gets, modify, lift, ret. rewrite Hget.
    destruct (pre ++ e :: post) as [|e0 l0] eqn:Eq; [destruct pre; discriminate|].
    rewrite <- Eq.
    rewrite (@find_first _ (fun item => str_contains query (name item)) pre post e Hpre He).
    rewrite (@list_remove_first query pre post e Hpre He).
    match goal with
    | |- context [save_data rt ?s] =>
        pose proof (save_data_lists s) as Hs;
        assert (Hfst : fst (save_data rt s) = Return tt \/
                       fst (save_data rt s) = Raise UnicodeEncodeError)
          by (unfold save_data; destruct (utf8_encodable _); auto);
        destruct (save_data rt s) as [[[]|err] st']
    end; cbn [fst snd user_saved_lists] in *; rewrite Hs.
    + split; [apply lists_get_set_same|]. split; [|now left].
      intros other Hne. now apply lists_find_set_other.
    + split; [apply lists_get_set_same|]. split.
      * intros other Hne. now apply lists_find_set_other.
      * right. destruct Hfst as [Hf | Hf]; [discriminate | now injection Hf as ->].
  - intros Hnone. unfold delete_saved, bind, gets, modify, lift, ret.
    destruct (lists_get user_id (user_saved_lists st)) as [|e0 l0]; [reflexivity|].
    now rewrite (@find_none _ (fun item => str_contains query (name item)) _ Hnone).
Qed.

End SavedLists.

(** The example of the specification: deleting "beef" from the beef soup shop
    and the noodle shop leaves the noodle shop. *)
Lemma delete_removes_first_match_witness :
  Bot.lists_get (lit "42")
    (Bot.user_saved_lists (snd (Bot.delete_saved Sample.rt (lit "42") Sample.beef Sample.two_saved)))
  = [Sample.du_hsiao_yueh].
Proof.
  apply (proj1 (@delete_removes_first_match Sample.rt Sample.two_saved (lit "42") Sample.beef)
           [] Sample.beef_soup_shop [Sample.du_hsiao_yueh]).
  - reflexivity.
  - constructor.
  - reflexivity.
Defined.

(** The beef soup shop is saved already: saving it again changes nothing,
    and whatever the user does next the names stay distinct. *)
Lemma add_is_idempotent_on_name_witness :
  names_unique
    (Bot.user_saved_lists
       (Bot.perform_all Sample.rt
          [Bot.Save (lit "42") Sample.beef_soup_shop;
           Bot.Delete (lit "42") Sample.beef;
           Bot.Save (lit "42") Sample.beef_soup_shop;
           Bot.Save (lit "7") Sample.du_hsiao_yueh]
          Sample.two_saved)) /\
  Bot.callback Sample.rt (lit "42") Sample.beef_soup_shop Sample.two_saved
  = (Return (Bot.AlreadyInList (Bot.name Sample.beef_soup_shop)), Sample.two_saved).
Proof.
  destruct (@add_is_idempotent_on_name Sample.rt
              [Bot.Save (lit "42") Sample.beef_soup_shop;
               Bot.Delete (lit "42") Sample.beef;
               Bot.Save (lit "42") Sample.beef_soup_shop;
               Bot.Save (lit "7") Sample.du_hsiao_yueh]
              Sample.two_saved (lit "42") Sample.beef_soup_shop) as [Hunique Hsame].
  - repeat constructor; cbn; intuition discriminate.
  - split; [exact Hunique|]. apply Hsame.
    exists Sample.beef_soup_shop. split; [left|]; reflexivity.
Defined.

(** ** JSON: what [json.load] reads back from what [json.dump] wrote *)

Section JsonStrings.

Import Json.

Lemma skip_ws_indent (level : nat) (s : pystr) :
  skip_ws (newline_indent level ++ s) = skip_ws s.
Proof.
  unfold newline_indent. cbn [app skip_ws is_ws].
  change ((10 =? 32) || (10 =? 9) || (10 =? 10) || (10 =? 13))%N with true. cbv iota.
  induction (2 * level)%nat as [|n IH]; [reflexivity|]. cbn [repeat app skip_ws]. exact IH.
Qed.

Lemma skip_ws_head (c : N) (s : pystr) : is_ws c = false -> skip_ws (c :: s) = c :: s.
Proof. intros H. cbn [skip_ws]. now rewrite H. Qed.

(** The escape of a control character reads back as the character. *)
Lemma scan_control (c : N) (r : pystr) :
  (c < 32)%N -> scan_string (escape_char c ++ r) = push c (scan_string r).
Proof.
  intros Hc.
  assert (H : (c = 0 \/ c = 1 \/ c = 2 \/ c = 3 \/ c = 4 \/ c = 5 \/ c = 6 \/ c = 7 \/
               c = 8 \/ c = 9 \/ c = 10 \/ c = 11 \/ c = 12 \/ c = 13 \/ c = 14 \/ c = 15 \/
               c = 16 \/ c = 17 \/ c = 18 \/ c = 19 \/ c = 20 \/ c = 21 \/ c = 22 \/
               c = 23 \/ c = 24 \/ c = 25 \/ c = 26 \/ c = 27 \/ c = 28 \/ c = 29 \/
               c = 30 \/ c = 31)%N) by lia.
  repeat (destruct H as [-> | H]; [reflexivity|]). subst c. reflexivity.
Qed.

Lemma scan_escaped (c : N) (r : pystr) :
  scan_string (escape_char c ++ r) = push c (scan_string r).
Proof.
  destruct (N.ltb_spec c 32) as [Hlt | Hge]; [now apply scan_control|].
  destruct (N.eq_dec c 34) as [-> | H34]; [reflexivity|].
  destruct (N.eq_dec c 92) as [-> | H92]; [reflexivity|].
  unfold escape_char.
  repeat match goal with
         | |- context [(c =? ?k)%N] =>
             destruct (N.eqb_spec c k) as [E|_]; [subst c; try lia; try congruence|]
         end.
  destruct (N.ltb_spec c 32) as [Hlt | _]; [lia|].
  cbn [app scan_string].
  destruct (N.eqb_spec c 34) as [E|_]; [congruence|].
  destruct (N.eqb_spec c 92) as [E|_]; [congruence|].
  destruct (N.ltb_spec c 32) as [Hlt | _]; [lia|]. reflexivity.
Qed.

(** A string reads back from its text, whatever follows the closing quote. *)
Lemma scan_encoded_string (s r : pystr) :
  scan_string (flat_map escape_char s ++ 34%N :: r) = Some (s, r).
Proof.
  induction s as [|c s IH]; [reflexivity|].
  cbn [flat_map]. rewrite <- app_assoc, scan_escaped, IH. reflexivity.
Qed.

Lemma encode_string_eq (s : pystr) :
  encode_string s = 34%N :: flat_map escape_char s ++ [34%N].
Proof. reflexivity. Qed.

End JsonStrings.

Section JsonValues.

Import Json.

Variable rt : runtime.

(** Induction on values, with the hypothesis for every element of a list and
    every value of a dict. *)
Lemma pyval_nested_ind (P : pyval -> Prop) :
  P PNone ->
  (forall b, P (PBool b)) ->
  (forall z, P (PInt z)) ->
  (forall f, P (PFloat f)) ->
  (forall s, P (PStr s)) ->
  (forall l, Forall P l -> P (PList l)) ->
  (forall d, Forall (fun kx => P (snd kx)) d -> P (PDict d)) ->
  forall v, P v.
Proof.
  intros HNone HBool HInt HFloat HStr HList HDict.
  fix IH 1. intros [ | b | z | f | s | l | d].
  - exact HNone.
  - apply HBool.
  - apply HInt.
  - apply HFloat.
  - apply HStr.
  - apply HList. induction l as [|x l IHl]; constructor; [apply IH | exact IHl].
  - apply HDict. induction d as [|[k x] d IHd]; constructor; [apply IH | exact IHd].
Qed.

Lemma encode_list_cons (level : nat) (x : pyval) (xs : list pyval) :
  encode rt level (PList (x :: xs))
  = 91%N :: newline_indent (S level) ++ encode rt (S level) x ++
    encode_items rt (S level) xs ++ newline_indent level ++ [93%N].
Proof. reflexivity. Qed.

Lemma encode_dict_cons (level : nat) (k : pystr) (x : pyval) (kvs : list (pystr * pyval)) :
  encode rt level (PDict ((k, x) :: kvs))
  = 123%N :: newline_indent (S level) ++ encode_string k ++ [58%N; 32%N] ++
    encode rt (S level) x ++ encode_members rt (S level) kvs ++
    newline_indent level ++ [125%N].
Proof. reflexivity. Qed.

Lemma json_plain_list (l : list pyval) : json_plain (PList l) <-> Forall json_plain l.
Proof.
  cbn [json_plain]. induction l as [|x l IH]; split; auto.
  - intros [Hx Hl]. constructor; [exact Hx | now apply IH].
  - intros H. inversion H; subst. split; [assumption | now apply IH].
Qed.

Lemma json_plain_dict (d : list (pystr * pyval)) :
  json_plain (PDict d) <-> NoDup (map fst d) /\ Forall (fun kx => json_plain (snd kx)) d.
Proof.
  cbn [json_plain].
  assert (H : (fix all (d : list (pystr * pyval)) : Prop :=
                 match d with
                 | [] => True
                 | kx :: d' => json_plain (snd kx) /\ all d'
                 end) d <-> Forall (fun kx => json_plain (snd kx)) d).
  { induction d as [|kx d IH]; split; auto.
    - intros [Hx Hd]. constructor; [exact Hx | now apply IH].
    - intros H. inversion H; subst. split; [assumption | now apply IH]. }
  now rewrite H.
Qed.

Lemma parse_depth_list (l : list pyval) : parse_depth (PList l) = S (depth_elements l).
Proof. reflexivity. Qed.

Lemma parse_depth_dict (d : list (pystr * pyval)) :
  parse_depth (PDict d) = S (depth_members d).
Proof. reflexivity. Qed.

(** The text of a plain value starts with a character that tells its kind. *)
Lemma encode_head (level : nat) (v : pyval) :
  json_plain v ->
  exists c s,
    encode rt level v = c :: s /\
    (c = 110 \/ c = 116 \/ c = 102 \/ c = 34 \/ c = 91 \/ c = 123)%N.
Proof.
  assert (Hpick : forall c : N,
             In c [110; 116; 102; 34; 91; 123]%N ->
             (c = 110 \/ c = 116 \/ c = 102 \/ c = 34 \/ c = 91 \/ c = 123)%N).
  { intros c Hc. cbn [In] in Hc. intuition auto. }
  destruct v as [ | [|] | z | f | s | [|x xs] | [|[k x] kvs]]; cbn [json_plain];
    try contradiction; intros _;
    (do 2 eexists; split; [reflexivity|]; apply Hpick; cbn [In]; auto 10).
Qed.

Lemma skip_ws_encode (level : nat) (v : pyval) (r : pystr) :
  json_plain v -> skip_ws (encode rt level v ++ r) = encode rt level v ++ r.
Proof.
  intros Hv. destruct (encode_head level v Hv) as (c & s & -> & Hc).
  cbn [app]. apply skip_ws_head.
  repeat (destruct Hc as [-> | Hc]; [reflexivity|]). subst c. reflexivity.
Qed.

Lemma depth_elements_cons (x : pyval) (xs : list pyval) :
  depth_elements (x :: xs) = S (Nat.max (parse_depth x) (depth_elements xs)).
Proof. reflexivity. Qed.

Lemma depth_members_cons (kx : pystr * pyval) (kvs : list (pystr * pyval)) :
  depth_members (kx :: kvs) = S (Nat.max (parse_depth (snd kx)) (depth_members kvs)).
Proof. reflexivity. Qed.

(** The elements of a list read back, up to the closing bracket. *)
Lemma parse_elements_spec (level close : nat) (rest : pystr) (xs : list pyval) :
  forall (x : pyval) (fuel : nat),
    json_plain x -> reads_back rt x ->
    Forall json_plain xs -> Forall (reads_back rt) xs ->
    (depth_elements (x :: xs) <= fuel)%nat ->
    parse_elements rt fuel
      (encode rt level x ++ encode_items rt level xs ++ newline_indent close ++ 93%N :: rest)
    = Some (x :: xs, rest).
Proof.
  induction xs as [|y ys IH]; intros x fuel Hx Rx Hxs Rxs Hfuel;
    rewrite depth_elements_cons in Hfuel;
    (destruct fuel as [|fuel]; [lia|]);
    cbn [parse_elements];
    rewrite (Rx level _ fuel) by lia.
  - cbn [encode_items flat_map app]. rewrite skip_ws_indent.
    rewrite skip_ws_head by reflexivity. reflexivity.
  - inversion Hxs as [|? ? Hy Hys]; subst. inversion Rxs as [|? ? Ry Rys]; subst.
    unfold encode_items. cbn [flat_map]. fold (encode_items rt level ys).
    change (lit ",") with [44%N]. rewrite <- !app_assoc. cbn [app].
    rewrite skip_ws_head by reflexivity.
    change (44 =? 93)%N with false. change (44 =? 44)%N with true. cbv iota.
    rewrite skip_ws_indent, skip_ws_encode by exact Hy.
    rewrite (IH y fuel Hy Ry Hys Rys) by lia. reflexivity.
Qed.

(** The members of a dict read back, up to the closing brace; the text starts
    after the opening quote of the first key. *)
Lemma parse_members_spec (level close : nat) (rest : pystr) (kvs : list (pystr * pyval)) :
  forall (k : pystr) (x : pyval) (fuel : nat),
    json_plain x -> reads_back rt x ->
    Forall (fun kx => json_plain (snd kx)) kvs ->
    Forall (fun kx => reads_back rt (snd kx)) kvs ->
    (depth_members ((k, x) :: kvs) <= fuel)%nat ->
    parse_members rt fuel
      (flat_map escape_char k ++ 34%N :: 58%N :: 32%N :: encode rt level x ++
       encode_members rt level kvs ++ newline_indent close ++ 125%N :: rest)
    = Some ((k, x) :: kvs, rest).
Proof.
  induction kvs as [|[k' y] kvs IH]; intros k x fuel Hx Rx Hkvs Rkvs Hfuel;
    rewrite depth_members_cons in Hfuel; cbn [snd] in Hfuel;
    (destruct fuel as [|fuel]; [lia|]);
    cbn [parse_members];
    rewrite scan_encoded_string;
    rewrite skip_ws_head by reflexivity;
    change (58 =? 58)%N with true; cbv iota;
    change (skip_ws (32%N :: ?s)) with (skip_ws s);
    rewrite skip_ws_encode by exact Hx;
    rewrite (Rx level _ fuel) by lia.
  - cbn [encode_members flat_map app]. rewrite skip_ws_indent.
    rewrite skip_ws_head by reflexivity. reflexivity.
  - inversion Hkvs as [|? ? Hy Hys]; subst. inversion Rkvs as [|? ? Ry Rys]; subst.
    cbn [snd] in Hy, Ry.
    unfold encode_members. cbn [flat_map fst snd]. fold (encode_members rt level kvs).
    change (lit ",") with [44%N]. change (lit ": ") with [58%N; 32%N].
    rewrite encode_string_eq. rewrite <- !app_assoc. cbn [app]. rewrite <- !app_assoc.
    cbn [app].
    rewrite skip_ws_head by reflexivity.
    change (44 =? 125)%N with false. change (44 =? 44)%N with true. cbv iota.
    rewrite skip_ws_indent. rewrite skip_ws_head by reflexivity.
    change (34 =? 34)%N with true. cbv iota.
    rewrite (IH k' y fuel Hy Ry Hys Rys) by (cbn [snd]; lia). reflexivity.
Qed.

(** [dict(pairs)] of pairs with distinct keys is the list of the pairs. *)
Lemma dict_set_fresh (k : pystr) (v : pyval) (d : list (pystr * pyval)) :
  ~ In k (map fst d) -> dict_set k v d = d ++ [(k, v)].
Proof.
  induction d as [|[k0 v0] d IH]; cbn [dict_set map fst In app]; [reflexivity|].
  intros Hnotin.
  destruct (pystr_eqb k k0) eqn:E.
  - apply pystr_eqb_eq in E. subst k0. tauto.
  - rewrite IH by tauto. reflexivity.
Qed.

Lemma dict_of_pairs_distinct (pairs : list (pystr * pyval)) :
  NoDup (map fst pairs) -> dict_of_pairs pairs = pairs.
Proof.
  unfold dict_of_pairs.
  assert (H : forall acc,
             NoDup (map fst (acc ++ pairs)) ->
             fold_left (fun d kv => dict_set (fst kv) (snd kv) d) pairs acc = acc ++ pairs).
  { induction pairs as [|[k v] pairs IH]; intros acc Hnd; cbn [fold_left fst snd].
    - now rewrite app_nil_r.
    - rewrite dict_set_fresh.
      + rewrite IH; rewrite <- app_assoc; [reflexivity | exact Hnd].
      + rewrite map_app in Hnd. cbn [map fst] in Hnd.
        apply NoDup_remove_2 in Hnd. intros Hin. apply Hnd.
        apply in_or_app. now left. }
  intros Hnd. apply (H []). exact Hnd.
Qed.

(** Every plain value reads back from its text. *)
Lemma reads_back_plain (v : pyval) : json_plain v -> reads_back rt v.
Proof.
  induction v as [ | b | z | f | s | l IHl | d IHd] using pyval_nested_ind;
    intros Hv level rest fuel Hfuel.
  - destruct fuel as [|fuel]; [cbn in Hfuel; lia|]. reflexivity.
  - destruct fuel as [|fuel]; [cbn in Hfuel; lia|]. destruct b; reflexivity.
  - destruct Hv.
  - destruct Hv.
  - destruct fuel as [|fuel]; [cbn in Hfuel; lia|].
    cbn [encode]. rewrite encode_string_eq. cbn [app parse_value].
    change (34 =? 34)%N with true. cbv iota.
    rewrite <- app_assoc. cbn [app]. now rewrite scan_encoded_string.
  - rewrite parse_depth_list in Hfuel. apply json_plain_list in Hv.
    destruct fuel as [|fuel]; [lia|].
    destruct l as [|x xs]; [reflexivity|].
    inversion Hv as [|? ? Hx Hxs]; subst. inversion IHl as [|? ? Rx Rxs]; subst.
    rewrite encode_list_cons. cbn [app parse_value].
    change (91 =? 34)%N with false. change (91 =? 123)%N with false.
    change (91 =? 91)%N with true. cbv iota.
    rewrite <- !app_assoc. rewrite skip_ws_indent.
    destruct (encode_head (S level) x Hx) as (c & s & Henc & Hc).
    rewrite skip_ws_encode by exact Hx. rewrite Henc at 1. cbn [app].
    assert (Hc93 : (c =? 93)%N = false).
    { repeat (destruct Hc as [-> | Hc]; [reflexivity|]). subst c. reflexivity. }
    rewrite Hc93. change (c :: s ++ ?r) with ((c :: s) ++ r). rewrite <- Henc.
    cbn [app].
    rewrite (@parse_elements_spec (S level) level rest xs x fuel Hx (Rx Hx) Hxs);
      [reflexivity | | lia].
    clear - Rxs Hxs. induction Rxs as [|y ys Ry _ IH]; constructor.
    + apply Ry. now inversion Hxs.
    + apply IH. now inversion Hxs.
  - rewrite parse_depth_dict in Hfuel. apply json_plain_dict in Hv as [Hnd Hv].
    destruct fuel as [|fuel]; [lia|].
    destruct d as [|[k x] kvs]; [reflexivity|].
    inversion Hv as [|? ? Hx Hxs]; subst. inversion IHd as [|? ? Rx Rxs]; subst.
    cbn [snd] in Hx, Rx.
    rewrite encode_dict_cons. cbn [app parse_value].
    change (123 =? 34)%N with false. change (123 =? 123)%N with true. cbv iota.
    rewrite <- !app_assoc. rewrite skip_ws_indent.
    rewrite encode_string_eq. cbn [app]. rewrite <- !app_assoc. cbn [app].
    rewrite skip_ws_head by reflexivity.
    change (34 =? 125)%N with false. change (34 =? 34)%N with true. cbv iota.
    rewrite (@parse_members_spec (S level) level rest kvs k x fuel Hx (Rx Hx) Hxs);
      [now rewrite dict_of_pairs_distinct | | lia].
    clear - Rxs Hxs. induction Rxs as [|y ys Ry _ IH]; constructor.
    + apply Ry. now inversion Hxs.
    + apply IH. now inversion Hxs.
Qed.

End JsonValues.

Section RoundTrip.

Import Json.

Variable rt : runtime.

Lemma depth_le_length (v : pyval) :
  json_plain v -> forall level, (parse_depth v <= length (encode rt level v))%nat.
Proof.
  induction v as [ | b | z | f | s | l IHl | d IHd] using pyval_nested_ind;
    intros Hv level.
  - cbn. lia.
  - destruct b; cbn; lia.
  - destruct Hv.
  - destruct Hv.
  - cbn [parse_depth encode]. rewrite encode_string_eq. cbn [length]. lia.
  - rewrite parse_depth_list. apply json_plain_list in Hv.
    destruct l as [|x xs]; [cbn; lia|].
    inversion Hv as [|? ? Hx Hxs]; subst. inversion IHl as [|? ? Rx Rxs]; subst.
    rewrite encode_list_cons, depth_elements_cons. cbn [length].
    rewrite !length_app. cbn [length]. specialize (Rx Hx (S level)).
    assert (Hitems : (depth_elements xs <= length (encode_items rt (S level) xs))%nat).
    { clear - Rxs Hxs. induction Rxs as [|y ys Ry _ IH]; [cbn; lia|].
      inversion Hxs as [|? ? Hy Hys]; subst.
      rewrite depth_elements_cons. unfold encode_items. cbn [flat_map].
      fold (encode_items rt (S level) ys). change (lit ",") with [44%N].
      rewrite !length_app. cbn [length].
      specialize (Ry Hy (S level)). specialize (IH Hys). lia. }
    lia.
  - rewrite parse_depth_dict. apply json_plain_dict in Hv as [_ Hv].
    destruct d as [|[k x] kvs]; [cbn; lia|].
    inversion Hv as [|? ? Hx Hxs]; subst. inversion IHd as [|? ? Rx Rxs]; subst.
    cbn [snd] in Hx, Rx.
    rewrite encode_dict_cons, depth_members_cons. cbn [length snd].
    rewrite !length_app. cbn [length]. specialize (Rx Hx (S level)).
    assert (Hitems : (depth_members kvs <= length (encode_members rt (S level) kvs))%nat).
    { clear - Rxs Hxs. induction Rxs as [|y ys Ry _ IH]; [cbn; lia|].
      inversion Hxs as [|? ? Hy Hys]; subst.
      rewrite depth_members_cons. unfold encode_members. cbn [flat_map].
      fold (encode_members rt (S level) ys). change (lit ",") with [44%N].
      rewrite !length_app. cbn [length].
      specialize (Ry Hy (S level)). specialize (IH Hys). lia. }
    lia.
Qed.

(** [json.loads(json.dumps(v, ensure_ascii=False, indent=2)) == v]. *)
Lemma loads_dumps (v : pyval) : json_plain v -> loads rt (dumps rt v) = Some v.
Proof.
  intros Hv. unfold loads, dumps.
  destruct (encode_head rt 0 v Hv) as (c & s & Henc & Hc).
  assert (Hbom : is_prefix [65279%N] (encode rt 0 v) = false).
  { rewrite Henc. cbn [is_prefix].
    repeat (destruct Hc as [-> | Hc]; [reflexivity|]). subst c. reflexivity. }
  rewrite Hbom.
  rewrite <- (app_nil_r (encode rt 0 v)) at 2.
  rewrite skip_ws_encode by exact Hv.
  rewrite (@reads_back_plain rt v Hv).
  - reflexivity.
  - pose proof (@depth_le_length v Hv 0). lia.
Qed.

(** *** The text that [save_data] writes can be encoded *)

Lemma encodable_app (a b : pystr) :
  Bot.utf8_encodable (a ++ b) = Bot.utf8_encodable a && Bot.utf8_encodable b.
Proof. apply forallb_app. Qed.

Lemma encodable_indent (level : nat) : Bot.utf8_encodable (newline_indent level) = true.
Proof.
  unfold newline_indent. cbn [Bot.utf8_encodable forallb].
  change ((10 <? 55296) || (57343 <? 10) && (10 <? 1114112))%N with true. cbn [andb].
  induction (2 * level)%nat as [|n IH]; [reflexivity|]. cbn [repeat forallb]. exact IH.
Qed.

Lemma encodable_escape (c : N) :
  Bot.utf8_encodable [c] = true -> Bot.utf8_encodable (escape_char c) = true.
Proof.
  intros Hc. destruct (N.ltb_spec c 32) as [Hlt | Hge].
  - assert (H : (c = 0 \/ c = 1 \/ c = 2 \/ c = 3 \/ c = 4 \/ c = 5 \/ c = 6 \/ c = 7 \/
                 c = 8 \/ c = 9 \/ c = 10 \/ c = 11 \/ c = 12 \/ c = 13 \/ c = 14 \/
                 c = 15 \/ c = 16 \/ c = 17 \/ c = 18 \/ c = 19 \/ c = 20 \/ c = 21 \/
                 c = 22 \/ c = 23 \/ c = 24 \/ c = 25 \/ c = 26 \/ c = 27 \/ c = 28 \/
                 c = 29 \/ c = 30 \/ c = 31)%N) by lia.
    repeat (destruct H as [-> | H]; [reflexivity|]). subst c. reflexivity.
  - destruct (N.eq_dec c 34) as [-> | H34]; [reflexivity|].
    destruct (N.eq_dec c 92) as [-> | H92]; [reflexivity|].
    unfold escape_char.
    repeat match goal with
           | |- context [(c =? ?k)%N] =>
               destruct (N.eqb_spec c k) as [E|_]; [subst c; try lia; try congruence|]
           end.
    destruct (N.ltb_spec c 32) as [Hlt | _]; [lia | exact Hc].
Qed.

Lemma encodable_string (s : pystr) :
  Bot.utf8_encodable s = true -> Bot.utf8_encodable (encode_string s) = true.
Proof.
  intros Hs. rewrite encode_string_eq.
  change (34%N :: flat_map escape_char s ++ [34%N])
    with ([34%N] ++ flat_map escape_char s ++ [34%N]).
  rewrite !encodable_app. change (Bot.utf8_encodable [34%N]) with true.
  rewrite andb_true_r. cbn [andb].
  induction s as [|c s IH]; [reflexivity|].
  cbn [flat_map]. rewrite encodable_app.
  change (c :: s) with ([c] ++ s) in Hs. rewrite encodable_app in Hs.
  apply andb_true_iff in Hs as [Hc Hs].
  now rewrite (encodable_escape c Hc), IH.
Qed.

Lemma encodable_value_list (l : list pyval) :
  encodable_value (PList l) <-> Forall encodable_value l.
Proof.
  cbn [encodable_value]. induction l as [|x l IH]; split; auto.
  - intros [Hx Hl]. constructor; [exact Hx | now apply IH].
  - intros H. inversion H; subst. split; [assumption | now apply IH].
Qed.

Lemma encodable_value_dict (d : list (pystr * pyval)) :
  encodable_value (PDict d)
  <-> Forall (fun kx => Bot.utf8_encodable (fst kx) = true /\ encodable_value (snd kx)) d.
Proof.
  cbn [encodable_value]. induction d as [|kx d IH]; split; auto.
  - intros [Hx Hd]. constructor; [exact Hx | now apply IH].
  - intros H. inversion H; subst. split; [assumption | now apply IH].
Qed.

Lemma encodable_text (v : pyval) :
  json_plain v -> encodable_value v ->
  forall level, Bot.utf8_encodable (encode rt level v) = true.
Proof.
  induction v as [ | b | z | f | s | l IHl | d IHd] using pyval_nested_ind;
    intros Hv He level.
  - reflexivity.
  - destruct b; reflexivity.
  - destruct Hv.
  - destruct Hv.
  - now apply encodable_string.
  - apply json_plain_list in Hv. apply encodable_value_list in He.
    destruct l as [|x xs]; [reflexivity|].
    inversion Hv as [|? ? Hx Hxs]; subst. inversion He as [|? ? Ex Exs]; subst.
    inversion IHl as [|? ? Rx Rxs]; subst.
    rewrite encode_list_cons.
    change (91%N :: ?t) with ([91%N] ++ t).
    rewrite !encodable_app, encodable_indent, encodable_indent, (Rx Hx Ex).
    change (Bot.utf8_encodable [91%N]) with true.
    change (Bot.utf8_encodable [93%N]) with true. cbn [andb]. rewrite andb_true_r.
    clear - Rxs Hxs Exs. induction Rxs as [|y ys Ry _ IH]; [reflexivity|].
    inversion Hxs; subst. inversion Exs; subst.
    unfold encode_items. cbn [flat_map]. fold (encode_items rt (S level) ys).
    change (lit ",") with [44%N].
    rewrite !encodable_app, encodable_indent, Ry, IH by assumption. reflexivity.
  - apply json_plain_dict in Hv as [_ Hv]. apply encodable_value_dict in He.
    destruct d as [|[k x] kvs]; [reflexivity|].
    inversion Hv as [|? ? Hx Hxs]; subst. inversion He as [|? ? [Ek Ex] Exs]; subst.
    inversion IHd as [|? ? Rx Rxs]; subst. cbn [fst snd] in *.
    rewrite encode_dict_cons.
    change (123%N :: ?t) with ([123%N] ++ t).
    rewrite !encodable_app, encodable_indent, encodable_indent, (Rx Hx Ex),
      (encodable_string k Ek).
    change (Bot.utf8_encodable [123%N]) with true.
    change (Bot.utf8_encodable [125%N]) with true.
    change (Bot.utf8_encodable [58%N; 32%N]) with true. cbn [andb]. rewrite andb_true_r.
    clear - Rxs Hxs Exs. induction Rxs as [|y ys Ry _ IH]; [reflexivity|].
    inversion Hxs; subst. inversion Exs as [|? ? [Ek Ey] Eys]; subst.
    unfold encode_members. cbn [flat_map]. fold (encode_members rt (S level) ys).
    change (lit ",") with [44%N]. change (lit ": ") with [58%N; 32%N].
    rewrite !encodable_app, encodable_indent, (encodable_string _ Ek), Ry, IH by assumption.
    reflexivity.
Qed.

End RoundTrip.

(** ** [save_data] then [load_data] *)

Section Persistence.

Variable rt : runtime.

Lemma entry_value_plain (e : Bot.SavedEntry) : json_plain (Bot.entry_value e).
Proof.
  unfold Bot.entry_value. cbn [json_plain map fst snd]. split; [|tauto].
  repeat constructor; cbn [In]; intuition discriminate.
Qed.

Lemma lists_value_plain (lists : list (pystr * list Bot.SavedEntry)) :
  NoDup (map fst lists) -> json_plain (Bot.lists_value lists).
Proof.
  intros Hnd. unfold Bot.lists_value. apply json_plain_dict. split.
  - rewrite map_map. cbn [fst]. exact Hnd.
  - apply Forall_map. apply Forall_forall. intros [u l] _. cbn [snd].
    apply json_plain_list. apply Forall_map. apply Forall_forall. intros e _.
    apply entry_value_plain.
Qed.

Lemma lists_value_encodable (lists : list (pystr * list Bot.SavedEntry)) :
  lists_encodable lists -> encodable_value (Bot.lists_value lists).
Proof.
  intros Hall. unfold Bot.lists_value. apply encodable_value_dict.
  apply Forall_map. eapply Forall_impl; [|exact Hall].
  intros [u l] [Hu Hl]. cbn [fst snd] in *. split; [exact Hu|].
  apply encodable_value_list. apply Forall_map. eapply Forall_impl; [|exact Hl].
  intros e (Hn & Hm & Hr). unfold Bot.entry_value. cbn [encodable_value fst snd].
  change (Bot.utf8_encodable (lit "name")) with true.
  change (Bot.utf8_encodable (lit "map_link")) with true.
  change (Bot.utf8_encodable (lit "rating")) with true.
  tauto.
Qed.

(** C8: for every mapping from user identifiers to entry lists whose strings
    can be written as UTF-8 (no unpaired surrogate code point), [save_data]
    succeeds and [load_data] on the file it wrote gives back the same mapping,
    the users and the entries of each user in their order. *)
Theorem saved_lists_round_trip (st : Bot.state) :
  NoDup (map fst (Bot.user_saved_lists st)) ->
  lists_encodable (Bot.user_saved_lists st) ->
  fst (Bot.save_data rt st) = Return tt /\
  Bot.load_data rt (Bot.DATA_FILE (snd (Bot.save_data rt st)))
  = Bot.lists_value (Bot.user_saved_lists st).
Proof.
  intros Hnd Henc.
  pose proof (@lists_value_plain _ Hnd) as Hplain.
  pose proof (@encodable_text rt _ Hplain (@lists_value_encodable _ Henc) 0) as Htext.
  unfold Bot.save_data. fold (Json.dumps rt (Bot.lists_value (Bot.user_saved_lists st))) in Htext.
  rewrite Htext. cbn [fst snd Bot.DATA_FILE Bot.load_data].
  now rewrite (@loads_dumps rt _ Hplain).
Qed.

End Persistence.

(** The two saved restaurants of user 42 come back as they were. *)
Lemma saved_lists_round_trip_witness :
  fst (Bot.save_data Sample.rt Sample.two_saved) = Return tt /\
  Bot.load_data Sample.rt (Bot.DATA_FILE (snd (Bot.save_data Sample.rt Sample.two_saved)))
  = Bot.lists_value [(lit "42", [Sample.beef_soup_shop; Sample.du_hsiao_yueh])].
Proof.
  apply (@saved_lists_round_trip Sample.rt Sample.two_saved).
  - repeat constructor. intros [].
  - repeat constructor.
Defined.

(** A list with a name that cannot be written as UTF-8 is not persisted: the
    write raises, and what is reloaded is the empty mapping. *)
Lemma unpaired_surrogate_is_not_reloaded :
  fst (Bot.save_data Sample.rt Sample.one_unpaired) = Raise UnicodeEncodeError /\
  Bot.load_data Sample.rt (Bot.DATA_FILE (snd (Bot.save_data Sample.rt Sample.one_unpaired)))
  <> Bot.lists_value (Bot.user_saved_lists Sample.one_unpaired).
Proof.
  split; [reflexivity|]. cbv. discriminate.
Qed.

(** ** The helpers of the tool: what they answer when things go wrong *)

Section HelpersEdge.

Variable rt : runtime.
Variable self : Tools.

(** X1: [get_coordinates] raises nothing.  It answers [(None, None)] without
    any call when the location is empty, and [(None, None)] when the call
    fails or brings anything but an object with status OK. *)
Theorem get_coordinates_never_raises (location : pyval) (w : world) :
  exists lat lng w',
    get_coordinates self location w = (Return (lat, lng), w') /\
    (truthy location = false -> lat = PNone /\ lng = PNone /\ w' = w) /\
    (no_ok_answer w -> lat = PNone /\ lng = PNone).
Proof.
  destruct (get_coordinates_total self location w) as (lat & lng & w' & Hrun).
  exists lat, lng, w'. split; [exact Hrun|]. split.
  - intros Hempty. unfold get_coordinates in Hrun. rewrite Hempty in Hrun.
    cbn [negb] in Hrun. now injection Hrun as <- <- <-.
  - intros Hno. unfold get_coordinates in Hrun.
    destruct (negb (truthy location)); [now injection Hrun as <- <- _|].
    unfold try_except, bind, requests_get_json, lift, ret in Hrun.
    destruct (upstream w) as [|[answer|e] rest] eqn:Hup;
      [now injection Hrun as <- <- _ | | now injection Hrun as <- <- _].
    destruct answer as [| | | | | |d]; cbn [py_item] in Hrun;
      try now injection Hrun as <- <- _.
    destruct (dict_find (lit "status") d) as [status|] eqn:Hst;
      [|now injection Hrun as <- <- _].
    destruct (py_eqb status OK) eqn:Hok; [|now injection Hrun as <- <- _].
    exfalso. apply (Hno (PDict d) rest Hup). now exists d, status.
Qed.

Lemma math_ceil_int (x v : pyval) : math_ceil x = Return v -> exists z, v = PInt z.
Proof.
  destruct x as [|b|z|[|s|q]|s|l|d]; cbn [math_ceil]; try discriminate;
    intros [= <-]; eauto.
Qed.

Lemma tdict_put_entries (destinations : list pyval) (k v : pyval) (td : list (pyval * pyval)) :
  travel_entry_of destinations (k, v) ->
  Forall (travel_entry_of destinations) td ->
  Forall (travel_entry_of destinations) (tdict_put k v td).
Proof.
  intros Hkv Htd. induction Htd as [|[k' v'] td Hk' Htd IH]; cbn [tdict_put].
  - now constructor.
  - destruct (py_eqb k k').
    + constructor; [|assumption]. split; [exact (proj1 Hk') | exact (proj2 Hkv)].
    + now constructor.
Qed.

Lemma travel_loop_entries (destinations : list pyval) (elements : list pyval) :
  forall (i : nat) (td td' : list (pyval * pyval)),
    Forall (travel_entry_of destinations) td ->
    travel_loop destinations i elements td = Return td' ->
    Forall (travel_entry_of destinations) td'.
Proof.
  induction elements as [|element rest IH]; intros i td td' Htd; cbn [travel_loop].
  - now intros [= <-].
  - intros H. apply rbind_Return in H as (status & _ & H).
    destruct (py_eqb status OK); [|now apply (IH (S i) td)].
    apply rbind_Return in H as (duration & _ & H).
    apply rbind_Return in H as (text & _ & H).
    apply rbind_Return in H as (minutes & Hmin & H).
    apply rbind_Return in H as (dest & Hdest & H).
    apply rbind_Return in H as (td1 & Hput & H).
    apply (IH (S i) td1); [|exact H].
    unfold tdict_setitem in Hput. destruct (hashable dest); [|discriminate].
    injection Hput as <-. apply tdict_put_entries; [|exact Htd].
    split.
    + cbn [fst]. destruct (nth_error destinations i) as [d0|] eqn:Hnth; [|discriminate].
      injection Hdest as <-. eapply nth_error_In; eassumption.
    + unfold minutes_of in Hmin.
      apply rbind_Return in Hmin as (? & _ & Hmin).
      apply rbind_Return in Hmin as (? & _ & Hmin).
      apply rbind_Return in Hmin as (? & _ & Hmin).
      apply math_ceil_int in Hmin as (z & ->). cbn [snd]. eauto.
Qed.

(** X2: [calculate_travel_times] raises nothing.  Every key of the mapping it
    returns is one of the destinations, every value a text with a whole number
    of minutes; the mapping is empty, with no call made, for no destination,
    and empty when the call fails or brings anything but status OK. *)
Theorem travel_times_are_for_destinations (lat lng : pyval) (destinations : list pyval)
    (w : world) :
  exists td w',
    calculate_travel_times rt self lat lng destinations w = (Return td, w') /\
    Forall (travel_entry_of destinations) td /\
    (destinations = [] -> td = [] /\ w' = w) /\
    (no_ok_answer w -> td = []).
Proof.
  destruct (calculate_travel_times_total rt self lat lng destinations w) as (td & w' & Hrun).
  exists td, w'. split; [exact Hrun|].
  unfold calculate_travel_times in Hrun.
  destruct destinations as [|d0 ds].
  { injection Hrun as <- <-. repeat split; auto. }
  remember (d0 :: ds) as destinations eqn:Hd.
  assert (Hcases : td = [] \/
            exists answer rest elements,
              upstream w = Return answer :: rest /\ status_ok answer /\
              travel_loop destinations 0 elements [] = Return td).
  { unfold try_except, bind, requests_get_json, lift, ret in Hrun.
    destruct (upstream w) as [|[answer|e] rest] eqn:Hup;
      [left; now injection Hrun as <- _ | | left; now injection Hrun as <- _].
    destruct answer as [| | | | | |d]; cbn [py_item] in Hrun;
      try (left; now injection Hrun as <- _).
    destruct (dict_find (lit "status") d) as [status|] eqn:Hst;
      [|left; now injection Hrun as <- _].
    destruct (py_eqb status OK) eqn:Hok; cbn [negb] in Hrun;
      [|left; now injection Hrun as <- _].
    cbn [py_contains] in Hrun.
    destruct (dict_find (lit "rows") d) as [rows|] eqn:Hrows;
      [|left; now injection Hrun as <- _].
    cbn [andb] in Hrun.
    destruct (truthy rows); [|left; now injection Hrun as <- _].
    destruct (py_index rows 0) as [row|e]; [|left; now injection Hrun as <- _].
    destruct (py_item row (lit "elements")) as [els|e]; [|left; now injection Hrun as <- _].
    destruct (py_iter els) as [elements|e]; [|left; now injection Hrun as <- _].
    destruct (travel_loop destinations 0 elements []) as [td'|e] eqn:Hloop;
      [|left; now injection Hrun as <- _].
    injection Hrun as <- _. right. exists (PDict d), rest, elements.
    split; [reflexivity|]. split; [now exists d, status | exact Hloop]. }
  split; [|split].
  - destruct Hcases as [-> | (answer & rest & elements & _ & _ & Hloop)]; [constructor|].
    eapply travel_loop_entries; [|exact Hloop]. constructor.
  - subst destinations. discriminate.
  - intros Hno. destruct Hcases as [-> | (answer & rest & elements & Hup & Hok & _)];
      [reflexivity|]. destruct (Hno answer rest Hup Hok).
Qed.

(** X3: the test for ["rows"] that [food_tool.py] adds changes no result: for
    every answer of the service the two [calculate_travel_times] return the
    same mapping. *)
Theorem rows_guard_changes_nothing (lat lng : pyval) (destinations : list pyval) (w : world) :
  fst (calculate_travel_times rt self lat lng destinations w)
  = fst (WebuiTool.calculate_travel_times rt lat lng destinations w).
Proof.
  unfold calculate_travel_times, WebuiTool.calculate_travel_times.
  destruct destinations as [|d0 ds]; [reflexivity|].
  unfold try_except, bind, requests_get_json, lift, ret.
  destruct (upstream w) as [|[answer|e] rest]; try reflexivity.
  destruct answer as [| | | | | |d]; cbn [py_item]; try reflexivity.
  destruct (dict_find (lit "status") d) as [status|]; [|reflexivity].
  destruct (py_eqb status OK); cbn [negb]; [|reflexivity].
  cbn [py_contains].
  destruct (dict_find (lit "rows") d) as [rows|]; [|reflexivity].
  cbn [andb].
  destruct rows as [|[|]|z|f|s|l|d']; cbn [truthy py_index]; try reflexivity.
  - destruct (z =? 0)%Z; reflexivity.
  - destruct (fis_zero f); reflexivity.
  - destruct s; cbn [nth_error]; reflexivity.
  - destruct l; cbn [nth_error]; [reflexivity|].
    destruct (py_item p (lit "elements")) as [els|e]; [|reflexivity].
    destruct (py_iter els) as [elements|e]; [|reflexivity].
    destruct (travel_loop (d0 :: ds) 0 elements []); reflexivity.
  - destruct d'; reflexivity.
Qed.

(** Whatever the answer is, [info] keeps its three keys, and the reviews
    summary stays a string within the budget. *)
Lemma fill_details_shape (limit : nat) (answer : pyval) :
  exists hours reviews_summary summary,
    snd (fill_details limit answer empty_details)
    = [(lit "opening_hours", hours);
       (lit "reviews_summary", PStr reviews_summary);
       (lit "editorial_summary", summary)] /\
    (length reviews_summary <= Nat.max 5 limit)%nat.
Proof.
  assert (Hsentinel : (length no_review_data <= Nat.max 5 limit)%nat)
    by (change (length no_review_data) with 5%nat; lia).
  unfold fill_details, bind, lift, set_info, ret.
  repeat (cbv beta iota;
    match goal with
    | |- context [match py_get ?a ?k ?d with _ => _ end] => destruct (py_get a k d)
    | |- context [if py_eqb ?a ?b then _ else _] => destruct (py_eqb a b)
    | |- context [if truthy ?a then _ else _] => destruct (truthy a)
    | |- context [match py_iter ?a with _ => _ end] => destruct (py_iter a)
    | |- context [match rmap ?f ?l with _ => _ end] => destruct (rmap f l)
    | |- context [match py_join ?a ?l with _ => _ end] => destruct (py_join a l)
    end);
    cbv beta iota; cbn [snd];
    (do 3 eexists; split; [reflexivity|]); try exact Hsentinel.
  rewrite length_firstn. lia.
Qed.

Lemma get_place_details_shape (place_id : pyval) (w : world) :
  exists hours reviews_summary summary w',
    get_place_details self place_id w
    = (Return (details_of hours reviews_summary summary), w') /\
    (length reviews_summary <= 1500)%nat.
Proof.
  unfold get_place_details, try_except, bind, requests_get_json, ret.
  destruct (upstream w) as [|[answer|e] rest].
  - exists (PList []), no_review_data, (PStr []). eexists. split; [reflexivity|].
    change (length no_review_data) with 5%nat. lia.
  - destruct (fill_details_shape 1500 answer) as (h & r & s & -> & Hlen).
    exists h, r, s. eexists. split; [reflexivity | exact Hlen].
  - exists (PList []), no_review_data, (PStr []). eexists. split; [reflexivity|].
    change (length no_review_data) with 5%nat. lia.
Qed.

(** X4: [get_place_details] raises nothing and always returns the three
    fields [opening_hours], [reviews_summary], [editorial_summary], whatever
    the service answers; [reviews_summary] is a string of at most 1500
    characters, and of at most 1000 in [webui_tool.py]. *)
Theorem place_details_always_well_formed (place_id : pyval) (w : world) :
  (exists hours reviews_summary summary w',
      get_place_details self place_id w
      = (Return (details_of hours reviews_summary summary), w') /\
      (length reviews_summary <= 1500)%nat) /\
  (exists hours reviews_summary summary w',
      WebuiTool.get_place_details place_id w
      = (Return (details_of hours reviews_summary summary), w') /\
      (length reviews_summary <= 1000)%nat).
Proof.
  split; [apply get_place_details_shape|].
  unfold WebuiTool.get_place_details, try_except, bind, requests_get_json, ret.
  destruct (upstream w) as [|[answer|e] rest].
  - exists (PList []), no_review_data, (PStr []). eexists. split; [reflexivity|].
    change (length no_review_data) with 5%nat. lia.
  - destruct (fill_details_shape 1000 answer) as (h & r & s & -> & Hlen).
    exists h, r, s. eexists. split; [reflexivity | exact Hlen].
  - exists (PList []), no_review_data, (PStr []). eexists. split; [reflexivity|].
    change (length no_review_data) with 5%nat. lia.
Qed.

Lemma rmap_raises {A B} (f : A -> res B) (l : list A) (a : A) :
  In a l -> (exists e, f a = Raise e) -> exists e, rmap f l = Raise e.
Proof.
  intros Hin Hraise. induction l as [|b l IH]; [destruct Hin|].
  cbn [rmap]. destruct (f b) as [y|e] eqn:Hb; cbn [rbind]; [|eauto].
  destruct Hin as [-> | Hin].
  - destruct Hraise as (e & He). congruence.
  - destruct (IH Hin) as (e & ->). cbn. eauto.
Qed.

(** X5: an exception in the middle of [get_place_details] keeps what was
    assigned before it: when one of the reviews is not an object, the opening
    hours and the editorial summary of the answer are returned, with the "no
    review data" sentinel for the reviews. *)
Theorem details_survive_a_bad_review (place_id answer hours summary : pyval)
    (rs : list pyval) (rest : list (res pyval)) (w : world) :
  upstream w = Return answer :: rest ->
  details_answer answer hours summary (PList rs) ->
  (exists r, In r rs /\ forall d, r <> PDict d) ->
  fst (get_place_details self place_id w)
  = Return (details_of hours no_review_data summary).
Proof.
  intros Hup (d & st & result & oh & ed & -> & Hst & Hok & Hres & Hoh & Hh & Hed & Hs & Hrev)
         (r & Hin & Hr).
  erewrite get_place_details_answered by eassumption.
  unfold fill_details, bind, lift, set_info, ret.
  cbn [py_get] in Hres |- *. rewrite Hst, Hok. injection Hres as Hres. rewrite Hres.
  rewrite Hoh, Hh, Hed, Hs, Hrev.
  destruct rs as [|r0 rs']; [destruct Hin|]. cbn [truthy py_iter].
  destruct (@rmap_raises _ _ (fun r => py_get r (lit "text") (PStr [])) (r0 :: rs') r Hin)
    as (e & ->).
  { destruct r; cbn [py_get]; eauto. now destruct (Hr d0). }
  reflexivity.
Qed.

End HelpersEdge.

(** A review that is a bare string. *)
Lemma details_survive_a_bad_review_witness :
  fst (get_place_details Sample.tools (PStr (lit "A"))
         (Sample.world_of
            [Return (Sample.details [PStr (lit "Mon: 9-5")] [PStr (lit "good")])] []))
  = Return (details_of (PList [PStr (lit "Mon: 9-5")]) no_review_data (PStr [])).
Proof.
  apply (@details_survive_a_bad_review Sample.tools (PStr (lit "A"))
           (Sample.details [PStr (lit "Mon: 9-5")] [PStr (lit "good")])
           (PList [PStr (lit "Mon: 9-5")]) (PStr []) [PStr (lit "good")] []).
  - reflexivity.
  - do 5 eexists. repeat split; reflexivity.
  - exists (PStr (lit "good")). split; [now left | discriminate].
Defined.

(** ** The requests of [find_food] *)

Section Calls.

Context {A B : Type}.

Lemma calls_ret (a : A) (w : world) : calls_at_most 0 (ret a) w.
Proof. exists []. cbn. now rewrite app_nil_r. Qed.

Lemma calls_lift (r : res A) (w : world) : calls_at_most 0 (lift r) w.
Proof. exists []. cbn. now rewrite app_nil_r. Qed.

Lemma calls_more (n m : nat) (c : M A) (w : world) :
  (n <= m)%nat -> calls_at_most n c w -> calls_at_most m c w.
Proof. intros Hle (more & Hs & Hn). exists more. split; [exact Hs | lia]. Qed.

Lemma calls_bind (n m : nat) (c : M A) (k : A -> M B) (w : world) :
  calls_at_most n c w ->
  (forall a w1, c w = (Return a, w1) -> calls_at_most m (k a) w1) ->
  calls_at_most (n + m) (bind c k) w.
Proof.
  intros (more & Hs & Hn) Hk. unfold calls_at_most, bind.
  destruct (c w) as [[a|e] w1] eqn:Hc; cbn [snd] in Hs.
  - destruct (Hk a w1 eq_refl) as (more' & Hs' & Hm).
    exists (more ++ more'). rewrite Hs', Hs, app_assoc, length_app. split; [reflexivity | lia].
  - exists more. cbn [snd]. split; [exact Hs | lia].
Qed.

Lemma calls_try (n m : nat) (body : M A) (handler : exn -> M A) (w : world) :
  calls_at_most n body w ->
  (forall e w1, body w = (Raise e, w1) -> calls_at_most m (handler e) w1) ->
  calls_at_most (n + m) (try_except body handler) w.
Proof.
  intros (more & Hs & Hn) Hh. unfold calls_at_most, try_except.
  destruct (body w) as [[a|e] w1] eqn:Hb; cbn [snd] in Hs.
  - exists more. cbn [snd]. split; [exact Hs | lia].
  - destruct (Hh e w1 eq_refl) as (more' & Hs' & Hm).
    exists (more ++ more'). rewrite Hs', Hs, app_assoc, length_app. split; [reflexivity | lia].
Qed.

End Calls.

Lemma calls_request (url : pystr) (params : list (pystr * pyval)) (w : world) :
  calls_at_most 1 (requests_get_json url params) w.
Proof.
  unfold requests_get_json. eexists.
  destruct (upstream w) as [|r rest]; cbn [snd sent]; split; try reflexivity; cbn; lia.
Qed.

Lemma calls_sample_loop {A} (k : nat) :
  forall (pool : list A) (w : world), calls_at_most 0 (sample_loop k pool) w.
Proof.
  induction k as [|k IH]; intros pool w; cbn [sample_loop]; [apply calls_ret|].
  destruct pool as [|x0 pool']; [apply calls_ret|].
  apply (@calls_bind _ _ 0 0).
  - exists []. cbn. now rewrite app_nil_r.
  - intros j w1 _. apply (@calls_bind _ _ 0 0); [apply IH|]. intros. apply calls_ret.
Qed.

Lemma calls_random_sample {A} (population : list A) (k : nat) (w : world) :
  calls_at_most 0 (random_sample population k) w.
Proof.
  unfold random_sample. destruct (length population <? k)%nat;
    [apply calls_lift | apply calls_sample_loop].
Qed.

Lemma calls_mapM {A B} (f : A -> M B) (l : list A) :
  (forall a w, calls_at_most 1 (f a) w) ->
  forall w, calls_at_most (length l) (mapM f l) w.
Proof.
  intros Hf. induction l as [|a l IH]; intros w; cbn [mapM length]; [apply calls_ret|].
  apply (@calls_bind _ _ 1 (length l)); [apply Hf|]. intros b w1 _.
  replace (length l) with (length l + 0)%nat by lia.
  apply calls_bind; [apply IH|]. intros. apply calls_ret.
Qed.

Lemma sample_loop_length {A} (k : nat) :
  forall (pool l : list A) (w w' : world),
    sample_loop k pool w = (Return l, w') -> (length l <= k)%nat.
Proof.
  induction k as [|k IH]; intros pool l w w'; cbn [sample_loop].
  - intros [= <- _]. cbn. lia.
  - destruct pool as [|x0 pool']; [intros [= <- _]; cbn; lia|].
    intros H. apply bind_Return in H as (j & w1 & _ & H).
    apply bind_Return in H as (rest & w2 & Hrest & H).
    injection H as <- _. cbn [length]. apply IH in Hrest. lia.
Qed.

Section Budget.

Variable rt : runtime.
Variable self : Tools.
Variables keyword location max_travel_time min_rating min_reviews : pyval.

Lemma calls_get_coordinates (w : world) : calls_at_most 1 (get_coordinates self location) w.
Proof.
  unfold get_coordinates. destruct (negb (truthy location)).
  - apply (@calls_more _ 0); [lia | apply calls_ret].
  - apply (@calls_try _ 1 0); [|intros; apply calls_ret].
    apply (@calls_bind _ _ 1 0); [apply calls_request|]. intros answer w1 _.
    apply (@calls_bind _ _ 0 0); [apply calls_lift|]. intros status w2 _.
    destruct (py_eqb status OK); [|apply calls_ret].
    repeat (apply (@calls_bind _ _ 0 0); [apply calls_lift|]; intros ? ? _).
    apply calls_ret.
Qed.

Lemma calls_travel_times (lat lng : pyval) (destinations : list pyval) (w : world) :
  calls_at_most 1 (calculate_travel_times rt self lat lng destinations) w.
Proof.
  unfold calculate_travel_times. destruct destinations as [|d0 ds].
  - apply (@calls_more _ 0); [lia | apply calls_ret].
  - apply (@calls_try _ 1 0); [|intros; apply calls_ret].
    apply (@calls_bind _ _ 1 0); [apply calls_request|]. intros answer w1 _.
    apply (@calls_bind _ _ 0 0); [apply calls_lift|]. intros status w2 _.
    destruct (negb (py_eqb status OK)); [apply calls_ret|].
    apply (@calls_bind _ _ 0 0); [apply calls_lift|]. intros has_rows w3 _.
    apply (@calls_bind _ _ 0 0);
      [destruct has_rows; [apply calls_lift | apply calls_ret]|]. intros rows w4 _.
    destruct (has_rows && truthy rows); [|apply calls_ret].
    repeat (apply (@calls_bind _ _ 0 0); [apply calls_lift|]; intros ? ? _).
    apply calls_lift.
Qed.

Lemma calls_place_details (place_id : pyval) (w : world) :
  calls_at_most 1 (get_place_details self place_id) w.
Proof.
  unfold get_place_details.
  apply (@calls_try _ 1 0); [|intros; apply calls_ret].
  apply (@calls_bind _ _ 1 0); [apply calls_request|]. intros. apply calls_ret.
Qed.

Lemma calls_describe (p : pyval) (w : world) : calls_at_most 1 (describe rt self p) w.
Proof.
  unfold describe.
  apply (@calls_bind _ _ 0 1); [apply calls_lift|]. intros pid w1 _.
  apply (@calls_bind _ _ 1 0); [apply calls_place_details|]. intros. apply calls_lift.
Qed.

Lemma calls_shortlist (lat lng : pyval) (candidates : list pyval) (w : world) :
  calls_at_most 1 (shortlist rt self max_travel_time lat lng candidates) w.
Proof.
  unfold shortlist.
  apply (@calls_bind _ _ 0 1); [apply calls_lift|]. intros ids w1 _.
  apply (@calls_bind _ _ 1 0); [apply calls_travel_times|]. intros. apply calls_lift.
Qed.

Lemma calls_present (final_list : list pyval) (w : world) :
  calls_at_most 3 (present rt self keyword location max_travel_time final_list) w.
Proof.
  unfold present.
  apply (@calls_bind _ _ 0 3); [apply calls_random_sample|]. intros selected w1 Hsel.
  apply (@calls_bind _ _ 0 3); [apply calls_lift|]. intros ids w2 _.
  apply (@calls_bind _ _ 3 0); [|intros; apply calls_ret].
  apply (@calls_more _ (length selected)); [|apply calls_mapM; intros; apply calls_describe].
  unfold random_sample in Hsel.
  destruct (length final_list <? Nat.min 3 (length final_list))%nat; [discriminate|].
  apply sample_loop_length in Hsel. lia.
Qed.

Lemma calls_search (exclude_ids : list pyval) (lat lng : pyval) (w : world) :
  calls_at_most 5
    (search_and_recommend rt self keyword location max_travel_time min_rating min_reviews
       exclude_ids lat lng) w.
Proof.
  unfold search_and_recommend.
  apply (@calls_bind _ _ 1 4); [apply calls_request|]. intros answer w1 _.
  apply (@calls_bind _ _ 0 4); [apply calls_lift|]. intros status w2 _.
  destruct (negb (py_eqb status OK)); [apply (@calls_more _ 0); [lia | apply calls_ret]|].
  do 3 (apply (@calls_bind _ _ 0 4); [apply calls_lift|]; intros ? ? _).
  destruct a1 as [|c cs].
  - apply (@calls_more _ 0); [lia|].
    apply (@calls_bind _ _ 0 0); [apply calls_lift|]. intros results w6 _.
    destruct (truthy results && (0 <? length exclude_ids)%nat); apply calls_ret.
  - unfold recommend.
    apply (@calls_bind _ _ 1 3); [apply calls_shortlist|]. intros fl w6 _.
    destruct fl; [apply (@calls_more _ 0); [lia | apply calls_ret] | apply calls_present].
Qed.

(** X6: one run of [find_food] makes at most six requests (geocoding, the
    text search, the distance matrix and the details of at most three places),
    whether the calls succeed or fail; without an API key it makes none. *)
Theorem find_food_request_budget (exclude_ids : option (list pyval)) (w : world) :
  calls_at_most 6
    (find_food rt self keyword location max_travel_time min_rating min_reviews exclude_ids) w /\
  (GOOGLE_API_KEY self = [] ->
   find_food rt self keyword location max_travel_time min_rating min_reviews exclude_ids w
   = (Return (failed msg_key_missing), w)).
Proof.
  split.
  - unfold find_food. destruct (GOOGLE_API_KEY self) as [|c key].
    + apply (@calls_more _ 0); [lia | apply calls_ret].
    + apply (@calls_bind _ _ 1 5); [apply calls_get_coordinates|]. intros origin w1 _.
      destruct (negb (truthy (fst origin))); [apply (@calls_more _ 0); [lia | apply calls_ret]|].
      apply (@calls_try _ 5 0); [apply calls_search | intros; apply calls_ret].
  - intros Hkey. unfold find_food. now rewrite Hkey.
Qed.

End Budget.

(** ** What [find_food] recommends *)

Section Selection.

Context {A : Type}.

Lemma rfilter_passed (f : A -> res bool) (l l' : list A) :
  rfilter f l = Return l' ->
  Forall (fun a => In a l /\ f a = Return true) l'.
Proof.
  revert l'. induction l as [|a l IH]; intros l'; cbn [rfilter].
  - intros [= <-]. constructor.
  - intros H. apply rbind_Return in H as (b & Hb & H).
    apply rbind_Return in H as (rest & Hrest & H). injection H as <-.
    assert (Hr : Forall (fun x => In x (a :: l) /\ f x = Return true) rest).
    { eapply Forall_impl; [|exact (IH rest Hrest)]. intros x [Hin Hx]. split; [now right | exact Hx]. }
    destruct b; [constructor; [split; [now left | exact Hb] | exact Hr] | exact Hr].
Qed.

Lemma firstn_In_sub (n : nat) (l : list A) (a : A) : In a (firstn n l) -> In a l.
Proof.
  intros H. rewrite <- (firstn_skipn n l). apply in_or_app. now left.
Qed.

(** The last element and what precedes it make up the list. *)
Lemma last_first_perm (pool : list A) (x0 : A) :
  pool <> [] ->
  Permutation (nth (length pool - 1) pool x0 :: firstn (length pool - 1) pool) pool.
Proof.
  induction pool as [|a pool IH]; [congruence|]. intros _.
  destruct pool as [|b pool']; [reflexivity|].
  remember (b :: pool') as pool eqn:Hpool.
  assert (Hne : pool <> []) by (subst pool; discriminate).
  assert (Hlen : (length (a :: pool) - 1 = S (length pool - 1))%nat)
    by (subst pool; cbn [length]; lia).
  rewrite Hlen. cbn [nth firstn]. rewrite perm_swap. constructor. now apply IH.
Qed.

(** One round of the selection loop: the element drawn and the pool that is
    left make up the pool. *)
Lemma pick_perm (pool : list A) (x0 : A) :
  forall j,
    (j < length pool)%nat ->
    Permutation
      (nth j pool x0 ::
       firstn (length pool - 1) (list_set j (nth (length pool - 1) pool x0) pool))
      pool.
Proof.
  induction pool as [|a pool IH]; intros j Hj; [cbn in Hj; lia|].
  destruct pool as [|b pool'].
  - destruct j; [reflexivity | cbn in Hj; lia].
  - remember (b :: pool') as pool eqn:Hpool.
    assert (Hne : pool <> []) by (subst pool; discriminate).
    assert (Hlen : (length (a :: pool) - 1 = S (length pool - 1))%nat)
      by (subst pool; cbn [length]; lia).
    rewrite Hlen. destruct j as [|j].
    + cbn [nth list_set firstn]. constructor. now apply last_first_perm.
    + cbn [nth list_set firstn]. rewrite perm_swap. constructor.
      apply IH. cbn [length] in Hj. lia.
Qed.

Lemma randbelow_lt (n j : nat) (w w1 : world) :
  n <> 0%nat -> randbelow n w = (Return j, w1) -> (j < n)%nat.
Proof.
  intros Hn. unfold randbelow. intros [= <- _]. now apply Nat.mod_upper_bound.
Qed.

(** [random.sample] draws without replacement: what it returns, with what it
    leaves, is the population. *)
Lemma sample_loop_perm (k : nat) :
  forall (pool l : list A) (w w' : world),
    sample_loop k pool w = (Return l, w') -> (k <= length pool)%nat ->
    exists rest, Permutation (l ++ rest) pool.
Proof.
  induction k as [|k IH]; intros pool l w w'; cbn [sample_loop].
  - intros [= <- _] _. now exists pool.
  - destruct pool as [|x0 pool']; [cbn; lia|].
    intros H Hk. apply bind_Return in H as (j & w1 & Hj & H).
    apply bind_Return in H as (picked & w2 & Hrest & H). injection H as <- _.
    assert (Hlt : (j < length (x0 :: pool'))%nat)
      by (eapply randbelow_lt; [|exact Hj]; discriminate).
    apply IH in Hrest as (rest & Hperm).
    + exists rest. cbn [app]. rewrite Hperm. exact (@pick_perm (x0 :: pool') x0 j Hlt).
    + rewrite length_firstn, list_set_length. cbn [length] in *. lia.
Qed.

Lemma random_sample_perm (population l : list A) (k : nat) (w w' : world) :
  random_sample population k w = (Return l, w') ->
  exists rest, Permutation (l ++ rest) population.
Proof.
  unfold random_sample. destruct (length population <? k)%nat eqn:E; [discriminate|].
  intros H. eapply sample_loop_perm; [exact H|]. apply Nat.ltb_ge in E. exact E.
Qed.

End Selection.

Section Recommended.

Variable rt : runtime.
Variable self : Tools.
Variables keyword location max_travel_time min_rating min_reviews : pyval.

Lemma is_candidate_eligible (exclude_ids : list pyval) (p : pyval) :
  is_candidate min_rating min_reviews exclude_ids p = Return true ->
  eligible min_rating min_reviews exclude_ids p.
Proof.
  unfold is_candidate. intros H.
  destruct p as [| | | | | |d]; try discriminate.
  exists d. split; [reflexivity|]. cbn [py_get rbind] in H.
  apply rbind_Return in H as (good & Hgood & H).
  destruct good; [|discriminate].
  apply rbind_Return in H as (enough & Henough & H).
  destruct enough; [|discriminate].
  injection H as H. apply negb_true_iff in H.
  unfold field_or, field. auto.
Qed.

Lemma eligible_labelled (exclude_ids : list pyval) (p p' : pyval) :
  eligible min_rating min_reviews exclude_ids p -> labelled p p' ->
  eligible min_rating min_reviews exclude_ids p'.
Proof.
  intros (d & -> & Hr & Ht & Hx) (d' & text & [= <-] & ->).
  exists (dict_set (lit "travel_time_text") text d). split; [reflexivity|].
  unfold field_or, field in *.
  rewrite !dict_find_set_other by discriminate. auto.
Qed.

(** The loop that builds [final_list]: every place it keeps is one of the
    candidates with its travel text, and is within the time budget. *)
Lemma within_budget_spec (travel_info : list (pyval * pyval)) (top final_list : list pyval) :
  within_budget travel_info max_travel_time top = Return final_list ->
  Forall (fun p' => (exists p, In p top /\ labelled p p') /\
                    within_time travel_info max_travel_time p') final_list /\
  (length final_list <= length top)%nat.
Proof.
  revert final_list. induction top as [|p top IH]; intros fl; cbn [within_budget].
  - intros [= <-]. split; [constructor | cbn; lia].
  - intros H.
    apply rbind_Return in H as (pid & Hpid & H).
    apply rbind_Return in H as (known & Hknown & H).
    apply rbind_Return in H as (keep & Hkeep & H).
    assert (Hweak : forall fl',
              Forall (fun p' => (exists p0, In p0 top /\ labelled p0 p') /\
                                within_time travel_info max_travel_time p') fl' ->
              Forall (fun p' => (exists p0, In p0 (p :: top) /\ labelled p0 p') /\
                                within_time travel_info max_travel_time p') fl').
    { intros fl'. apply Forall_impl. intros p' [(p0 & Hin & Hl) Hw].
      split; [exists p0; split; [now right | exact Hl] | exact Hw]. }
    destruct keep.
    + destruct known; [|discriminate].
      apply rbind_Return in Hkeep as (info & Hinfo & Hkeep).
      apply rbind_Return in Hkeep as (minutes & Hmin & Hle).
      rewrite Hinfo in H. cbn [rbind] in H.
      apply rbind_Return in H as (text & Htext & H).
      apply rbind_Return in H as (p' & Hp' & H).
      apply rbind_Return in H as (fl' & Hfl' & H). injection H as <-.
      destruct (IH fl' Hfl') as [Hall Hlen].
      split; [|cbn [length]; lia].
      constructor; [|now apply Hweak].
      destruct p as [| | | | | |d]; try discriminate.
      cbn [py_item py_setitem] in Hpid, Hp'. injection Hp' as <-.
      destruct (dict_find (lit "place_id") d) as [pid'|] eqn:Hd; [|discriminate].
      injection Hpid as ->.
      unfold tdict_getitem in Hinfo. destruct (hashable pid); [|discriminate].
      destruct (tdict_find pid travel_info) as [info'|] eqn:Hfind; [|discriminate].
      injection Hinfo as ->.
      split.
      * exists (PDict d). split; [now left|]. now exists d, text.
      * exists (dict_set (lit "travel_time_text") text d), pid, info, minutes, text.
        split; [reflexivity|]. split; [rewrite dict_find_set_other; [exact Hd | discriminate]|].
        split; [exact Hfind|]. split; [exact Hmin|]. split; [exact Hle|].
        split; [exact Htext | apply dict_find_set_same].
    + destruct (IH fl H) as [Hall Hlen]. split; [now apply Hweak | cbn [length]; lia].
Qed.

Lemma random_sample_Forall {A} (P : A -> Prop) (population l : list A) (k : nat)
    (w w' : world) :
  random_sample population k w = (Return l, w') -> Forall P population -> Forall P l.
Proof.
  intros Hrun HP.
  assert (Hk : (k <= length population)%nat).
  { unfold random_sample in Hrun.
    destruct (length population <? k)%nat eqn:E; [discriminate|]. now apply Nat.ltb_ge in E. }
  destruct (@random_sample_spec _ P k population w Hk HP) as (l0 & w0 & Hrun0 & _ & Hl0).
  rewrite Hrun in Hrun0. now injection Hrun0 as <- _.
Qed.

(** The place ids of places that have one. *)
Lemma place_ids_map (places : list pyval) (ids : list pyval) :
  rmap (fun p => py_item p (lit "place_id")) places = Return ids ->
  ids = map place_id_of places.
Proof.
  revert ids. induction places as [|p places IH]; intros ids; cbn [rmap map].
  - now intros [= <-].
  - intros H. apply rbind_Return in H as (pid & Hpid & H).
    apply rbind_Return in H as (rest & Hrest & H). injection H as <-.
    rewrite (IH rest Hrest). f_equal.
    destruct p as [| | | | | |d]; try discriminate. cbn [py_item] in Hpid.
    unfold place_id_of, field. now destruct (dict_find (lit "place_id") d); [injection Hpid|].
Qed.

(** One round of the loop that fills [output_data]. *)
Lemma describe_shape (p entry pid : pyval) (w w' : world) :
  describe rt self p w = (Return entry, w') ->
  py_item p (lit "place_id") = Return pid ->
  restaurant_of rt pid entry.
Proof.
  unfold describe. intros H Hpid. rewrite Hpid in H.
  unfold bind at 1 in H. unfold lift at 1 in H.
  apply bind_Return in H as (details & w1 & Hdet & H).
  apply lift_Return in H as [H _].
  destruct (get_place_details_shape self pid w) as (h & r & s & w2 & Hshape & Hlen).
  rewrite Hshape in Hdet. injection Hdet as <- _.
  destruct p as [| | | | | |d]; try discriminate.
  unfold restaurant_entry in H. cbn [py_get rbind] in H. injection H as <-.
  cbn [py_item] in Hpid.
  destruct (dict_find (lit "place_id") d) as [pid'|]; [|discriminate]. injection Hpid as ->.
  do 7 eexists. split; [reflexivity | exact Hlen].
Qed.

Lemma describe_all_shape (selected : list pyval) :
  forall (ids data : list pyval) (w w' : world),
    rmap (fun p => py_item p (lit "place_id")) selected = Return ids ->
    mapM (describe rt self) selected w = (Return data, w') ->
    Forall2 (restaurant_of rt) ids data.
Proof.
  induction selected as [|p selected IH]; intros ids data w w'; cbn [rmap mapM].
  - intros [= <-] [= <- _]. constructor.
  - intros Hids H.
    apply rbind_Return in Hids as (pid & Hpid & Hids).
    apply rbind_Return in Hids as (rest & Hrest & Hids). injection Hids as <-.
    apply bind_Return in H as (entry & w1 & Hentry & H).
    apply bind_Return in H as (entries & w2 & Hentries & H). injection H as <- _.
    constructor; [eapply describe_shape; eassumption | eapply IH; eassumption].
Qed.

(** What a run of [recommend] that returns restaurants went through. *)
Lemma recommend_inv (lat lng : pyval) (candidates : list pyval) (w w' : world)
    (out : pystr) (ids data : list pyval) :
  recommend rt self keyword location max_travel_time lat lng candidates w
  = (Return (out, ids, data), w') ->
  (ids = [] /\ data = []) \/
  exists cand_ids travel_info final_list w1 selected w2,
    rmap (fun p => py_item p (lit "place_id")) (firstn 15 candidates) = Return cand_ids /\
    calculate_travel_times rt self lat lng cand_ids w = (Return travel_info, w1) /\
    within_budget travel_info max_travel_time (firstn 15 candidates) = Return final_list /\
    random_sample final_list (Nat.min 3 (length final_list)) w1 = (Return selected, w2) /\
    rmap (fun p => py_item p (lit "place_id")) selected = Return ids /\
    mapM (describe rt self) selected w2 = (Return data, w') /\
    out = prompt_of rt keyword location max_travel_time data.
Proof.
  unfold recommend. intros H.
  apply bind_Return in H as (fl & w1 & Hshort & H).
  destruct fl as [|p0 fl0]; [left; now injection H as _ <- <- _|].
  right. remember (p0 :: fl0) as fl eqn:Hfl. clear Hfl.
  unfold shortlist in Hshort.
  apply bind_Return in Hshort as (cand_ids & wa & Hids & Hshort).
  apply lift_Return in Hids as [Hids ->].
  apply bind_Return in Hshort as (ti & wb & Hti & Hshort).
  apply lift_Return in Hshort as [Hwb Heq]. subst wb.
  unfold present in H.
  apply bind_Return in H as (selected & w2 & Hsel & H).
  apply bind_Return in H as (ids' & w3 & Hsid & H).
  apply lift_Return in Hsid as [Hsid ->].
  apply bind_Return in H as (data' & w4 & Hdata & H).
  injection H as <- <- <- <-.
  exists cand_ids, ti, fl, w1, selected, w2. repeat split; assumption.
Qed.

(** What a run of [find_food] that returns restaurants went through. *)
Lemma find_food_inv (exclude_ids : option (list pyval)) (w w' : world)
    (out : pystr) (ids data : list pyval) :
  find_food rt self keyword location max_travel_time min_rating min_reviews exclude_ids w
  = (Return (out, ids, data), w') ->
  (ids = [] /\ data = []) \/
  exists lat lng w1 answer w2 results places candidates,
    get_coordinates self location w = (Return (lat, lng), w1) /\
    requests_get_json text_search_url (text_search_params rt self keyword lat lng) w1
    = (Return answer, w2) /\
    py_get answer (lit "results") (PList []) = Return results /\
    py_iter results = Return places /\
    rfilter (is_candidate min_rating min_reviews
               (match exclude_ids with None => [] | Some l => l end)) places
    = Return candidates /\
    recommend rt self keyword location max_travel_time lat lng candidates w2
    = (Return (out, ids, data), w').
Proof.
  unfold find_food. destruct (GOOGLE_API_KEY self) as [|c key].
  { intros [= _ <- <- _]. now left. }
  intros H. apply bind_Return in H as ([lat lng] & w1 & Hloc & H). cbn [fst snd] in H.
  destruct (negb (truthy lat)); [injection H as _ <- <- _; now left|].
  unfold try_except in H.
  match type of H with
  | context [search_and_recommend ?a1 ?a2 ?a3 ?a4 ?a5 ?a6 ?a7 ?a8 ?a9 ?a10 w1] =>
      destruct (search_and_recommend a1 a2 a3 a4 a5 a6 a7 a8 a9 a10 w1)
        as [[o|e] w2] eqn:Hrun
  end; [|injection H as _ <- <- _; now left].
  injection H as -> ->.
  unfold search_and_recommend in Hrun.
  apply bind_Return in Hrun as (answer & wa & Hreq & Hrun).
  apply bind_Return in Hrun as (status & wb & Hst & Hrun).
  apply lift_Return in Hst as [_ ->].
  destruct (negb (py_eqb status OK)); [injection Hrun as _ <- <- _; now left|].
  apply bind_Return in Hrun as (results & wc & Hres & Hrun).
  apply lift_Return in Hres as [Hres ->].
  apply bind_Return in Hrun as (places & wd & Hpl & Hrun).
  apply lift_Return in Hpl as [Hpl ->].
  apply bind_Return in Hrun as (candidates & we & Hfilter & Hrun).
  apply lift_Return in Hfilter as [Hfilter ->].
  destruct candidates as [|c0 cs].
  - apply bind_Return in Hrun as (results' & wf & _ & Hrun).
    destruct (truthy results' && (0 <? length (match exclude_ids with
                                               | None => []
                                               | Some l => l
                                               end))%nat);
      injection Hrun as _ <- <- _; now left.
  - right. exists lat, lng, w1, answer, wa, results, places, (c0 :: cs).
    repeat split; assumption.
Qed.

(** The places [find_food] selects, with what is known of each: it is one of
    the places of the text search, it passed the filter, and its restaurant
    is in [data] at the place of its identifier in [ids]. *)
Lemma find_food_selected (exclude_ids : option (list pyval)) (w w' : world)
    (out : pystr) (ids data : list pyval) :
  find_food rt self keyword location max_travel_time min_rating min_reviews exclude_ids w
  = (Return (out, ids, data), w') ->
  (ids = [] /\ data = []) \/
  exists lat lng w1 answer w2 results places selected,
    get_coordinates self location w = (Return (lat, lng), w1) /\
    requests_get_json text_search_url (text_search_params rt self keyword lat lng) w1
    = (Return answer, w2) /\
    py_get answer (lit "results") (PList []) = Return results /\
    py_iter results = Return places /\
    Forall (fun p' => exists p, In p places /\ labelled p p' /\
                      eligible min_rating min_reviews
                        (match exclude_ids with None => [] | Some l => l end) p) selected /\
    ids = map place_id_of selected /\
    Forall2 (restaurant_of rt) ids data.
Proof.
  intros H.
  apply find_food_inv in H
    as [H | (lat & lng & w1 & answer & w2 & results & places & candidates
             & Hloc & Hreq & Hres & Hpl & Hf & H)];
    [now left|].
  apply recommend_inv in H
    as [H | (cids & ti & fl & w3 & selected & w4 & Hcids & Hti & Hfl & Hsel & Hids & Hdata & _)];
    [now left|].
  right. exists lat, lng, w1, answer, w2, results, places, selected.
  repeat (split; [assumption|]). split; [|split].
  - eapply random_sample_Forall; [exact Hsel|].
    apply within_budget_spec in Hfl as [Hfl _].
    eapply Forall_impl; [|exact Hfl]. intros p' [(p & Hin & Hlab) _].
    apply rfilter_passed in Hf. rewrite Forall_forall in Hf.
    destruct (Hf p (firstn_In_sub _ _ _ Hin)) as [Hp Hc].
    exists p. split; [exact Hp|]. split; [exact Hlab|]. now apply is_candidate_eligible.
  - now apply place_ids_map.
  - eapply describe_all_shape; eassumption.
Qed.

Lemma labelled_place_id (p p' : pyval) : labelled p p' -> place_id_of p' = place_id_of p.
Proof.
  intros (d & text & -> & ->). unfold place_id_of, field.
  now rewrite dict_find_set_other by discriminate.
Qed.

Lemma find_food_ids_not_excluded (exclude_ids : list pyval) (w w' : world)
    (out : pystr) (ids data : list pyval) :
  find_food rt self keyword location max_travel_time min_rating min_reviews
    (Some exclude_ids) w
  = (Return (out, ids, data), w') ->
  Forall (fun id => py_in id exclude_ids = false) ids.
Proof.
  intros H.
  apply find_food_selected in H
    as [[-> _] | (lat & lng & w1 & answer & w2 & results & places & selected
                  & _ & _ & _ & _ & Hsel & -> & _)];
    [constructor|].
  apply Forall_map. eapply Forall_impl; [|exact Hsel].
  intros p' (p & _ & Hlab & d & -> & _ & _ & Hx).
  now rewrite (labelled_place_id Hlab).
Qed.

(** X7: [find_food] returns no place of the exclude list: none of the
    identifiers it returns is in [exclude_ids]. *)
Theorem find_food_skips_excluded (exclude_ids : list pyval) (w w' : world)
    (out : pystr) (ids data : list pyval) :
  find_food rt self keyword location max_travel_time min_rating min_reviews
    (Some exclude_ids) w
  = (Return (out, ids, data), w') ->
  Forall (fun id => py_in id exclude_ids = false) ids.
Proof. apply find_food_ids_not_excluded. Qed.

(** X8: the restaurants [find_food] returns go with the identifiers it
    returns, one for one and in the same order; each has the six fields
    [name], [rating], [travel_time], [address], [map_link], [details_data],
    its map link being made of its identifier, and its details the three
    fields of [get_place_details]. *)
Theorem restaurants_go_with_their_ids (exclude_ids : option (list pyval)) (w w' : world)
    (out : pystr) (ids data : list pyval) :
  find_food rt self keyword location max_travel_time min_rating min_reviews exclude_ids w
  = (Return (out, ids, data), w') ->
  Forall2 (restaurant_of rt) ids data.
Proof.
  intros H.
  apply find_food_selected in H
    as [[-> ->] | (lat & lng & w1 & answer & w2 & results & places & selected
                   & _ & _ & _ & _ & _ & _ & Hdata)];
    [constructor | exact Hdata].
Qed.

(** X9: every identifier [find_food] returns is that of a place of the text
    search whose rating and number of reviews (0 when the field is missing)
    reach [min_rating] and [min_reviews], and which is not in the exclude
    list. *)
Theorem recommended_places_pass_the_filter (exclude_ids : list pyval) (lat lng : pyval)
    (w w1 w2 w' : world) (raw : list pyval) (out : pystr) (ids data : list pyval) :
  located self location w lat lng w1 ->
  searched rt self keyword lat lng w1 raw w2 ->
  find_food rt self keyword location max_travel_time min_rating min_reviews
    (Some exclude_ids) w
  = (Return (out, ids, data), w') ->
  Forall (fun id => exists p,
            In p raw /\ place_id_of p = id /\
            eligible min_rating min_reviews exclude_ids p) ids.
Proof.
  intros [Hloc _] (answer & Hreq & d & status & -> & _ & _ & Hraw) H.
  apply find_food_selected in H
    as [[-> _] | (lat' & lng' & w1' & answer' & w2' & results & places & selected
                  & Hloc' & Hreq' & Hres & Hpl & Hsel & -> & _)];
    [constructor|].
  rewrite Hloc in Hloc'. injection Hloc' as <- <- <-.
  rewrite Hreq in Hreq'. injection Hreq' as <- <-.
  assert (Hplaces : places = raw).
  { cbn [py_get] in Hres.
    destruct Hraw as [Hraw | [Hraw ->]]; rewrite Hraw in Hres; injection Hres as <-;
      cbn [py_iter] in Hpl; now injection Hpl. }
  subst places.
  apply Forall_map. eapply Forall_impl; [|exact Hsel].
  intros p' (p & Hin & Hlab & Hel).
  exists p. split; [exact Hin|]. split; [symmetry; now apply labelled_place_id | exact Hel].
Qed.

(** X10: [final_list] holds places within the time budget only: each is one
    of the first 15 candidates, the travel times have an entry for its
    identifier with minutes that do not exceed [max_travel_time], and it
    carries the text of that entry as its travel time.  One call asks for the
    travel times of those 15 candidates at most. *)
Theorem final_list_is_within_budget (lat lng : pyval) (candidates final_list : list pyval)
    (w w' : world) :
  shortlist rt self max_travel_time lat lng candidates w = (Return final_list, w') ->
  exists travel_info,
    calculate_travel_times rt self lat lng (map place_id_of (firstn 15 candidates)) w
    = (Return travel_info, w') /\
    Forall (fun p' => (exists p, In p (firstn 15 candidates) /\ labelled p p') /\
                      within_time travel_info max_travel_time p') final_list /\
    (length final_list <= 15)%nat.
Proof.
  unfold shortlist. intros H.
  apply bind_Return in H as (cand_ids & wa & Hids & H).
  apply lift_Return in Hids as [Hids ->].
  apply bind_Return in H as (ti & wb & Hti & H).
  apply lift_Return in H as [Hfl ->].
  apply place_ids_map in Hids. subst cand_ids.
  apply within_budget_spec in Hfl as [Hall Hlen].
  exists ti. split; [exact Hti|]. split; [exact Hall|].
  pose proof (firstn_le_length 15 candidates). lia.
Qed.

(** X11: the restaurants of one answer are drawn without replacement: the
    identifiers returned, with those left out, are the identifiers of
    [final_list]; when the places of [final_list] are distinct, no place is
    recommended twice. *)
Theorem selection_is_without_replacement (exclude_ids : list pyval) (lat lng : pyval)
    (w w1 w2 w3 : world) (raw candidates final_list : list pyval) :
  GOOGLE_API_KEY self <> [] ->
  located self location w lat lng w1 ->
  searched rt self keyword lat lng w1 raw w2 ->
  rfilter (is_candidate min_rating min_reviews exclude_ids) raw = Return candidates ->
  shortlist rt self max_travel_time lat lng candidates w2 = (Return final_list, w3) ->
  final_list <> [] ->
  exists ids data w' rest,
    find_food rt self keyword location max_travel_time min_rating min_reviews
      (Some exclude_ids) w
    = (Return (prompt_of rt keyword location max_travel_time data, ids, data), w') /\
    Permutation (ids ++ rest) (map place_id_of final_list) /\
    (NoDup (map place_id_of final_list) -> NoDup ids).
Proof.
  intros Hkey Hloc Hsearch Hfilter Hshort Hne.
  erewrite find_food_located by eassumption. unfold try_except.
  erewrite search_and_recommend_searched by eassumption.
  destruct candidates as [|c cs].
  { rewrite shortlist_nil in Hshort. injection Hshort as <- _. congruence. }
  remember (c :: cs) as candidates eqn:Hc. clear Hc.
  destruct (@present_spec rt self keyword location max_travel_time final_list w3
              (@shortlist_has_ids rt self max_travel_time lat lng candidates final_list
                 w2 w3 Hshort)) as (ids & data & w' & Hp & Hi & _).
  assert (Hrec : recommend rt self keyword location max_travel_time lat lng candidates w2
                 = (Return (prompt_of rt keyword location max_travel_time data, ids, data), w')).
  { unfold recommend. erewrite bind_step by exact Hshort.
    destruct final_list; [congruence | exact Hp]. }
  rewrite Hrec.
  apply recommend_inv in Hrec
    as [[-> _] | (cids & ti & fl & wa & selected & wb & Hcids & Hti & Hfl & Hsel & Hids & _)].
  { destruct final_list; [congruence | discriminate]. }
  assert (Hsame : fl = final_list).
  { unfold shortlist in Hshort.
    erewrite lift_step in Hshort by exact Hcids.
    erewrite bind_step in Hshort by exact Hti.
    unfold lift in Hshort. rewrite Hfl in Hshort. now injection Hshort. }
  subst fl.
  apply random_sample_perm in Hsel as (rest & Hperm).
  apply place_ids_map in Hids. subst ids.
  assert (Hall : Permutation (map place_id_of selected ++ map place_id_of rest)
                             (map place_id_of final_list)).
  { rewrite <- map_app. now apply Permutation_map. }
  exists (map place_id_of selected), data, w', (map place_id_of rest).
  split; [reflexivity|]. split; [exact Hall|].
  intros Hnd. eapply NoDup_app_remove_r.
  eapply Permutation_NoDup; [symmetry; exact Hall | exact Hnd].
Qed.

End Recommended.

(** ** Runs on the sample worlds *)

(** Place A is in the exclude list and place B is returned. *)
Lemma find_food_skips_excluded_witness :
  Forall (fun id => py_in id [PStr (lit "A")] = false) [PStr (lit "B")].
Proof.
  eapply (@find_food_skips_excluded Sample.rt Sample.tools Sample.noodles Sample.tainan
            default_max_travel_time default_min_rating default_min_reviews
            [PStr (lit "A")] Sample.second_round).
  lazy. reflexivity.
Defined.

(** The two restaurants of the two places nearby. *)
Lemma restaurants_go_with_their_ids_witness :
  exists out ids data w',
    find_food Sample.rt Sample.tools Sample.noodles Sample.tainan
      default_max_travel_time default_min_rating default_min_reviews None Sample.two_nearby
    = (Return (out, ids, data), w') /\
    length ids = 2%nat /\
    Forall2 (restaurant_of Sample.rt) ids data.
Proof.
  do 4 eexists. split; [lazy; reflexivity|]. split; [reflexivity|].
  eapply (@restaurants_go_with_their_ids Sample.rt Sample.tools Sample.noodles Sample.tainan
            default_max_travel_time default_min_rating default_min_reviews None
            Sample.two_nearby).
  lazy. reflexivity.
Defined.

(** Place B, of the two places found, is the one returned. *)
Lemma recommended_places_pass_the_filter_witness :
  Forall (fun id => exists p,
            In p [Sample.place "A" "Noodle A" (PInt 4) 10;
                  Sample.place "B" "Noodle B" (PInt 5) 3] /\
            place_id_of p = id /\
            eligible default_min_rating default_min_reviews [PStr (lit "A")] p)
         [PStr (lit "B")].
Proof.
  eapply (@recommended_places_pass_the_filter Sample.rt Sample.tools Sample.noodles
            Sample.tainan default_max_travel_time default_min_rating default_min_reviews
            [PStr (lit "A")] (PInt 23) (PInt 120) Sample.second_round).
  - split; [lazy; reflexivity | reflexivity].
  - eexists. split; [lazy; reflexivity|]. do 2 eexists. split; [reflexivity|].
    split; [reflexivity|]. split; [reflexivity|]. left. reflexivity.
  - lazy. reflexivity.
Defined.

(** Of a place two minutes away and one half an hour away, the first is kept
    for a budget of 20 minutes. *)
Lemma final_list_is_within_budget_witness :
  exists final_list w',
    shortlist Sample.rt Sample.tools default_max_travel_time (PInt 23) (PInt 120)
      [Sample.place "A" "Noodle A" (PInt 4) 10; Sample.place "B" "Noodle B" (PInt 5) 3]
      Sample.near_and_far
    = (Return final_list, w') /\
    map place_id_of final_list = [PStr (lit "A")] /\
    exists travel_info,
      calculate_travel_times Sample.rt Sample.tools (PInt 23) (PInt 120)
        (map place_id_of
           (firstn 15 [Sample.place "A" "Noodle A" (PInt 4) 10;
                       Sample.place "B" "Noodle B" (PInt 5) 3]))
        Sample.near_and_far
      = (Return travel_info, w') /\
      Forall (fun p' =>
                (exists p,
                    In p (firstn 15 [Sample.place "A" "Noodle A" (PInt 4) 10;
                                     Sample.place "B" "Noodle B" (PInt 5) 3]) /\
                    labelled p p') /\
                within_time travel_info default_max_travel_time p') final_list /\
      (length final_list <= 15)%nat.
Proof.
  do 2 eexists. split; [lazy; reflexivity|]. split; [reflexivity|].
  eapply (@final_list_is_within_budget Sample.rt Sample.tools default_max_travel_time
            (PInt 23) (PInt 120)).
  lazy. reflexivity.
Defined.

(** Two places in [final_list], both returned, each once. *)
Lemma selection_is_without_replacement_witness :
  exists ids data w',
    find_food Sample.rt Sample.tools Sample.noodles Sample.tainan
      default_max_travel_time default_min_rating default_min_reviews (Some [])
      Sample.two_nearby
    = (Return (prompt_of Sample.rt Sample.noodles Sample.tainan default_max_travel_time data,
               ids, data), w') /\
    NoDup ids.
Proof.
  edestruct (@selection_is_without_replacement Sample.rt Sample.tools Sample.noodles
               Sample.tainan default_max_travel_time default_min_rating default_min_reviews
               [] (PInt 23) (PInt 120) Sample.two_nearby)
    as (ids & data & w' & rest & Hrun & _ & Hnd).
  - discriminate.
  - split; [lazy; reflexivity | reflexivity].
  - eexists. split; [lazy; reflexivity|]. do 2 eexists. split; [reflexivity|].
    split; [reflexivity|]. split; [reflexivity|]. left. reflexivity.
  - lazy; reflexivity.
  - lazy; reflexivity.
  - discriminate.
  - exists ids, data, w'. split; [exact Hrun|]. apply Hnd.
    repeat constructor; cbn; intuition discriminate.
Defined.

(** ** The saved lists and their file *)

Section Store.

Import Bot.

Variable rt : runtime.

Lemma lists_set_keys (user_id : pystr) (l : list SavedEntry)
    (lists : list (pystr * list SavedEntry)) :
  map fst (lists_set user_id l lists)
  = match lists_find user_id lists with
    | Some _ => map fst lists
    | None => map fst lists ++ [user_id]
    end.
Proof.
  induction lists as [|[u l0] lists IH]; cbn [lists_set lists_find map fst app]; [reflexivity|].
  destruct (pystr_eqb user_id u); [reflexivity|].
  cbn [map fst]. rewrite IH. now destruct (lists_find user_id lists).
Qed.

Lemma lists_find_none_keys (user_id : pystr) (lists : list (pystr * list SavedEntry)) :
  lists_find user_id lists = None -> ~ In user_id (map fst lists).
Proof.
  induction lists as [|[u l0] lists IH]; cbn [lists_find map fst]; [auto|].
  destruct (pystr_eqb user_id u) eqn:E; [discriminate|].
  intros Hnone [Hin | Hin]; [|now apply IH].
  apply pystr_eqb_neq in E. congruence.
Qed.

Lemma lists_set_NoDup (user_id : pystr) (l : list SavedEntry)
    (lists : list (pystr * list SavedEntry)) :
  NoDup (map fst lists) -> NoDup (map fst (lists_set user_id l lists)).
Proof.
  intros Hnd. rewrite lists_set_keys.
  destruct (lists_find user_id lists) eqn:E; [exact Hnd|].
  apply NoDup_app; [exact Hnd | repeat constructor; auto |].
  intros x Hx [<- | []]. now apply (@lists_find_none_keys user_id lists E).
Qed.

Lemma lists_set_encodable (user_id : pystr) (l : list SavedEntry)
    (lists : list (pystr * list SavedEntry)) :
  utf8_encodable user_id = true \/ lists_find user_id lists <> None ->
  Forall entry_encodable l ->
  lists_encodable lists -> lists_encodable (lists_set user_id l lists).
Proof.
  intros Hu Hl Hall. induction Hall as [|[u l0] lists [Hu0 Hl0] Htail IH];
    cbn [lists_set].
  - constructor; [|constructor]. cbn [fst snd]. split; [|exact Hl].
    destruct Hu as [Hu | Hu]; [exact Hu | now destruct Hu].
  - cbn [fst snd] in *. destruct (pystr_eqb user_id u) eqn:E.
    + constructor; [split; [exact Hu0 | exact Hl] | exact Htail].
    + constructor; [split; [exact Hu0 | exact Hl0]|]. apply IH.
      destruct Hu as [Hu | Hu]; [now left | right].
      cbn [lists_find] in Hu. now rewrite E in Hu.
Qed.

Lemma lists_get_encodable (user_id : pystr) (lists : list (pystr * list SavedEntry)) :
  lists_encodable lists -> Forall entry_encodable (lists_get user_id lists).
Proof.
  intros Hall. unfold lists_get.
  induction Hall as [|[u l0] lists [Hu0 Hl0] _ IH]; cbn [lists_find]; [constructor|].
  destruct (pystr_eqb user_id u); [exact Hl0 | exact IH].
Qed.

Lemma str_contains_refl (s : pystr) : str_contains s s = true.
Proof.
  assert (H : is_prefix s s = true).
  { induction s as [|c s IH]; [reflexivity|]. cbn [is_prefix]. now rewrite N.eqb_refl. }
  destruct s; cbn [str_contains]; now rewrite H.
Qed.

(** The lists after a button was pressed for a restaurant whose name is not
    in the user's list. *)
Lemma callback_adds (user_id : pystr) (restaurant : SavedEntry) (st : state) :
  ~ name_saved user_id restaurant (user_saved_lists st) ->
  user_saved_lists (snd (callback rt user_id restaurant st))
  = lists_set user_id (lists_get user_id (user_saved_lists st) ++ [restaurant])
      (match lists_find user_id (user_saved_lists st) with
       | None => lists_set user_id [] (user_saved_lists st)
       | Some _ => user_saved_lists st
       end) /\
  (fst (callback rt user_id restaurant st) = Return (AddedToList (name restaurant)) \/
   fst (callback rt user_id restaurant st) = Raise UnicodeEncodeError).
Proof.
  intros Hnew. unfold callback, bind, modify, gets, ret. cbn [user_saved_lists DATA_FILE].
  assert (Hmine : lists_get user_id
                    (match lists_find user_id (user_saved_lists st) with
                     | None => lists_set user_id [] (user_saved_lists st)
                     | Some _ => user_saved_lists st
                     end) = lists_get user_id (user_saved_lists st)).
  { destruct (lists_find user_id (user_saved_lists st)) eqn:E; [reflexivity|].
    rewrite lists_get_set_same. unfold lists_get. now rewrite E. }
  rewrite Hmine.
  assert (Hfresh : existsb (fun saved => pystr_eqb (name saved) (name restaurant))
                     (lists_get user_id (user_saved_lists st)) = false).
  { destruct (existsb _ _) eqn:E; [|reflexivity]. exfalso. apply Hnew.
    apply existsb_exists in E as (saved & Hin & Heq).
    exists saved. split; [exact Hin | now apply pystr_eqb_eq]. }
  rewrite Hfresh.
  assert (Heta : {| name := name restaurant; map_link := map_link restaurant;
                    rating := rating restaurant |} = restaurant) by now destruct restaurant.
  rewrite Heta.
  match goal with
  | |- context [save_data rt ?s] =>
      pose proof (@save_data_lists rt s) as Hs;
      assert (Hfst : fst (save_data rt s) = Return tt \/
                     fst (save_data rt s) = Raise UnicodeEncodeError)
        by (unfold save_data; destruct (utf8_encodable _); auto);
      destruct (save_data rt s) as [[[]|err] st']
  end; cbn [fst snd user_saved_lists] in *; rewrite Hs; (split; [reflexivity|]).
  - now left.
  - right. destruct Hfst as [Hf | Hf]; [discriminate | now injection Hf as ->].
Qed.

(** X12: a restaurant whose name is not in the user's list goes to the end of
    that list, as it is, whether or not the user had a list; the lists of the
    other users stay as they were. *)
Theorem callback_appends (user_id : pystr) (restaurant : SavedEntry) (st : state) :
  ~ name_saved user_id restaurant (user_saved_lists st) ->
  lists_get user_id (user_saved_lists (snd (callback rt user_id restaurant st)))
  = lists_get user_id (user_saved_lists st) ++ [restaurant] /\
  (forall other, other <> user_id ->
     lists_find other (user_saved_lists (snd (callback rt user_id restaurant st)))
     = lists_find other (user_saved_lists st)) /\
  (fst (callback rt user_id restaurant st) = Return (AddedToList (name restaurant)) \/
   fst (callback rt user_id restaurant st) = Raise UnicodeEncodeError).
Proof.
  intros Hnew. destruct (@callback_adds user_id restaurant st Hnew) as [-> Hreply].
  split; [apply lists_get_set_same|]. split; [|exact Hreply].
  intros other Hne. rewrite lists_find_set_other by exact Hne.
  destruct (lists_find user_id (user_saved_lists st)); [reflexivity|].
  now apply lists_find_set_other.
Qed.

(** The lists after [/delete] found an entry. *)
Lemma delete_saved_lists (user_id query : pystr) (st : state)
    (pre post : list SavedEntry) (e : SavedEntry) :
  lists_get user_id (user_saved_lists st) = pre ++ e :: post ->
  Forall (fun x => str_contains query (name x) = false) pre ->
  str_contains query (name e) = true ->
  user_saved_lists (snd (delete_saved rt user_id query st))
  = lists_set user_id (pre ++ post) (user_saved_lists st).
Proof.
  intros Hget Hpre He.
  unfold delete_saved, bind, gets, modify, lift, ret. rewrite Hget.
  destruct (pre ++ e :: post) as [|e0 l0] eqn:Eq; [destruct pre; discriminate|].
  rewrite <- Eq.
  rewrite (@find_first _ (fun item => str_contains query (name item)) pre post e Hpre He).
  rewrite (@list_remove_first query pre post e Hpre He).
  match goal with
  | |- context [save_data rt ?s] =>
      pose proof (@save_data_lists rt s) as Hs; destruct (save_data rt s) as [[[]|err] st']
  end; cbn [snd user_saved_lists] in *; now rewrite Hs.
Qed.

(** X13: adding a restaurant and then deleting it by its name gives the
    user's list back as it was, when the name is contained in no name of the
    list. *)
Theorem add_then_delete_restores (user_id : pystr) (restaurant : SavedEntry) (st : state) :
  Forall (fun e => str_contains (name restaurant) (name e) = false)
         (lists_get user_id (user_saved_lists st)) ->
  lists_get user_id
    (user_saved_lists
       (snd (delete_saved rt user_id (name restaurant)
               (snd (callback rt user_id restaurant st)))))
  = lists_get user_id (user_saved_lists st).
Proof.
  intros Hnone.
  assert (Hnew : ~ name_saved user_id restaurant (user_saved_lists st)).
  { intros (saved & Hin & Heq). rewrite Forall_forall in Hnone.
    specialize (Hnone saved Hin). rewrite Heq, str_contains_refl in Hnone. discriminate. }
  destruct (@callback_adds user_id restaurant st Hnew) as [Hadded _].
  rewrite (@delete_saved_lists user_id (name restaurant) _
             (lists_get user_id (user_saved_lists st)) [] restaurant).
  - rewrite app_nil_r. apply lists_get_set_same.
  - rewrite Hadded. apply lists_get_set_same.
  - exact Hnone.
  - apply str_contains_refl.
Qed.

(** Lists that can be written are written, and read back as they are. *)
Lemma save_data_ok (st : state) :
  NoDup (map fst (user_saved_lists st)) -> lists_encodable (user_saved_lists st) ->
  exists f,
    save_data rt st = (Return tt, {| user_saved_lists := user_saved_lists st; DATA_FILE := f |}) /\
    load_data rt f = lists_value (user_saved_lists st).
Proof.
  intros Hnd Henc.
  pose proof (@lists_value_plain _ Hnd) as Hplain.
  pose proof (@encodable_text rt _ Hplain (@lists_value_encodable _ Henc) 0) as Htext.
  unfold save_data. fold (Json.dumps rt (lists_value (user_saved_lists st))) in Htext.
  rewrite Htext. eexists. split; [reflexivity|]. cbn [load_data].
  now rewrite (@loads_dumps rt _ Hplain).
Qed.

Lemma callback_keeps_store (user_id : pystr) (restaurant : SavedEntry) (st : state) :
  utf8_encodable user_id = true -> entry_encodable restaurant ->
  store_ok rt st -> store_ok rt (snd (callback rt user_id restaurant st)).
Proof.
  intros Hu Hr (Hnd & Henc & Hsync).
  unfold callback, bind, modify, gets, ret. cbn [user_saved_lists DATA_FILE].
  destruct (lists_find user_id (user_saved_lists st)) as [mine|] eqn:Efind.
  - destruct (existsb _ _); [destruct st; now repeat split|].
    match goal with
    | |- context [save_data rt ?s] =>
        destruct (@save_data_ok s) as (f & Hsave & Hload)
    end.
    + cbn [user_saved_lists]. now apply lists_set_NoDup.
    + cbn [user_saved_lists]. apply lists_set_encodable; [now left | | exact Henc].
      apply Forall_app. split; [now apply lists_get_encodable|].
      constructor; [exact Hr | constructor].
    + rewrite Hsave. cbn [snd user_saved_lists] in *. repeat split.
      * now apply lists_set_NoDup.
      * apply lists_set_encodable; [now left | | exact Henc].
        apply Forall_app. split; [now apply lists_get_encodable|].
        constructor; [exact Hr | constructor].
      * exact Hload.
  - rewrite lists_get_set_same. cbn [existsb app].
    assert (Hnd1 : NoDup (map fst (lists_set user_id [] (user_saved_lists st))))
      by now apply lists_set_NoDup.
    assert (Henc1 : lists_encodable (lists_set user_id [] (user_saved_lists st)))
      by (apply lists_set_encodable; [now left | constructor | exact Henc]).
    match goal with
    | |- context [save_data rt ?s] =>
        destruct (@save_data_ok s) as (f & Hsave & Hload)
    end.
    + cbn [user_saved_lists]. now apply lists_set_NoDup.
    + cbn [user_saved_lists]. apply lists_set_encodable; [now left | | exact Henc1].
      constructor; [exact Hr | constructor].
    + rewrite Hsave. cbn [snd user_saved_lists] in *. repeat split.
      * now apply lists_set_NoDup.
      * apply lists_set_encodable; [now left | | exact Henc1].
        constructor; [exact Hr | constructor].
      * exact Hload.
Qed.

Lemma delete_keeps_store (user_id query : pystr) (st : state) :
  store_ok rt st -> store_ok rt (snd (delete_saved rt user_id query st)).
Proof.
  intros (Hnd & Henc & Hsync).
  unfold delete_saved, bind, modify, gets, ret, lift.
  pose proof (lists_get_encodable user_id Henc) as Hmine.
  unfold lists_get in *.
  destruct (lists_find user_id (user_saved_lists st)) as [saved|] eqn:Efind;
    [|now repeat split].
  destruct saved as [|e0 saved0]; [now repeat split|].
  destruct (find _ (e0 :: saved0)) as [to_remove|]; [|now repeat split].
  destruct (list_remove to_remove (e0 :: saved0)) as [saved'|e] eqn:Erem; [|now repeat split].
  apply list_remove_split in Erem as (pre & y & post & Hsplit & -> & _ & _).
  rewrite Hsplit in Hmine. apply Forall_app in Hmine as [Hpre Hpost].
  assert (Hkept : Forall entry_encodable (pre ++ post)).
  { apply Forall_app. split; [exact Hpre | now inversion Hpost]. }
  match goal with
  | |- context [save_data rt ?s] =>
      destruct (@save_data_ok s) as (f & Hsave & Hload)
  end.
  - cbn [user_saved_lists]. now apply lists_set_NoDup.
  - cbn [user_saved_lists]. apply lists_set_encodable; [right; congruence | exact Hkept | exact Henc].
  - rewrite Hsave. cbn [snd user_saved_lists] in *. repeat split.
    + now apply lists_set_NoDup.
    + apply lists_set_encodable; [right; congruence | exact Hkept | exact Henc].
    + exact Hload.
Qed.

(** X14: the file follows the memory.  When the file holds the lists the bot
    has, it still does after any sequence of additions and deletions (of
    restaurants and user identifiers that can be written as UTF-8): whenever
    the bot stops, the next start reads back the lists as they were. *)
Theorem saved_file_follows_memory (actions : list action) (st : state) :
  store_ok rt st -> Forall action_encodable actions ->
  store_ok rt (perform_all rt actions st).
Proof.
  unfold perform_all. intros Hok Hall. revert st Hok.
  induction Hall as [|a actions Ha _ IH]; intros st Hok; cbn [fold_left]; [exact Hok|].
  apply IH. destruct a as [user_id restaurant | user_id query]; cbn [perform].
  - destruct Ha as [Hu Hr]. now apply callback_keeps_store.
  - now apply delete_keeps_store.
Qed.

End Store.

(** From the first start on: two restaurants saved, one deleted; the file
    holds the one that is left. *)
Lemma saved_file_follows_memory_witness :
  in_sync Sample.rt
    (Bot.perform_all Sample.rt
       [Bot.Save (lit "42") Sample.beef_soup_shop;
        Bot.Save (lit "42") Sample.du_hsiao_yueh;
        Bot.Delete (lit "42") Sample.beef]
       Sample.nothing_saved).
Proof.
  apply (@saved_file_follows_memory Sample.rt
           [Bot.Save (lit "42") Sample.beef_soup_shop;
            Bot.Save (lit "42") Sample.du_hsiao_yueh;
            Bot.Delete (lit "42") Sample.beef]
           Sample.nothing_saved).
  - repeat split; constructor.
  - repeat constructor.
Defined.

(** A third restaurant for user 42. *)
Lemma callback_appends_witness :
  Bot.lists_get (lit "42")
    (Bot.user_saved_lists
       (snd (Bot.callback Sample.rt (lit "42") Sample.noodle_house Sample.two_saved)))
  = [Sample.beef_soup_shop; Sample.du_hsiao_yueh; Sample.noodle_house].
Proof.
  apply (@callback_appends Sample.rt (lit "42") Sample.noodle_house Sample.two_saved).
  intros (saved & [<- | [<- | []]] & Heq); discriminate.
Defined.

(** The third restaurant saved for user 42, then deleted by its name: the two
    that were there are left. *)
Lemma add_then_delete_restores_witness :
  Bot.lists_get (lit "42")
    (Bot.user_saved_lists
       (snd (Bot.delete_saved Sample.rt (lit "42") (Bot.name Sample.noodle_house)
               (snd (Bot.callback Sample.rt (lit "42") Sample.noodle_house
                       Sample.two_saved)))))
  = [Sample.beef_soup_shop; Sample.du_hsiao_yueh].
Proof.
  apply (@add_then_delete_restores Sample.rt (lit "42") Sample.noodle_house Sample.two_saved).
  repeat constructor.
Defined.

(** ** The messages of [/eat] *)

Section Chunks.

Import Bot.

Context {V : Type}.

Lemma firstn_next {A} (a b : nat) (s : list A) :
  firstn (a + b) s = firstn a s ++ firstn b (skipn a s).
Proof.
  revert s. induction a as [|a IH]; intros s; [reflexivity|].
  destruct s as [|x s]; cbn [Nat.add firstn skipn app]; [now rewrite firstn_nil|].
  now rewrite IH.
Qed.

(** The first [m] chunks are the first [m * step] characters. *)
Lemma concat_chunks (step m : nat) (s : pystr) :
  concat (map (fun i => firstn step (skipn i s)) (map (fun k => (k * step)%nat) (seq 0 m)))
  = firstn (m * step) s.
Proof.
  induction m as [|m IH]; [reflexivity|].
  rewrite seq_S, !map_app, concat_app, IH. cbn [map concat Nat.add].
  rewrite app_nil_r. replace (S m * step)%nat with (m * step + step)%nat by lia.
  now rewrite firstn_next.
Qed.

Lemma chunks_concat (ans : pystr) : concat (chunks ans) = ans.
Proof.
  unfold chunks, range_step. rewrite concat_chunks. apply firstn_all2.
  pose proof (Nat.div_mod_eq (length ans + 1900 - 1) 1900) as Hdiv.
  pose proof (Nat.mod_upper_bound (length ans + 1900 - 1) 1900) as Hmod. lia.
Qed.

Lemma chunks_short (ans : pystr) : Forall (fun c => (length c <= 1900)%nat) (chunks ans).
Proof.
  unfold chunks. apply Forall_map. apply Forall_forall. intros i _. apply firstn_le_length.
Qed.

Lemma chunks_not_nil (ans : pystr) : ans <> [] -> chunks ans <> [].
Proof.
  intros Hne Hnil. pose proof (chunks_concat ans) as Hc. rewrite Hnil in Hc.
  cbn in Hc. congruence.
Qed.

(** The view goes with the last chunk and with no other. *)
Lemma send_chunks_last (l : list pystr) (view : option V) :
  l <> [] ->
  send_chunks l view = map (fun c => (c, None)) (removelast l) ++ [(last l [], view)].
Proof.
  induction l as [|c l IH]; [congruence|]. intros _.
  destruct l as [|c' l']; [reflexivity|].
  change (send_chunks (c :: c' :: l') view) with ((c, None) :: send_chunks (c' :: l') view).
  rewrite IH by discriminate. reflexivity.
Qed.

Lemma send_chunks_texts (l : list pystr) (view : option V) :
  map fst (send_chunks l view) = l.
Proof.
  induction l as [|c l IH]; [reflexivity|].
  destruct l as [|c' l']; [reflexivity|].
  change (send_chunks (c :: c' :: l') view) with ((c, None) :: send_chunks (c' :: l') view).
  cbn [map fst]. now rewrite IH.
Qed.

(** X15: the messages of an answer, put end to end, are the answer; none is
    longer than 1900 characters; the view goes with the last message and with
    no other. *)
Theorem followups_split_the_answer (ans : pystr) (view : option V) :
  concat (map fst (followups ans view)) = ans /\
  Forall (fun m => (length (fst m) <= 1900)%nat) (followups ans view) /\
  exists before final,
    followups ans view = map (fun c => (c, None)) before ++ [(final, view)].
Proof.
  unfold followups. destruct (1900 <? length ans)%nat eqn:E.
  - apply Nat.ltb_lt in E.
    assert (Hne : chunks ans <> []).
    { apply chunks_not_nil. intros ->. cbn in E. lia. }
    split; [now rewrite send_chunks_texts, chunks_concat|]. split.
    + apply Forall_forall. intros m Hin.
      assert (Hfst : In (fst m) (map fst (send_chunks (chunks ans) view)))
        by now apply in_map.
      rewrite send_chunks_texts in Hfst.
      pose proof (chunks_short ans) as Hall. rewrite Forall_forall in Hall. now apply Hall.
    + exists (removelast (chunks ans)), (last (chunks ans) []). now apply send_chunks_last.
  - apply Nat.ltb_ge in E. cbn [map fst concat]. rewrite app_nil_r.
    split; [reflexivity|]. split; [constructor; [exact E | constructor]|].
    now exists [], ans.
Qed.

End Chunks.

(** ** The language model and the analysis of a request *)

Section Text.

Lemma lstrip_by_snoc (f : N -> bool) (l : pystr) (c : N) :
  f c = false -> lstrip_by f (l ++ [c]) = lstrip_by f l ++ [c].
Proof.
  intros Hc. induction l as [|x l IH]; cbn [app lstrip_by]; [now rewrite Hc|].
  destruct (f x); [exact IH | reflexivity].
Qed.

(** [rstrip] leaves the head of a string that starts with a character it
    does not remove. *)
Lemma rstrip_by_head (f : N -> bool) (c : N) (s : pystr) :
  f c = false -> rstrip_by f (c :: s) = c :: rstrip_by f s.
Proof.
  intros Hc. unfold rstrip_by. cbn [rev].
  now rewrite lstrip_by_snoc, rev_app_distr by exact Hc.
Qed.

Lemma rstrip_by_snoc (f : N -> bool) (s : pystr) (c : N) :
  f c = true -> rstrip_by f (s ++ [c]) = rstrip_by f s.
Proof.
  intros Hc. unfold rstrip_by. rewrite rev_app_distr. cbn [rev app lstrip_by].
  now rewrite Hc.
Qed.

Lemma rstrip_by_last (f : N -> bool) (s : pystr) (c : N) :
  f c = false -> rstrip_by f (s ++ [c]) = s ++ [c].
Proof.
  intros Hc. unfold rstrip_by. rewrite rev_app_distr. cbn [rev app lstrip_by].
  rewrite Hc. cbn [rev]. now rewrite rev_involutive.
Qed.

(** [replace] passes over what holds no first character of [old]. *)
Lemma replace_over (c0 : N) (old new a r : pystr) :
  ~ In c0 a ->
  replace_from (c0 :: old) new 0 (a ++ r) = a ++ replace_from (c0 :: old) new 0 r.
Proof.
  intros Hnot. induction a as [|c a IH]; [reflexivity|].
  cbn [app replace_from is_prefix].
  assert (Hc : (c0 =? c)%N = false).
  { apply N.eqb_neq. intros ->. apply Hnot. now left. }
  rewrite Hc. cbn [andb]. rewrite IH; [reflexivity|].
  intros Hin. apply Hnot. now right.
Qed.

Lemma replace_nothing (c0 : N) (old new a : pystr) :
  ~ In c0 a -> str_replace (c0 :: old) new a = a.
Proof.
  intros Hnot. unfold str_replace.
  rewrite <- (app_nil_r a) at 1. rewrite replace_over by exact Hnot.
  cbn [replace_from]. apply app_nil_r.
Qed.

Lemma is_prefix_app (a r : pystr) : is_prefix a (a ++ r) = true.
Proof.
  induction a as [|c a IH]; [reflexivity|]. cbn [app is_prefix]. now rewrite N.eqb_refl.
Qed.

Lemma replace_skip (old new a r : pystr) :
  replace_from old new (length a) (a ++ r) = replace_from old new 0 r.
Proof.
  induction a as [|c a IH]; [reflexivity|]. cbn [length app replace_from]. exact IH.
Qed.

(** [replace] at an occurrence of [old]. *)
Lemma replace_hit (c0 : N) (old new r : pystr) :
  replace_from (c0 :: old) new 0 ((c0 :: old) ++ r)
  = new ++ replace_from (c0 :: old) new 0 r.
Proof.
  change ((c0 :: old) ++ r) with (c0 :: (old ++ r)).
  cbn [replace_from]. change (c0 :: (old ++ r)) with ((c0 :: old) ++ r).
  rewrite is_prefix_app. cbn [length Nat.sub]. rewrite Nat.sub_0_r.
  now rewrite replace_skip.
Qed.

End Text.

Section Model.

Import Bot.

Variable rt : runtime.
Variable cfg : Config.

Lemma llm_generate_total (prompt : pystr) (w : world) :
  exists answer w', llm_generate rt cfg prompt w = (Return answer, w').
Proof.
  unfold llm_generate. destruct (LLM_API_KEY cfg); [unfold ret; eauto|].
  apply try_except_total.
Qed.

(** What [llm_generate] answers when the model cannot be reached. *)
Lemma llm_generate_unavailable (prompt : pystr) (w : world) :
  llm_unavailable cfg w ->
  exists tail w',
    llm_generate rt cfg prompt w = (Return (PStr tail), w') /\
    (tail = msg_llm_key_missing \/ exists e, tail = msg_connection_error rt e).
Proof.
  intros H. unfold llm_generate.
  destruct (LLM_API_KEY cfg) as [|c key] eqn:Ekey.
  { do 2 eexists. split; [reflexivity | now left]. }
  destruct H as [H | [H | (e & rest & H)]]; [congruence | |];
    unfold try_except, bind, http_post_json, requests_get_json, lift, ret; rewrite H;
    do 2 eexists; (split; [reflexivity|]); right; eauto.
Qed.


(** A text that starts with a character no JSON document starts with is
    refused by [json.loads]. *)
Lemma loads_foreign (c : N) (u : pystr) :
  opens_json c = false -> Json.loads rt (c :: u) = None.
Proof.
  unfold opens_json. intros H.
  do 11 (apply orb_false_iff in H as [H ?]).
  assert (Hsym : forall k, (c =? k)%N = false -> (k =? c)%N = false)
    by (intros k Hk; now rewrite N.eqb_sym).
  assert (H48 : (c =? 48)%N = false).
  { apply N.eqb_neq. intros ->. discriminate. }
  unfold Json.loads. cbn [is_prefix]. rewrite (Hsym 65279%N) by assumption. cbn [andb].
  cbn [Json.skip_ws]. rewrite H.
  replace (2 * length (c :: u) + 2)%nat with (S (2 * length u + 3))
    by (cbn [length]; lia).
  cbn [Json.parse_value].
  repeat match goal with
         | Hk : (c =? 34)%N = false |- _ => rewrite Hk; clear Hk
         | Hk : (c =? 123)%N = false |- _ => rewrite Hk; clear Hk
         | Hk : (c =? 91)%N = false |- _ => rewrite Hk; clear Hk
         end.
  unfold Json.scan_atom.
  change (lit "null") with [110; 117; 108; 108]%N.
  change (lit "true") with [116; 114; 117; 101]%N.
  change (lit "false") with [102; 97; 108; 115; 101]%N.
  change (lit "NaN") with [78; 97; 78]%N.
  change (lit "Infinity") with [73; 110; 102; 105; 110; 105; 116; 121]%N.
  change (lit "-Infinity") with [45; 73; 110; 102; 105; 110; 105; 116; 121]%N.
  cbn [Json.strip_prefix].
  rewrite (Hsym 110%N), (Hsym 116%N), (Hsym 102%N), (Hsym 78%N), (Hsym 73%N), (Hsym 45%N)
    by assumption.
  unfold Json.scan_number.
  match goal with Hk : (c =? 45)%N = false |- _ => rewrite Hk end.
  now rewrite H48, H1.
Qed.

(** A text that starts with such a character is no JSON for
    [analyze_request], fences or not. *)
Lemma foreign_text_is_no_json (c : N) (s : pystr) :
  c <> 96%N -> is_space c = false -> opens_json c = false ->
  exists r,
    py_replace (PStr (c :: s)) (lit "```json") [] = Return (PStr r) /\
    exists r',
      py_replace (PStr r) (lit "```") [] = Return (PStr r') /\
      json_loads rt (PStr (str_strip r')) = Raise ValueError.
Proof.
  intros H96 Hspace Hopen.
  assert (Hhead : forall old t, str_replace (96%N :: old) [] (c :: t)
                                = c :: str_replace (96%N :: old) [] t).
  { intros old t. unfold str_replace.
    apply (@replace_over 96%N old [] [c] t). intros [Hc | []]. congruence. }
  change (lit "```json") with (96%N :: [96; 96; 106; 115; 111; 110]%N).
  change (lit "```") with (96%N :: [96; 96]%N).
  cbn [py_replace]. eexists. split; [reflexivity|]. eexists. split; [reflexivity|].
  rewrite !Hhead. unfold str_strip. cbn [lstrip_by]. rewrite Hspace.
  rewrite rstrip_by_head by exact Hspace.
  unfold json_loads. now rewrite loads_foreign.
Qed.

(** The two messages of [llm_generate] are such texts. *)
Lemma message_is_no_json (tail : pystr) :
  tail = msg_llm_key_missing \/ (exists e, tail = msg_connection_error rt e) ->
  exists r,
    py_replace (PStr tail) (lit "```json") [] = Return (PStr r) /\
    exists r',
      py_replace (PStr r) (lit "```") [] = Return (PStr r') /\
      json_loads rt (PStr (str_strip r')) = Raise ValueError.
Proof.
  intros [-> | (e & ->)].
  - change msg_llm_key_missing
      with (10060%N :: lit " LLM_API_KEY " ++ [26410; 35373; 23450]%N).
    apply foreign_text_is_no_json; [discriminate | reflexivity | reflexivity].
  - change (msg_connection_error rt e)
      with (36899%N :: [32218; 37679; 35492]%N ++ lit ": " ++ str_exn rt e).
    apply foreign_text_is_no_json; [discriminate | reflexivity | reflexivity].
Qed.

(** X17: when the model cannot be reached, the analysis is the stored context
    of the user, and the default analysis (Tainan, food) for a user who has
    none; nothing is raised. *)
Theorem analysis_falls_back (user_text : pystr) (current_context : pyval) (w : world) :
  context_or_none current_context ->
  llm_unavailable cfg w ->
  fst (analyze_request rt cfg user_text current_context w)
  = Return (if truthy current_context then current_context else default_analysis).
Proof.
  intros Hctx Hun. unfold analyze_request.
  assert (Hstr : exists context_str,
            (if truthy current_context
             then (location <- lift (py_get current_context (lit "location") PNone) ;;
                   keyword <- lift (py_get current_context (lit "keyword") PNone) ;;
                   ret (context_line rt location keyword))%io
             else ret no_context) w = (Return context_str, w)).
  { destruct Hctx as [-> | (d & ->)]; [exists no_context; reflexivity|].
    destruct (truthy (PDict d)); [|exists no_context; reflexivity].
    cbn [py_get]. unfold bind, lift, ret. eauto. }
  destruct Hstr as (context_str & Hstr).
  erewrite bind_step by exact Hstr.
  destruct (llm_generate_unavailable (analysis_prompt context_str user_text) Hun)
    as (tail & w' & Hgen & Htail).
  destruct (message_is_no_json Htail) as (r & Hr & r' & Hr' & Hload).
  unfold try_except. erewrite bind_step by exact Hgen.
  unfold bind, lift, ret. rewrite Hr, Hr'. cbn [py_strip]. rewrite Hload.
  now destruct (truthy current_context).
Qed.

(** The text of an object starts with an opening brace and ends with a
    closing one. *)
Lemma dumps_dict_braces (d : list (pystr * pyval)) :
  exists body, Json.dumps rt (PDict d) = 123%N :: body ++ [125%N].
Proof.
  unfold Json.dumps. destruct d as [|[k x] kvs].
  - now exists [].
  - cbn [Json.encode]. change (lit "{") with [123%N]. change (lit "}") with [125%N].
    cbn [app]. eexists. rewrite !app_assoc. reflexivity.
Qed.

(** X18: when the model answers with the JSON text of an object, alone or
    between the fences [```json] and [```], the analysis is that object.
    This is for an object of strings, lists and objects with distinct keys,
    whose text holds no backquote, nested at most 32 deep: far below the
    depth at which the interpreter gives up with [RecursionError], which
    the bare [except] would turn into the fallback. *)
Theorem analysis_reads_the_answer (user_text : pystr) (current_context : pyval)
    (d answer : list (pystr * pyval)) (rest : list (res pyval)) (w : world) :
  context_or_none current_context ->
  LLM_API_KEY cfg <> [] ->
  json_plain (PDict d) ->
  (nesting (PDict d) <= 32)%nat ->
  ~ In 96%N (Json.dumps rt (PDict d)) ->
  upstream w = Return (PDict answer) :: rest ->
  dict_find (lit "response") answer = Some (PStr (Json.dumps rt (PDict d))) \/
  dict_find (lit "response") answer
  = Some (PStr (lit "```json" ++ [10%N] ++ Json.dumps rt (PDict d) ++ [10%N] ++ lit "```")) ->
  fst (analyze_request rt cfg user_text current_context w) = Return (PDict d).
Proof.
  intros Hctx Hkey Hplain _ Hquote Hup Hresp. unfold analyze_request.
  assert (Hstr : exists context_str,
            (if truthy current_context
             then (location <- lift (py_get current_context (lit "location") PNone) ;;
                   keyword <- lift (py_get current_context (lit "keyword") PNone) ;;
                   ret (context_line rt location keyword))%io
             else ret no_context) w = (Return context_str, w)).
  { destruct Hctx as [-> | (c & ->)]; [exists no_context; reflexivity|].
    destruct (truthy (PDict c)); [|exists no_context; reflexivity].
    cbn [py_get]. unfold bind, lift, ret. eauto. }
  destruct Hstr as (context_str & Hstr).
  erewrite bind_step by exact Hstr.
  destruct (dumps_dict_braces d) as (body & Hbody).
  pose proof (@loads_dumps rt (PDict d) Hplain) as Hload.
  remember (Json.dumps rt (PDict d)) as t eqn:Ht. clear Ht.
  assert (Hstrip : str_strip t = t).
  { unfold str_strip. rewrite Hbody.
    change (lstrip_by is_space (123%N :: body ++ [125%N])) with ((123%N :: body) ++ [125%N]).
    now rewrite rstrip_by_last. }
  assert (Hgen : forall text, text <> [] ->
            dict_find (lit "response") answer = Some (PStr text) ->
            exists w', llm_generate rt cfg (analysis_prompt context_str user_text) w
                       = (Return (PStr text), w')).
  { intros text Hne Hfind. unfold llm_generate.
    destruct (LLM_API_KEY cfg); [congruence|].
    unfold try_except, bind, http_post_json, requests_get_json, lift, ret. rewrite Hup.
    cbn [py_get]. rewrite Hfind. cbn [truthy]. destruct text; [congruence|]. eauto. }
  change (lit "```json") with (96%N :: [96; 96; 106; 115; 111; 110]%N) in *.
  change (lit "```") with (96%N :: [96; 96]%N) in *.
  unfold try_except.
  destruct Hresp as [Hresp | Hresp].
  - destruct (Hgen t) as (w' & Hrun); [rewrite Hbody; discriminate | exact Hresp |].
    erewrite bind_step by exact Hrun.
    unfold bind, lift, ret. cbn [py_replace].
    rewrite (@replace_nothing 96%N [96; 96; 106; 115; 111; 110]%N [] t Hquote).
    rewrite (@replace_nothing 96%N [96; 96]%N [] t Hquote).
    cbn [py_strip]. rewrite Hstrip.
    unfold json_loads. now rewrite Hload.
  - edestruct Hgen as (w' & Hrun); [|exact Hresp|]; [cbn [app]; discriminate|].
    erewrite bind_step by exact Hrun.
    unfold bind, lift, ret. cbn [py_replace].
    assert (Hfirst : str_replace (96%N :: [96; 96; 106; 115; 111; 110]%N) []
                       ((96%N :: [96; 96; 106; 115; 111; 110]%N) ++ [10%N] ++ t ++ [10%N]
                        ++ 96%N :: [96; 96]%N)
                     = [10%N] ++ t ++ [10%N] ++ 96%N :: [96; 96]%N).
    { unfold str_replace. rewrite replace_hit. cbn [app].
      replace (10%N :: t ++ 10%N :: [96; 96; 96]%N)
        with ((10%N :: t ++ [10%N]) ++ [96; 96; 96]%N)
        by (cbn [app]; now rewrite <- app_assoc).
      rewrite replace_over; [reflexivity|].
      intros [Hin | Hin]; [discriminate|].
      apply in_app_or in Hin as [Hin | [Hin | []]]; [now apply Hquote | discriminate]. }
    rewrite Hfirst.
    assert (Hsecond : str_replace (96%N :: [96; 96]%N) []
                        ([10%N] ++ t ++ [10%N] ++ 96%N :: [96; 96]%N)
                      = 10%N :: t ++ [10%N]).
    { unfold str_replace.
      replace ([10%N] ++ t ++ [10%N] ++ 96%N :: [96; 96]%N)
        with ((10%N :: t ++ [10%N]) ++ (96%N :: [96; 96]%N) ++ [])
        by (cbn [app]; now rewrite <- app_assoc).
      rewrite replace_over.
      - rewrite replace_hit. cbn [app replace_from]. now rewrite app_nil_r.
      - intros [Hin | Hin]; [discriminate|].
        apply in_app_or in Hin as [Hin | [Hin | []]]; [now apply Hquote | discriminate]. }
    rewrite Hsecond. cbn [py_strip].
    assert (Hstrip2 : str_strip (10%N :: t ++ [10%N]) = t).
    { unfold str_strip.
      change (lstrip_by is_space (10%N :: t ++ [10%N])) with (lstrip_by is_space (t ++ [10%N])).
      rewrite Hbody.
      change (lstrip_by is_space ((123%N :: body ++ [125%N]) ++ [10%N]))
        with (((123%N :: body) ++ [125%N]) ++ [10%N]).
      rewrite rstrip_by_snoc by reflexivity. now rewrite rstrip_by_last. }
    rewrite Hstrip2. unfold json_loads. now rewrite Hload.
Qed.

End Model.

(** ** From the analysis to the answer, and the contexts of [/eat] *)

Section Chain.

Import Bot.

Variable rt : runtime.
Variable cfg : Config.

Lemma str_contains_app_r (sub a b : pystr) :
  str_contains sub b = true -> str_contains sub (a ++ b) = true.
Proof.
  intros H. induction a as [|c a IH]; [exact H|].
  cbn [app str_contains]. rewrite IH. apply orb_true_r.
Qed.

(** [run_food_chain] for an analysis that is a dict, once [find_food] has
    returned. *)
Lemma run_food_chain_found (params : list (pystr * pyval)) (original_text : pystr)
    (exclude_ids : list pyval) (w w1 : world) (out : pystr) (ids data : list pyval) :
  find_food rt (food cfg) (chain_keyword params) (chain_location params)
    (chain_time_limit params) default_min_rating default_min_reviews (Some exclude_ids) w
  = (Return (out, ids, data), w1) ->
  run_food_chain rt cfg (PDict params) original_text exclude_ids w
  = if str_contains (lit "Error") out ||
       str_contains (lit "Found places, but none") out ||
       str_contains already_recommended out
    then (Return (PStr out, [], []), w1)
    else bind (llm_generate rt cfg (guide_prompt rt original_text (chain_keyword params) out))
              (fun llm_response => ret (llm_response, ids, data)) w1.
Proof.
  intros Hfind. unfold run_food_chain. cbn [py_get].
  unfold bind at 1. unfold lift at 1. unfold bind at 1. unfold lift at 1.
  unfold bind at 1. unfold lift at 1.
  fold (chain_location params) (chain_keyword params) (chain_time_limit params).
  unfold chain_location, chain_keyword, chain_time_limit, field_or in *.
  erewrite bind_step by exact Hfind. cbn [fst snd].
  now destruct (_ || _ || _).
Qed.

(** X19: of the failures of [find_food], the missing key, the location not
    found, the exception, "none within the time" and "already recommended"
    are the answer as they are, with no call of the language model; "no
    results" and "no match" are handed to the language model like a list of
    restaurants, and what it says is the answer. *)
Theorem failures_and_the_guide (params : list (pystr * pyval)) (original_text : pystr)
    (exclude_ids : list pyval) (w w1 : world) (msg : pystr) :
  find_food rt (food cfg) (chain_keyword params) (chain_location params)
    (chain_time_limit params) default_min_rating default_min_reviews (Some exclude_ids) w
  = (Return (failed msg), w1) ->
  (plain_failure rt params msg ->
   run_food_chain rt cfg (PDict params) original_text exclude_ids w
   = (Return (PStr msg, [], []), w1)) /\
  (guided_failure msg ->
   forall answer w2,
     llm_generate rt cfg (guide_prompt rt original_text (chain_keyword params) msg) w1
     = (Return answer, w2) ->
     run_food_chain rt cfg (PDict params) original_text exclude_ids w
     = (Return (answer, [], []), w2)).
Proof.
  intros Hfind.
  rewrite (@run_food_chain_found params original_text exclude_ids w w1 msg [] [] Hfind).
  split.
  - intros [-> | [-> | [(e & ->) | [-> | ->]]]].
    + reflexivity.
    + reflexivity.
    + reflexivity.
    + assert (H : str_contains (lit "Found places, but none")
                    (msg_none_within rt (chain_time_limit params)) = true) by reflexivity.
      rewrite H, orb_true_r. reflexivity.
    + assert (H : str_contains already_recommended
                    (msg_already_seen rt (chain_keyword params)) = true).
      { unfold msg_already_seen. do 2 apply str_contains_app_r. reflexivity. }
      rewrite H, orb_true_r. reflexivity.
  - intros [-> | ->] answer w2 Hgen.
    + change (str_contains (lit "Error") msg_no_results ||
              str_contains (lit "Found places, but none") msg_no_results ||
              str_contains already_recommended msg_no_results) with false.
      cbv iota. now erewrite bind_step by exact Hgen.
    + change (str_contains (lit "Error") msg_no_match ||
              str_contains (lit "Found places, but none") msg_no_match ||
              str_contains already_recommended msg_no_match) with false.
      cbv iota. now erewrite bind_step by exact Hgen.
Qed.

(** The identifiers [run_food_chain] returns are not in the exclude list. *)
Lemma run_food_chain_ids (params : pyval) (original_text : pystr) (exclude_ids : list pyval)
    (w w' : world) (ans : pyval) (new_ids data : list pyval) :
  run_food_chain rt cfg params original_text exclude_ids w = (Return (ans, new_ids, data), w') ->
  Forall (fun id => py_in id exclude_ids = false) new_ids.
Proof.
  unfold run_food_chain. intros H.
  apply bind_Return in H as (location & w1 & _ & H).
  apply bind_Return in H as (keyword & w2 & _ & H).
  apply bind_Return in H as (time_limit & w3 & _ & H).
  apply bind_Return in H as ([[out ids] data'] & w4 & Hfind & H). cbn [fst snd] in H.
  destruct (_ || _ || _).
  - injection H as _ <- _ _. constructor.
  - apply bind_Return in H as (llm_response & w5 & _ & H). injection H as _ <- _ _.
    eapply find_food_ids_not_excluded; eassumption.
Qed.

Lemma contexts_find_set_same (user_id : Z) (c : pyval) (contexts : list (Z * pyval)) :
  contexts_find user_id (contexts_set user_id c contexts) = Some c.
Proof.
  induction contexts as [|[u c0] contexts IH]; cbn [contexts_set contexts_find].
  - now rewrite Z.eqb_refl.
  - destruct (user_id =? u)%Z eqn:E; cbn [contexts_find]; now rewrite E.
Qed.

Lemma contexts_set_ok (user_id : Z) (c : pyval) (contexts : list (Z * pyval)) :
  context_ok c -> contexts_ok contexts -> contexts_ok (contexts_set user_id c contexts).
Proof.
  intros Hc Hall. induction Hall as [|[u c0] contexts H0 Htail IH]; cbn [contexts_set].
  - constructor; [exact Hc | constructor].
  - destruct (user_id =? u)%Z; constructor; cbn [snd] in *; auto.
Qed.

Lemma contexts_find_ok (user_id : Z) (c : pyval) (contexts : list (Z * pyval)) :
  contexts_ok contexts -> contexts_find user_id contexts = Some c -> context_ok c.
Proof.
  intros Hall. induction Hall as [|[u c0] contexts H0 _ IH]; cbn [contexts_find]; [discriminate|].
  destruct (user_id =? u)%Z; [now intros [= <-] | exact IH].
Qed.

(** What [remember] stores. *)
Lemma remember_stored (analysis : pyval) (exclude_ids new_ids : list pyval)
    (stored : option pyval) :
  remember analysis exclude_ids new_ids = Return stored ->
  (new_ids = [] /\ stored = None) \/
  exists a,
    analysis = PDict a /\
    stored = Some (PDict (dict_set (lit "seen_ids") (PList (exclude_ids ++ new_ids)) a)).
Proof.
  unfold remember. destruct new_ids as [|id new_ids]; [intros [= <-]; now left|].
  destruct analysis as [| | | | | |a]; try discriminate.
  cbn [py_setitem rbind]. intros [= <-]. right. now exists a.
Qed.

(** X20: the contexts stay well formed: after [/eat], every stored context is
    still a dict whose ["seen_ids"] is a list, so that the exclude list of the
    next request is a list. *)
Theorem eat_keeps_contexts (user_id : Z) (text : pystr) (contexts contexts' : list (Z * pyval))
    (w w' : world) (ans : pyval) (data : list pyval) :
  contexts_ok contexts ->
  eat rt cfg user_id text contexts w = (Return (ans, data, contexts'), w') ->
  contexts_ok contexts'.
Proof.
  intros Hok. unfold eat. intros H.
  apply bind_Return in H as (analysis & w1 & _ & H).
  apply bind_Return in H as (exclude & w2 & _ & H).
  apply bind_Return in H as (exclude_ids & w3 & _ & H).
  apply bind_Return in H as ([[ans' new_ids] data'] & w4 & _ & H). cbn [fst snd] in H.
  apply bind_Return in H as (stored & w5 & Hst & H).
  apply lift_Return in Hst as [Hst _]. injection H as _ _ <- _.
  apply remember_stored in Hst as [[_ ->] | (a & _ & ->)]; [exact Hok|].
  apply contexts_set_ok; [|exact Hok].
  do 2 eexists. split; [reflexivity | apply dict_find_set_same].
Qed.

(** X21: the identifiers stored for a user only grow by new ones.  A user
    who had a stored context still has one after [/eat]; when it is for the
    same location and keyword as before, its identifiers are those stored
    before, followed by new ones, none of which was among them.  (This is
    about what is stored: an answer that was given without identifiers, as
    the failures of [run_food_chain] are, stores nothing.) *)
Theorem eat_stores_only_new_ids (user_id : Z) (text : pystr)
    (contexts contexts' : list (Z * pyval)) (prev : list (pystr * pyval))
    (w w' : world) (ans : pyval) (data : list pyval) :
  contexts_ok contexts ->
  contexts_find user_id contexts = Some (PDict prev) ->
  eat rt cfg user_id text contexts w = (Return (ans, data, contexts'), w') ->
  exists now,
    contexts_find user_id contexts' = Some (PDict now) /\
    (same_request now prev = true ->
     exists new_ids,
       seen_ids_of now = seen_ids_of prev ++ new_ids /\
       Forall (fun id => py_in id (seen_ids_of prev) = false) new_ids).
Proof.
  intros Hok Hprev. unfold eat. rewrite Hprev. intros H.
  destruct (contexts_find_ok _ Hok Hprev) as (d & seen & [= <-] & Hseen).
  apply bind_Return in H as (analysis & w1 & _ & H).
  apply bind_Return in H as (exclude & w2 & Hex & H).
  apply lift_Return in Hex as [Hex _].
  apply bind_Return in H as (exclude_ids & w3 & Hlist & H).
  apply lift_Return in Hlist as [Hlist _].
  apply bind_Return in H as ([[ans' new_ids] data'] & w4 & Hrun & H). cbn [fst snd] in H.
  apply bind_Return in H as (stored & w5 & Hst & H).
  apply lift_Return in Hst as [Hst _]. injection H as _ _ <- _.
  apply run_food_chain_ids in Hrun.
  apply remember_stored in Hst as [[-> ->] | (a & -> & ->)].
  - exists prev. split; [exact Hprev|]. intros _. exists []. now rewrite app_nil_r.
  - eexists. split; [apply contexts_find_set_same|].
    unfold same_request. rewrite !(@field_set_other _ (lit "seen_ids")) by discriminate.
    fold (same_request a prev). intros Hsame.
    assert (Htruthy : truthy (PDict prev) = true).
    { destruct prev; [discriminate | reflexivity]. }
    rewrite (@current_exclude_ids_eq a prev Htruthy), Hsame, Hseen in Hex.
    injection Hex as <-. injection Hlist as <-.
    exists new_ids. unfold seen_ids_of. rewrite dict_find_set_same, Hseen.
    split; [reflexivity | exact Hrun].
Qed.

Lemma find_food_total (self : Tools)
    (keyword location max_travel_time min_rating min_reviews : pyval)
    (exclude_ids : option (list pyval)) (w : world) :
  exists out w',
    find_food rt self keyword location max_travel_time min_rating min_reviews exclude_ids w
    = (Return out, w').
Proof.
  unfold find_food. destruct (GOOGLE_API_KEY self); [unfold ret; eauto|].
  destruct (get_coordinates_total self location w) as (lat & lng & w1 & Hloc).
  erewrite bind_step by exact Hloc. cbn [fst snd].
  destruct (negb (truthy lat)); [unfold ret; eauto|].
  apply try_except_total.
Qed.

Lemma analyze_request_total (text : pystr) (current_context : pyval) (w : world) :
  context_or_none current_context ->
  exists analysis w', analyze_request rt cfg text current_context w = (Return analysis, w').
Proof.
  intros Hctx. unfold analyze_request.
  assert (Hstr : exists context_str,
            (if truthy current_context
             then (location <- lift (py_get current_context (lit "location") PNone) ;;
                   keyword <- lift (py_get current_context (lit "keyword") PNone) ;;
                   ret (context_line rt location keyword))%io
             else ret no_context) w = (Return context_str, w)).
  { destruct Hctx as [-> | (c & ->)]; [exists no_context; reflexivity|].
    destruct (truthy (PDict c)); [|exists no_context; reflexivity].
    cbn [py_get]. unfold bind, lift, ret. eauto. }
  destruct Hstr as (context_str & Hstr).
  erewrite bind_step by exact Hstr.
  unfold try_except.
  match goal with
  | |- context [let (_, _) := ?body w in _] => destruct (body w) as [[a|e] w1]
  end; [eauto|].
  destruct (truthy current_context); unfold ret; eauto.
Qed.

Lemma run_food_chain_total (params : list (pystr * pyval)) (original_text : pystr)
    (exclude_ids : list pyval) (w : world) :
  exists answer w',
    run_food_chain rt cfg (PDict params) original_text exclude_ids w = (Return answer, w').
Proof.
  destruct (@find_food_total (food cfg) (chain_keyword params) (chain_location params)
              (chain_time_limit params) default_min_rating default_min_reviews
              (Some exclude_ids) w) as ([[out ids] data] & w1 & Hfind).
  rewrite (@run_food_chain_found params original_text exclude_ids w w1 out ids data Hfind).
  destruct (_ || _ || _); [eauto|].
  destruct (@llm_generate_total rt cfg
              (guide_prompt rt original_text (chain_keyword params) out) w1)
    as (answer & w2 & Hgen).
  erewrite bind_step by exact Hgen. unfold ret. eauto.
Qed.

Lemma run_food_chain_no_object (params : pyval) (original_text : pystr)
    (exclude_ids : list pyval) (w : world) :
  (forall a, params <> PDict a) ->
  run_food_chain rt cfg params original_text exclude_ids w = (Raise AttributeError, w).
Proof.
  intros Hno. unfold run_food_chain.
  destruct params as [| | | | | |a]; try reflexivity.
  now destruct (Hno a).
Qed.

Lemma exclude_ids_no_object (analysis : pyval) (d : list (pystr * pyval)) :
  (forall a, analysis <> PDict a) ->
  dict_find (lit "seen_ids") d <> None ->
  current_exclude_ids analysis (PDict d) = Raise AttributeError.
Proof.
  intros Hno Hd. unfold current_exclude_ids.
  replace (truthy (PDict d)) with true by (destruct d; [now destruct Hd | reflexivity]).
  destruct analysis as [| | | | | |a]; try reflexivity.
  now destruct (Hno a).
Qed.

(** X22: the lines of [/eat] that come before the messages are sent (the
    analysis, the search, the update of the context) raise nothing when the
    analysis is an object; when the language model answers with JSON that is
    no object (a list, a string, a number), they raise [AttributeError].  The
    analysis itself raises nothing. *)
Theorem eat_needs_an_object (user_id : Z) (text : pystr) (contexts : list (Z * pyval))
    (w : world) :
  contexts_ok contexts ->
  exists analysis w1,
    analyze_request rt cfg text (last_context_of user_id contexts) w = (Return analysis, w1) /\
    ((exists a, analysis = PDict a) ->
     exists ans data contexts' w',
       eat rt cfg user_id text contexts w = (Return (ans, data, contexts'), w')) /\
    ((forall a, analysis <> PDict a) ->
     exists w', eat rt cfg user_id text contexts w = (Raise AttributeError, w')).
Proof.
  intros Hok.
  assert (Hctx : context_or_none (last_context_of user_id contexts)).
  { unfold last_context_of. destruct (contexts_find user_id contexts) as [c|] eqn:E; [|now left].
    destruct (contexts_find_ok _ Hok E) as (d & ids & -> & _). right. eauto. }
  destruct (analyze_request_total text w Hctx) as (analysis & w1 & Hrun).
  exists analysis, w1. split; [exact Hrun|].
  unfold eat. fold (last_context_of user_id contexts).
  erewrite bind_step by exact Hrun.
  assert (Hlast : last_context_of user_id contexts = PNone \/
                  exists d ids, last_context_of user_id contexts = PDict d /\
                                dict_find (lit "seen_ids") d = Some (PList ids)).
  { unfold last_context_of. destruct (contexts_find user_id contexts) as [c|] eqn:E; [|now left].
    right. destruct (contexts_find_ok _ Hok E) as (d & ids & -> & Hd). eauto. }
  split.
  - intros (a & ->).
    assert (Hex : exists l, current_exclude_ids (PDict a) (last_context_of user_id contexts)
                            = Return (PList l)).
    { destruct Hlast as [-> | (d & ids & -> & Hd)]; [now exists []|].
      rewrite current_exclude_ids_eq by (destruct d; [discriminate | reflexivity]).
      rewrite Hd. destruct (same_request a d); eauto. }
    destruct Hex as (l & Hex). rewrite Hex.
    erewrite bind_step by reflexivity. erewrite bind_step by reflexivity.
    destruct (run_food_chain_total a text l w1) as ([[ans new_ids] data] & w2 & Hchain).
    erewrite bind_step by exact Hchain. cbn [fst snd].
    unfold remember. destruct new_ids; cbn [py_setitem rbind]; unfold bind, lift, ret; eauto.
  - intros Hno.
    destruct Hlast as [-> | (d & ids & -> & Hd)].
    + unfold current_exclude_ids. cbn [truthy].
      erewrite bind_step by reflexivity. erewrite bind_step by reflexivity.
      unfold bind. rewrite (run_food_chain_no_object text [] w1 Hno). eauto.
    + rewrite (exclude_ids_no_object d Hno) by (rewrite Hd; discriminate).
      unfold bind at 1. unfold lift at 1. eauto.
Qed.

End Chain.

(** ** Runs of the bot on the sample worlds *)

(** No key for the language model and no context: the default analysis. *)
Lemma analysis_falls_back_witness :
  fst (Bot.analyze_request Sample.rt Sample.no_llm (lit "noodles") PNone
         (Sample.world_of [] []))
  = Return Bot.default_analysis.
Proof.
  apply (@analysis_falls_back Sample.rt Sample.no_llm (lit "noodles") PNone
           (Sample.world_of [] [])).
  - now left.
  - now left.
Defined.

(** The request for noodles in Tainan, read from between the fences. *)
Lemma analysis_reads_the_answer_witness :
  fst (Bot.analyze_request Sample.rt Sample.with_llm (lit "noodles") PNone
         Sample.fenced_answer)
  = Return (PDict Sample.noodles_in_tainan).
Proof.
  eapply (@analysis_reads_the_answer Sample.rt Sample.with_llm (lit "noodles") PNone
            Sample.noodles_in_tainan).
  - now left.
  - discriminate.
  - cbn. repeat split. repeat constructor; cbn [In]; intuition discriminate.
  - vm_compute. lia.
  - intros H. vm_compute in H. repeat (destruct H as [H | H]; [discriminate H|]). exact H.
  - reflexivity.
  - right. reflexivity.
Defined.

(** Geocoding fails: the error is the answer, and the language model is not
    called. *)
Lemma failures_and_the_guide_witness :
  exists w1,
    Bot.run_food_chain Sample.rt Sample.with_llm (PDict Sample.noodles_in_tainan)
      (lit "noodles") [] (Sample.world_of [] [])
    = (Return (PStr (msg_cannot_find Sample.rt Sample.tainan), [], []), w1).
Proof.
  eexists.
  refine (proj1 (@failures_and_the_guide Sample.rt Sample.with_llm Sample.noodles_in_tainan
                   (lit "noodles") [] (Sample.world_of [] []) _
                   (msg_cannot_find Sample.rt Sample.tainan) _) _).
  - lazy. reflexivity.
  - right. left. reflexivity.
Defined.

(** A second request for noodles in Tainan by the user who was shown place
    A: place B is shown and stored after it. *)
Lemma eat_keeps_contexts_witness :
  exists ans data contexts' w',
    Bot.eat Sample.rt Sample.no_llm 42 (lit "more") [(42%Z, PDict Sample.seen_a)]
      Sample.second_round
    = (Return (ans, data, contexts'), w') /\
    contexts_ok contexts'.
Proof.
  remember (Bot.eat Sample.rt Sample.no_llm 42 (lit "more") [(42%Z, PDict Sample.seen_a)]
              Sample.second_round) as run eqn:E.
  vm_compute in E. subst run.
  do 4 eexists. split; [reflexivity|].
  eapply (@eat_keeps_contexts Sample.rt Sample.no_llm 42 (lit "more")
            [(42%Z, PDict Sample.seen_a)] _ Sample.second_round).
  - repeat constructor. do 2 eexists. split; reflexivity.
  - vm_compute. reflexivity.
Defined.

(** The same request: the stored identifiers are A, then B. *)
Lemma eat_stores_only_new_ids_witness :
  exists ans data contexts' w' now,
    Bot.eat Sample.rt Sample.no_llm 42 (lit "more") [(42%Z, PDict Sample.seen_a)]
      Sample.second_round
    = (Return (ans, data, contexts'), w') /\
    Bot.contexts_find 42 contexts' = Some (PDict now) /\
    seen_ids_of now = [PStr (lit "A"); PStr (lit "B")].
Proof.
  assert (Hok : contexts_ok [(42%Z, PDict Sample.seen_a)]).
  { repeat constructor. do 2 eexists. split; reflexivity. }
  remember (Bot.eat Sample.rt Sample.no_llm 42 (lit "more") [(42%Z, PDict Sample.seen_a)]
              Sample.second_round) as run eqn:E.
  destruct run as [[[[ans data] contexts']|e] w'];
    [|vm_compute in E; discriminate E].
  symmetry in E.
  destruct (@eat_stores_only_new_ids Sample.rt Sample.no_llm 42 (lit "more")
              [(42%Z, PDict Sample.seen_a)] contexts' Sample.seen_a Sample.second_round
              w' ans data Hok eq_refl E)
    as (now & Hnow & Hsame).
  exists ans, data, contexts', w', now. split; [reflexivity|]. split; [exact Hnow|].
  vm_compute in E. injection E as <- <- <- <-.
  vm_compute in Hnow. injection Hnow as <-. reflexivity.
Defined.

(** The same request when the language model cannot be reached: the answer
    comes. *)
Lemma eat_needs_an_object_witness :
  exists ans data contexts' w',
    Bot.eat Sample.rt Sample.no_llm 42 (lit "more") [(42%Z, PDict Sample.seen_a)]
      Sample.second_round
    = (Return (ans, data, contexts'), w').
Proof.
  destruct (@eat_needs_an_object Sample.rt Sample.no_llm 42 (lit "more")
              [(42%Z, PDict Sample.seen_a)] Sample.second_round)
    as (analysis & w1 & Hrun & Hdict & _).
  - repeat constructor. do 2 eexists. split; reflexivity.
  - apply Hdict. vm_compute in Hrun. injection Hrun as <- _. eauto.
Defined.


(** * [find_food] of [webui_tool.py] *)

Section Webui.

Variable rt : runtime.
Variables keyword location max_travel_time min_rating min_reviews : pyval.

Lemma webui_details_total (place_id : pyval) (w : world) :
  exists info w', WebuiTool.get_place_details place_id w = (Return info, w').
Proof.
  unfold WebuiTool.get_place_details. apply try_except_total.
Qed.

Lemma webui_describe_all (places : list pyval) :
  Forall has_place_id places ->
  forall w, exists data w',
    mapM (WebuiTool.describe rt) places w = (Return data, w') /\
    length data = length places.
Proof.
  induction 1 as [|p places (d & pid & -> & Hpid) _ IH]; intros w; cbn [mapM].
  - exists [], w. split; reflexivity.
  - destruct (webui_details_total pid w) as (info & w1 & Hd).
    destruct (IH w1) as (data & w2 & Hdata & Hlen).
    assert (He : exists entry, WebuiTool.describe rt (PDict d) w = (Return entry, w1)).
    { unfold WebuiTool.describe.
      erewrite lift_step by (cbn [py_item]; rewrite Hpid; reflexivity).
      erewrite bind_step by exact Hd. unfold lift. cbn [restaurant_entry py_get rbind].
      eauto. }
    destruct He as (entry & He).
    erewrite bind_step by exact He.
    erewrite bind_step by exact Hdata.
    do 2 eexists. split; [reflexivity|]. cbn [length]. now rewrite Hlen.
Qed.

Lemma webui_search_shape (lat lng : pyval) (w w' : world) (out : pystr) :
  WebuiTool.search_and_recommend rt keyword location max_travel_time min_rating min_reviews
    lat lng w = (Return out, w') ->
  webui_message rt location max_travel_time out \/
  webui_prompt rt keyword location max_travel_time out.
Proof.
  unfold WebuiTool.search_and_recommend. intros H.
  apply bind_Return in H as (answer & w1 & _ & H).
  apply bind_Return in H as (status & w2 & _ & H).
  destruct (negb (py_eqb status OK)).
  { injection H as <- _. left. unfold webui_message. tauto. }
  apply bind_Return in H as (results & w3 & _ & H).
  apply bind_Return in H as (places & w4 & _ & H).
  apply bind_Return in H as (candidates & w5 & _ & H).
  destruct candidates as [|c cs].
  { injection H as <- _. left. unfold webui_message. tauto. }
  apply bind_Return in H as (ids & w6 & _ & H).
  apply bind_Return in H as (travel_info & w7 & _ & H).
  apply bind_Return in H as (final_list & w8 & Hfl & H).
  apply lift_Return in Hfl as (Hfl & ->).
  apply within_budget_has_ids in Hfl.
  destruct final_list as [|p fl'].
  { injection H as <- _. left. unfold webui_message. tauto. }
  remember (p :: fl') as fl eqn:Efl.
  destruct (random_sample_spec w7 (Nat.le_min_r 3 (length fl)) Hfl)
    as (selected & w9 & Hsel & Hlen & Hids).
  erewrite bind_step in H by exact Hsel.
  destruct (webui_describe_all Hids w9) as (data & w10 & Hdata & Hdlen).
  erewrite bind_step in H by exact Hdata.
  injection H as <- _. right. exists data. split; [reflexivity|].
  rewrite Hdlen, Hlen. subst fl. cbn [length]. lia.
Qed.

(** X23: whatever the arguments and whatever the upstream calls do, [find_food]
    of [webui_tool.py] returns a string and raises nothing: one of its six
    messages, or the prompt over one to three restaurants. *)
Theorem webui_find_food_never_raises (w : world) :
  exists out w',
    WebuiTool.find_food rt keyword location max_travel_time min_rating min_reviews w
      = (Return out, w') /\
    (webui_message rt location max_travel_time out \/
     webui_prompt rt keyword location max_travel_time out).
Proof.
  unfold WebuiTool.find_food.
  destruct (_ || _).
  { do 2 eexists. split; [reflexivity|]. left. unfold webui_message. tauto. }
  unfold WebuiTool.get_coordinates.
  destruct (get_coordinates_total WebuiTool.self location w) as (lat & lng & w1 & Hloc).
  erewrite bind_step by exact Hloc. cbn [fst snd].
  destruct (negb (truthy lat)).
  { do 2 eexists. split; [reflexivity|]. left. unfold webui_message. tauto. }
  unfold try_except.
  destruct (WebuiTool.search_and_recommend rt keyword location max_travel_time
              min_rating min_reviews lat lng w1) as [[out|e] w2] eqn:Hrun.
  - do 2 eexists. split; [reflexivity|]. eapply webui_search_shape; eassumption.
  - do 2 eexists. split; [reflexivity|]. left. unfold webui_message. do 5 right. eauto.
Qed.

End Webui.
